(** * waybar-ai-usage: window parsing, ETA formatting, window
      classification and the output template engine

    A shallow embedding of [common.py], [claude.py] and [codex.py].

    Conventions of the embedding.
    - A Python [str] is a Rocq [string] holding its UTF-8 text, as Rocq
      string literals do.  All delimiters the program looks for are ASCII,
      and no byte of a multi-byte UTF-8 sequence is ASCII, so searching for
      them byte-wise agrees with searching code-point-wise.
    - A Python exception is a value of [exn]; code that can raise returns an
      [outcome].  [Beyond] marks what the embedding does not describe of
      the interpreter's own library: [str.format] with conversions, format
      specs, attribute or index access, and the Unicode tables of letters
      and digits beyond ASCII.  Nothing is claimed about a run that ends
      there.
    - A finite Python [float] is the rational number it denotes ([Q]);
      [nan] and the infinities are not represented.  A usage in which a
      utilization is one of them (the strings "inf" and "nan", a JSON
      number beyond the range of a float) lies outside the embedding: on
      it the [int(round(...))] of [print_waybar] raises [OverflowError]
      or [ValueError], which nothing catches.  Every statement about
      utilizations below is one about finite numbers.
    - [float] of a string and the reading of ISO dates are taken from the
      interpreter as they are, in a [runtime].
    - [datetime.now] is an input: every call site receives its own clock
      reading, in microseconds since the epoch. *)

From Stdlib Require Import ZArith QArith Qround Qabs Lia Ascii.
From stdpp Require Import base option list strings pretty gmap.

Local Open Scope Z_scope.

(** ** Outcomes of Python code *)

Inductive exn : Type :=
| KeyError (key : string)
| IndexError
| ValueError
| TypeError
| AttributeError.

Inductive outcome (A : Type) : Type :=
| Ok (a : A)
| Raise (e : exn)
| Beyond.
Arguments Ok {A} a.
Arguments Raise {A} e.
Arguments Beyond {A}.

#[global] Instance outcome_ret : MRet outcome := fun _ a => Ok a.
#[global] Instance outcome_bind : MBind outcome := fun _ _ f m =>
  match m with
  | Ok a => f a
  | Raise e => Raise e
  | Beyond => Beyond
  end.

Definition raises {A} (m : outcome A) : Prop := exists e, m = Raise e.

(** ** Strings *)

Module Str.

Definition eqb (a b : string) : bool := bool_decide (a = b).

Fixpoint drop (n : nat) (s : string) : string :=
  match n, s with
  | O, _ => s
  | S _, EmptyString => EmptyString
  | S k, String _ s' => drop k s'
  end.

Fixpoint rev_onto (s acc : string) : string :=
  match s with
  | EmptyString => acc
  | String c s' => rev_onto s' (String c acc)
  end.
Definition rev (s : string) : string := rev_onto s EmptyString.

(** [sub in s]: Python's [sub in s]. *)
Fixpoint contains (sub s : string) : bool :=
  String.prefix sub s ||
  match s with
  | EmptyString => false
  | String _ s' => contains sub s'
  end.

Fixpoint mem (c : ascii) (s : string) : bool :=
  match s with
  | EmptyString => false
  | String d s' => bool_decide (c = d) || mem c s'
  end.

(** [s.endswith(suffix)] *)
Definition endswith (s suffix : string) : bool :=
  String.prefix (rev suffix) (rev s).

(** [s[:-1]] *)
Fixpoint drop_last (s : string) : string :=
  match s with
  | EmptyString => EmptyString
  | String c s' =>
      match s' with
      | EmptyString => EmptyString
      | String _ _ => String c (drop_last s')
      end
  end.

(** [s.split(sep)] for a one-character separator: every occurrence
    splits, so there is always one more part than separators. *)
Fixpoint split (sep : ascii) (s : string) : list string :=
  match s with
  | EmptyString => [EmptyString]
  | String c s' =>
      if bool_decide (c = sep) then EmptyString :: split sep s'
      else match split sep s' with
           | p :: ps => String c p :: ps
           | [] => [String c EmptyString]
           end
  end.

(** White space as [str.strip] sees it ([Py_UNICODE_ISSPACE]), given in
    UTF-8.  One-byte characters first. *)
Definition space1 (c : ascii) : bool :=
  let n := N_of_ascii c in
  ((9 <=? n) && (n <=? 13) || (28 <=? n) && (n <=? 32))%N.

(** Number of bytes of the white-space character a string starts with,
    0 when it starts with none: U+0085, U+00A0, U+1680, U+2000..U+200A,
    U+2028, U+2029, U+202F, U+205F, U+3000 besides the one-byte ones. *)
Definition space_prefix (s : string) : nat :=
  match s with
  | String c s1 =>
      if space1 c then 1%nat else
      match N_of_ascii c, s1 with
      | 194%N, String d _ =>
          let n := N_of_ascii d in
          if ((n =? 133) || (n =? 160))%N then 2%nat else 0%nat
      | 225%N, String d (String e _) =>
          if ((N_of_ascii d =? 154) && (N_of_ascii e =? 128))%N
          then 3%nat else 0%nat
      | 226%N, String d (String e _) =>
          let m := N_of_ascii d in
          let n := N_of_ascii e in
          if ((m =? 128) &&
              ((128 <=? n) && (n <=? 138) || (n =? 168) || (n =? 169)
               || (n =? 175)) || (m =? 129) && (n =? 159))%N
          then 3%nat else 0%nat
      | 227%N, String d (String e _) =>
          if ((N_of_ascii d =? 128) && (N_of_ascii e =? 128))%N
          then 3%nat else 0%nat
      | _, _ => 0%nat
      end
  | EmptyString => 0%nat
  end.

(** The same, read from the end of the string: the argument is the
    string reversed, so the bytes of a character come last-first. *)
Definition space_suffix (r : string) : nat :=
  match r with
  | String c r1 =>
      if space1 c then 1%nat else
      match r1 with
      | String d r2 =>
          let n := N_of_ascii c in
          let m := N_of_ascii d in
          if ((m =? 194) && ((n =? 133) || (n =? 160)))%N then 2%nat else
          match r2 with
          | String e _ =>
              let l := N_of_ascii e in
              if ((l =? 225) && (m =? 154) && (n =? 128)
                  || (l =? 226) && (m =? 128) &&
                     ((128 <=? n) && (n <=? 138) || (n =? 168)
                      || (n =? 169) || (n =? 175))
                  || (l =? 226) && (m =? 129) && (n =? 159)
                  || (l =? 227) && (m =? 128) && (n =? 128))%N
              then 3%nat else 0%nat
          | EmptyString => 0%nat
          end
      | EmptyString => 0%nat
      end
  | EmptyString => 0%nat
  end.

(** Removes from the front of [s] the characters that [width] measures
    as white space.  [skip] counts the bytes of the last one that are
    still to be passed over. *)
Fixpoint strip_front (width : string -> nat) (skip : nat) (s : string)
  : string :=
  match s with
  | EmptyString => EmptyString
  | String _ s' =>
      match skip with
      | S k => strip_front width k s'
      | O => match width s with
             | O => s
             | S n => strip_front width n s'
             end
      end
  end.

(** [s.strip()] *)
Definition strip (s : string) : string :=
  let l := strip_front space_prefix O s in
  rev (strip_front space_suffix O (rev l)).

End Str.

(** ** Values of the data mapping and [str.format] *)

(** The values [print_waybar] stores in the mapping handed to
    [format_output]: strings and integers. *)
Inductive pyval : Type :=
| VStr (s : string)
| VInt (n : Z).

(** Truth value of an object. *)
Definition truthy (v : pyval) : bool :=
  match v with
  | VStr s => negb (Str.eqb s EmptyString)
  | VInt n => negb (n =? 0)
  end.

(** [v != s] for a string [s]: an integer is never equal to a string. *)
Definition differs_from (s : string) (v : pyval) : bool :=
  match v with
  | VStr t => negb (Str.eqb t s)
  | VInt _ => true
  end.

(** [format(v, spec)] for the empty [spec], which is [str(v)] for both
    kinds of value. *)
Definition py_str (v : pyval) : string :=
  match v with
  | VStr s => s
  | VInt n => pretty n
  end.

Module Format.

Definition is_digit (c : ascii) : bool :=
  let n := N_of_ascii c in ((48 <=? n) && (n <=? 57))%N.

(** Value of a string of decimal digits, [None] when some character is
    not a digit. *)
Fixpoint digits_onto (acc : Z) (s : string) : option Z :=
  match s with
  | EmptyString => Some acc
  | String c s' =>
      if is_digit c
      then digits_onto (10 * acc + Z.of_N (N_of_ascii c) - 48) s'
      else None
  end.

Definition PY_SSIZE_T_MAX : Z := 2 ^ 63 - 1.

Definition is_ascii (c : ascii) : bool := (N_of_ascii c <? 128)%N.

(** Can the name be a number for Python without being one of ASCII
    digits?  Every character of a number is a decimal digit of some
    script; which characters beyond ASCII are digits is not described
    here, so a name of ASCII digits and non-ASCII characters only is left
    open. *)
Fixpoint maybe_number (s : string) : bool :=
  match s with
  | EmptyString => true
  | String c s' => (is_digit c || negb (is_ascii c)) && maybe_number s'
  end.

(** The object a replacement field [{name}] stands for when [format] is
    called with keyword arguments only: an empty name numbers the field
    automatically and a name that is a number is an index, and both look
    into the empty tuple of positional arguments; any other name is a
    keyword. *)
Definition get_field (data : gmap string pyval) (name : string)
  : outcome string :=
  match digits_onto 0 name with
  | Some n => if PY_SSIZE_T_MAX <? n then Raise ValueError
              else Raise IndexError
  | None =>
      if maybe_number name then Beyond
      else match data !! name with
           | Some v => Ok (py_str v)
           | None => Raise (KeyError name)
           end
  end.

(** Characters that end the plain name of a field and start a
    conversion, a format spec, an attribute or an index. *)
Definition starts_suffix (c : ascii) : bool :=
  Str.mem c ".[:!".

(** The scanner of [str.format], one character at a time.  [field] is
    [None] in literal text and [Some name] inside a replacement field,
    [name] being what has been read of it.  Text and fields are
    rendered from left to right, so the first failure is the one
    raised. *)
Fixpoint scan (data : gmap string pyval) (field : option string)
  (s : string) : outcome string :=
  match field with
  | None =>
      match s with
      | EmptyString => Ok EmptyString
      | String c s' =>
          if bool_decide (c = "{"%char) then
            match s' with
            | EmptyString => Raise ValueError
            | String d s'' =>
                if bool_decide (d = "{"%char)
                then r ← scan data None s''; Ok (String c r)
                else scan data (Some EmptyString) s'
            end
          else if bool_decide (c = "}"%char) then
            match s' with
            | EmptyString => Raise ValueError
            | String d s'' =>
                if bool_decide (d = "}"%char)
                then r ← scan data None s''; Ok (String c r)
                else Raise ValueError
            end
          else r ← scan data None s'; Ok (String c r)
      end
  | Some name =>
      match s with
      | EmptyString => Raise ValueError
      | String c s' =>
          if bool_decide (c = "}"%char) then
            v ← get_field data name;
            r ← scan data None s';
            Ok (v +:+ r)
          else if bool_decide (c = "{"%char) then Raise ValueError
          else if starts_suffix c then Beyond
          else scan data (Some (name +:+ String c EmptyString)) s'
      end
  end.

End Format.

(** [template.format] called with the mapping as keyword arguments *)
Definition py_format (template : string) (data : gmap string pyval)
  : outcome string :=
  Format.scan data None template.

(** ** The two regular expressions of [format_output] and [re.sub] *)

Module Re.

Definition newline : ascii := "010"%char.

(** Longest prefix of [s] whose characters satisfy [p], and the rest. *)
Fixpoint span (p : ascii -> bool) (s : string) : string * string :=
  match s with
  | EmptyString => (EmptyString, EmptyString)
  | String c s' =>
      if p c then let '(a, b) := span p s' in (String c a, b)
      else (EmptyString, s)
  end.

(** [(.*?)closer]: the lazy group takes the text before the first
    occurrence of [closer], which must come before any line break
    ([.] does not match one).  Gives the group and what follows the
    closer. *)
Fixpoint lazy_until (closer : string) (s : string)
  : option (string * string) :=
  if String.prefix closer s
  then Some (EmptyString, Str.drop (String.length closer) s)
  else match s with
       | EmptyString => None
       | String c s' =>
           if bool_decide (c = newline) then None
           else match lazy_until closer s' with
                | Some (body, rest) => Some (String c body, rest)
                | None => None
                end
       end.

(** [[^}]+&[^}]+] against the whole text between [{?] and the first
    [}]: some [&] has a character before it and one after it. *)
Definition amp_inside (hdr : string) : bool :=
  match hdr with
  | EmptyString => false
  | String _ t => Str.mem "&"%char (Str.drop_last t)
  end.

(** What a pattern finds at the start of a text: nothing, or groups 1 and
    2 and the text after the match. *)
Definition found : Type := option (string * string * string).

(** [\{\?([^}]+&[^}]+)\}(.*?)\{/\}] matched at the start of [s].
    Group 1 cannot hold a [}] and is followed by one, so it is all the
    text up to the first [}]. *)
Definition match_multi (s : string) : outcome found :=
  match s with
  | String "{" (String "?" t) =>
      let '(hdr, rest) := span (fun c => negb (bool_decide (c = "}"%char))) t in
      match rest with
      | EmptyString => Ok None
      | String _ body =>
          if amp_inside hdr then
            match lazy_until "{/}" body with
            | Some (content, after) => Ok (Some (hdr, content, after))
            | None => Ok None
            end
          else Ok None
      end
  | _ => Ok None
  end.

(** [\w] on an ASCII character.  Python also counts the letters and
    digits of the other scripts, by Unicode tables that are not described
    here. *)
Definition is_word (c : ascii) : bool :=
  let n := N_of_ascii c in
  ((48 <=? n) && (n <=? 57) || (65 <=? n) && (n <=? 90)
   || (97 <=? n) && (n <=? 122) || (n =? 95))%N.

(** [\{\?(\w+)\}(.*?)\{/\1\}] matched at the start of [s].  The greedy
    [\w+] must stop at a [}], so group 1 is the longest run of word
    characters.  When the run of ASCII word characters is followed by a
    non-ASCII character, whether the run goes on is left open. *)
Definition match_single (s : string) : outcome found :=
  match s with
  | String "{" (String "?" t) =>
      let '(name, rest) := span is_word t in
      match rest with
      | EmptyString => Ok None
      | String c body =>
          if negb (Format.is_ascii c) then Beyond
          else if bool_decide (c = "}"%char)
                  && negb (Str.eqb name EmptyString) then
            match lazy_until ("{/" +:+ name +:+ "}") body with
            | Some (content, after) => Ok (Some (name, content, after))
            | None => Ok None
            end
          else Ok None
      end
  | _ => Ok None
  end.

(** [re.sub(pattern, repl, s)] with a function [repl] of the two groups:
    the leftmost match is replaced and the search resumes right after
    it.  [skip] counts the characters of the last match that are still
    to be passed over.  A replacement that raises ends the call. *)
Fixpoint sub_from (matcher : string -> outcome found)
  (repl : string -> string -> outcome string) (skip : nat) (s : string)
  : outcome string :=
  match s with
  | EmptyString => Ok EmptyString
  | String c s' =>
      match skip with
      | S k => sub_from matcher repl k s'
      | O =>
          m ← matcher s;
          match m with
          | Some (g1, g2, after) =>
              out ← repl g1 g2;
              r ← sub_from matcher repl
                    (String.length s' - String.length after) s';
              Ok (out +:+ r)
          | None =>
              r ← sub_from matcher repl O s';
              Ok (String c r)
          end
      end
  end.

Definition sub matcher repl (s : string) : outcome string :=
  sub_from matcher repl O s.

End Re.

(** ** common.py: [format_output] *)

Definition NOT_STARTED : string := "Not started".

(** [value and value != NOT_STARTED], where [value] is [data.get(name)]
    with the empty string as default *)
Definition shown (data : gmap string pyval) (name : string) : bool :=
  let value := default (VStr EmptyString) (data !! name) in
  truthy value && differs_from NOT_STARTED value.

Definition replace_multi_conditional (data : gmap string pyval)
  (group1 content : string) : outcome string :=
  let var_names := Str.split "&"%char group1 in
  let all_valid := forallb (fun v => shown data (Str.strip v)) var_names in
  if all_valid then py_format content data else Ok EmptyString.

Definition replace_conditional (data : gmap string pyval)
  (var_name content : string) : outcome string :=
  if shown data var_name then py_format content data else Ok EmptyString.

Definition format_output (format_string : string)
  (data : gmap string pyval) : outcome string :=
  result ← Re.sub Re.match_multi (replace_multi_conditional data)
             format_string;
  result ← Re.sub Re.match_single (replace_conditional data) result;
  py_format result data.

(** ** Floats *)

Module Float.

Local Open Scope Q_scope.

(** Nearest integer, ties to the even one: [round(x)] and the rounding
    of the [.0f] and [.1f] presentations. *)
Definition round_half_even (x : Q) : Z :=
  let f := Qfloor x in
  match Qcompare (x - inject_Z f) (1 # 2) with
  | Lt => f
  | Gt => (f + 1)%Z
  | Eq => if Z.even f then f else (f + 1)%Z
  end.

(** [int(x)]: truncation towards zero. *)
Definition trunc (x : Q) : Z := Z.quot (Qnum x) (Zpos (Qden x)).

(** Position of the leading bit of a positive rational. *)
Definition ilog2 (x : Q) : Z :=
  let k := (Z.log2 (Qnum x) - Z.log2 (Zpos (Qden x)))%Z in
  if Qle_bool (Qpower 2 k) x then k else (k - 1)%Z.

Definition nearest_pos (x : Q) : Q :=
  let e := Z.max (ilog2 x - 52) (-1074) in
  inject_Z (round_half_even (x / Qpower 2 e)) * Qpower 2 e.

(** The binary64 number nearest to a rational (ties to even), [None]
    when it is out of range: the result of a correctly rounded
    operation whose exact value is [x]. *)
Definition nearest (x : Q) : option Q :=
  let y := match Qnum x with
           | Z0 => 0
           | Zpos _ => nearest_pos x
           | Zneg _ => - nearest_pos (- x)
           end in
  if Qle_bool (Qpower 2 1024) (Qabs y) then None else Some y.

Definition eqb (x y : Q) : bool := Qeq_bool x y.
Definition leb (x y : Q) : bool := Qle_bool x y.
Definition ltb (x y : Q) : bool := negb (Qle_bool y x).

Fixpoint spaces (n : nat) : string :=
  match n with
  | O => EmptyString
  | S k => String " " (spaces k)
  end.

(** Right alignment in a field of [width] characters. *)
Definition rjust (width : nat) (s : string) : string :=
  spaces (width - String.length s) +:+ s.

(** [format(x, ".0f")] *)
Definition fixed0 (x : Q) : string :=
  let n := round_half_even x in
  if (n =? 0)%Z && ltb x 0 then "-0" else pretty n.

(** [format(x, ".1f")] *)
Definition fixed1 (x : Q) : string :=
  let n := Z.abs (round_half_even (x * 10)) in
  (if ltb x 0 then "-" else EmptyString)
    +:+ pretty (n / 10)%Z +:+ "." +:+ pretty (n mod 10)%Z.

End Float.

(** ** JSON values as [json.loads] returns them

    A dict is given by its items; a key occurs once among them
    ([json.loads] keeps the last value of a repeated key). *)

#[warnings="-register-all"]
Inductive json : Type :=
| JNull
| JBool (b : bool)
| JInt (n : Z)
| JFloat (x : Q)
| JStr (s : string)
| JList (items : list json)
| JObj (items : list (string * json)).

Module Json.

(** Truth value of an object. *)
Definition truthy (v : json) : bool :=
  match v with
  | JNull => false
  | JBool b => b
  | JInt n => negb (n =? 0)
  | JFloat x => negb (Float.eqb x 0)
  | JStr s => negb (Str.eqb s EmptyString)
  | JList l => match l with [] => false | _ => true end
  | JObj l => match l with [] => false | _ => true end
  end.

(** [a or b] *)
Definition or (a b : json) : json := if truthy a then a else b.

Fixpoint assoc (items : list (string * json)) (key : string)
  : option json :=
  match items with
  | [] => None
  | (k, v) :: rest => if Str.eqb k key then Some v else assoc rest key
  end.

(** [obj.get(key, dflt)]; only a dict has the method. *)
Definition get (obj : json) (key : string) (dflt : json) : outcome json :=
  match obj with
  | JObj items => Ok (default dflt (assoc items key))
  | _ => Raise AttributeError
  end.

(** The number a value stands for in arithmetic and comparisons
    ([bool] is a subtype of [int]); [None] for the other types. *)
Definition number (v : json) : option Q :=
  match v with
  | JBool b => Some (inject_Z (Z.b2z b))
  | JInt n => Some (inject_Z n)
  | JFloat x => Some x
  | _ => None
  end.

(** [v == 0] *)
Definition is_zero (v : json) : bool :=
  match number v with
  | Some x => Float.eqb x 0
  | None => false
  end.

End Json.

(** ** What the development takes from the interpreter's library

    [float_of_str s] is [float(s)], a finite number, [None] when it
    raises; a string read as [nan] or an infinity is not described.
    [fromisoformat s] is the instant, in microseconds since the epoch, of
    [datetime.fromisoformat(s)] when that is a datetime with an offset;
    [None] when the call raises or the result has no offset (subtracting
    it from the offset-aware [now] raises [TypeError] within the same
    [try]). [fromtimestamp_float x] is the instant of
    [datetime.fromtimestamp(x, tz=timezone.utc)] for a float [x], [None]
    when it raises.  [traceback e] is the text the interpreter writes to
    the error stream when the run ends on the exception [e], which
    nothing has caught. *)
Record runtime : Type := {
  float_of_str : string -> option Q;
  fromisoformat : string -> option Z;
  fromtimestamp_float : Q -> option Z;
  traceback : exn -> string
}.

(** ** common.py *)

Record WindowUsage : Type := {
  utilization : Q;
  resets_at : json
}.

(** [float(v)], [None] when it raises (every exception it can raise is
    caught by the [except Exception] of the parsers).  The result is a
    finite number: a [v] on which [float] gives [nan] or an infinity is
    not described. *)
Definition py_float (rt : runtime) (v : json) : option Q :=
  match v with
  | JBool b => Some (inject_Z (Z.b2z b))
  | JInt n => Float.nearest (inject_Z n)
  | JFloat x => Some x
  | JStr s => float_of_str rt s
  | JNull | JList _ | JObj _ => None
  end.

Definition parse_window_percent (rt : runtime) (raw : json) (key : string)
  : outcome WindowUsage :=
  let raw := Json.or raw (JObj []) in
  v ← Json.get raw key JNull;
  let util := Json.or v (JInt 0) in
  resets ← Json.get raw "resets_at" JNull;
  let util_f := match py_float rt util with
                | Some x => x
                | None => 0%Q
                end in
  Ok {| utilization := util_f; resets_at := resets |}.

Definition parse_window_direct (rt : runtime) (raw : json)
  : outcome WindowUsage :=
  let raw := Json.or raw (JObj []) in
  v ← Json.get raw "used_percent" JNull;
  let used := Json.or v (JInt 0) in
  reset_at ← Json.get raw "reset_at" JNull;
  let used_f := match py_float rt used with
                | Some x => x
                | None => 0%Q
                end in
  Ok {| utilization := used_f; resets_at := reset_at |}.

(** First and last second [datetime] can represent, counted from the
    epoch: years 1 to 9999. *)
Definition MIN_TIMESTAMP : Z := -62135596800.
Definition MAX_TIMESTAMP : Z := 253402300799.

(** [datetime.fromtimestamp(v, tz=timezone.utc)], in microseconds since
    the epoch; [None] when it raises. *)
Definition fromtimestamp (rt : runtime) (v : json) : option Z :=
  match v with
  | JBool b =>  Some (Z.b2z b * 1000000)
  | JInt n =>
      if (MIN_TIMESTAMP <=? n) && (n <=? MAX_TIMESTAMP)
      then Some (n * 1000000) else None
  | JFloat x => fromtimestamp_float rt x
  | _ => None
  end.

(** The [try] block shared by [format_eta] and the unused-window test of
    [claude.py]: [reset_dt - now] in microseconds, [None] when the block
    raises.  [now] is the reading of [datetime.now(timezone.utc)]. *)
Definition time_until (rt : runtime) (now : Z) (reset_at : json)
  : option Z :=
  reset_dt ← match reset_at with
             | JStr s =>
                 let s := if Str.endswith s "Z"
                          then Str.drop_last s +:+ "+00:00" else s in
                 fromisoformat rt s
             | _ => fromtimestamp rt reset_at
             end;
  Some (reset_dt - now).

(** [int(delta.total_seconds())]: the quotient by a million is a
    correctly rounded float, then truncated.  A difference of two
    datetimes is far from the range limit of floats. *)
Definition whole_seconds (delta : Z) : Z :=
  match Float.nearest (delta # 1000000) with
  | Some x => Float.trunc x
  | None => 0
  end.

(** [format(n, "02")] *)
Definition pad2 (n : Z) : string :=
  let s := pretty n in
  if (String.length s <? 2)%nat then "0" +:+ s else s.

(** The part of [format_eta] after the [try] block. *)
Definition format_secs (secs : Z) : string :=
  if secs <=? 0 then "0m00s"
  else if 86400 <=? secs then
    let days := secs / 86400 in
    let hours := (secs mod 86400) / 3600 in
    pretty days +:+ "d" +:+ pad2 hours +:+ "h"
  else if 3600 <=? secs then
    let hours := secs / 3600 in
    let mins := (secs mod 3600) / 60 in
    pretty hours +:+ "h" +:+ pad2 mins +:+ "m"
  else
    let mins := secs / 60 in
    let secs_rem := secs mod 60 in
    pretty mins +:+ "m" +:+ pad2 secs_rem +:+ "s".

Definition ETA_ABSENT : string := "0′00″".
Definition ETA_ERROR : string := "??′??″".

Definition format_eta (rt : runtime) (now : Z) (reset_at : json) : string :=
  if negb (Json.truthy reset_at) then ETA_ABSENT
  else match time_until rt now reset_at with
       | None => ETA_ERROR
       | Some delta => format_secs (whole_seconds delta)
       end.

(** ** common.py: [load_cookies] *)

Definition DEFAULT_BROWSERS : list string :=
  ["chrome"; "chromium"; "brave"; "edge"; "firefox"].

(** What [browser_cookie3] offers: [getattr(browser_cookie3, name, None)]
    is [None] or an attribute, and calling the attribute with the domain
    and reading the jar it returns either raises an exception, given by
    its [str], or gives the cookies, name and value, in the order of the
    jar. *)
Definition cookie_lib : Type :=
  string -> option (string -> string + list (string * string)).

(** [{c.name: c.value for c in cj}]: a later cookie of the same name
    replaces an earlier one. *)
Definition cookie_dict (jar : list (string * string)) : gmap string string :=
  foldl (fun m c => <[c.1 := c.2]> m) ∅ jar.

(** The loop of [load_cookies] over the browsers still to try, [errors]
    being the list built so far.  [inl msg] stands for
    [raise RuntimeError(msg)]. *)
Fixpoint load_cookies_from (lib : cookie_lib) (domain : string)
  (browsers : list string) (errors : list string)
  : string + (gmap string string * string) :=
  match browsers with
  | [] =>
      let detail := match errors with
                    | [] => "no browsers provided"
                    | _ => String.concat "; " errors
                    end in
      inl ("Failed to read cookies for " +:+ domain +:+ ": " +:+ detail)
  | name :: rest =>
      match lib name with
      | None =>
          load_cookies_from lib domain rest
            (errors ++ [name +:+ ": unsupported by browser_cookie3"])
      | Some loader =>
          match loader domain with
          | inl exc =>
              load_cookies_from lib domain rest
                (errors ++ [name +:+ ": " +:+ exc])
          | inr jar =>
              let cookies := cookie_dict jar in
              if bool_decide (cookies = ∅)
              then load_cookies_from lib domain rest
                     (errors ++ [name +:+ ": no cookies found"])
              else inr (cookies, name)
          end
      end
  end.

(** [browsers or DEFAULT_BROWSERS]: an empty list counts as false. *)
Definition load_cookies (lib : cookie_lib) (domain : string)
  (browsers : option (list string))
  : string + (gmap string string * string) :=
  let browsers := match browsers with
                  | Some (b :: bs) => b :: bs
                  | _ => DEFAULT_BROWSERS
                  end in
  load_cookies_from lib domain browsers [].

(** ** The network, as [requests.get] of [curl_cffi] shows it

    Every call passes [impersonate="chrome"] and [timeout=10]; what
    varies is the URL, the cookies and the headers.  A header is plain
    text or [f"Bearer {token}"] for a value [token] of the session
    reply. *)

Inductive header_value : Type :=
| Plain (s : string)
| Bearer (token : json).

Record request : Type := {
  req_url : string;
  req_cookies : gmap string string;
  req_headers : list (string * header_value)
}.

(** The call raises an exception, given by its [str], or returns a
    response: its status code, what [raise_for_status] does ([Some msg]
    when it raises) and what [json] does (the message of the exception
    it raises, or the value). *)
Inductive reply : Type :=
| NoReply (exc : string)
| Reply (status_code : Z) (http_error : option string) (body : string + json).

(** The reply to a request, given how many requests the run has made
    before. *)
Definition network : Type := nat -> request -> reply.

(** [type(v).__name__] *)
Definition json_type_name (v : json) : string :=
  match v with
  | JNull => "NoneType"
  | JBool _ => "bool"
  | JInt _ => "int"
  | JFloat _ => "float"
  | JStr _ => "str"
  | JList _ => "list"
  | JObj _ => "dict"
  end.

(** [str(last_error)] *)
Definition str_of_error (last_error : option string) : string :=
  default "None" last_error.

(** ** What both programs share besides common.py *)

(** The parsed command line. *)
Record cli_args : Type := {
  waybar : bool;
  browser : option (list string);
  format : option string;
  tooltip_format : option string;
  show_5h : bool
}.

(** What a run leaves behind. [JsonDump indent v] is the text
    [json.dumps(v, indent=indent)]. *)
Inductive out_item : Type :=
| Line (s : string)
| JsonDump (indent : option nat) (v : json).

(** How a run ends: by [sys.exit(code)] or by reaching the end of the
    program ([Exit 0]); on an exception that nothing catches, after
    which the interpreter writes the traceback to the error stream and
    exits with status 1 ([Uncaught e]); or in a way the embedding does
    not describe. *)
Inductive ending : Type :=
| Exit (code : Z)
| Uncaught (e : exn)
| NotModelled.

Record process : Type := {
  stdout : list out_item;
  stderr : list string;
  ended : ending
}.

(** The clock readings of one run, one for each call of [datetime.now]:
    formatting the reset of the short and of the long window, the
    unused-window test, and formatting the reset of the active window. *)
Record clock : Type := {
  now_short : Z;
  now_long : Z;
  now_unused : Z;
  now_active : Z
}.

(** The local variables of [print_waybar] once [data] is built. *)
Record waybar_vars : Type := {
  short_win : WindowUsage;
  long_win : WindowUsage;
  target : WindowUsage;
  win_name : string;
  pct : Z;
  is_unused : bool;
  window_not_started : bool;
  status : string;
  data : gmap string pyval
}.

(** The dict [print_waybar] prints. *)
Record waybar_output : Type := {
  out_text : string;
  out_tooltip : string;
  out_class : string;
  out_alt : string;
  out_percentage : Z
}.

Definition is_none (v : json) : bool :=
  match v with JNull => true | _ => false end.

(** [format_eta(w.resets_at) if w.resets_at else "Not started"] *)
Definition reset_str (rt : runtime) (now : Z) (w : WindowUsage) : string :=
  if Json.truthy (resets_at w) then format_eta rt now (resets_at w)
  else NOT_STARTED.

(** [if s:] for an optional string argument *)
Definition given (s : option string) : option string :=
  match s with
  | Some t => if Str.eqb t EmptyString then None else Some t
  | None => None
  end.

Definition dump_output (o : waybar_output) : out_item :=
  JsonDump None
    (JObj [("text", JStr (out_text o)); ("tooltip", JStr (out_tooltip o));
           ("class", JStr (out_class o)); ("alt", JStr (out_alt o));
           ("percentage", JInt (out_percentage o))]).

Definition dashes : string := "----------------------------------------".

(** ** claude.py *)

Module Claude.

Definition icon_styled : string :=
  "<span foreground='#DE7356' size='large'>󰜡</span>".
Definition time_icon_styled : string :=
  "<span foreground='#DE7356' size='large'>󰔚</span>".

Definition CLAUDE_DOMAIN : string := "claude.ai".

Definition BASE_HEADERS : list (string * header_value) :=
  [("Referer", Plain "https://claude.ai/chats");
   ("Origin", Plain "https://claude.ai");
   ("Accept", Plain "application/json, text/plain, */*")].

(** The body of the [try] in [get_claude_usage]: the value returned, or
    the [str] of the exception raised. *)
Definition request_usage (net : network) (made : nat) (req : request)
  : string + json :=
  match net made req with
  | NoReply exc => inl exc
  | Reply status_code http_error body =>
      if status_code =? 403
      then inl ("403 Forbidden: Try updating browser_cookie3 "
                  +:+ "or refresh the page in browser.")
      else match http_error with
           | Some exc => inl exc
           | None => body
           end
  end.

(** [for attempt in range(2)]: the attempts still to make, the number of
    requests made, the last error and the requests made so far, in
    order.  Both branches of [if attempt == 0] go on with the loop. *)
Fixpoint usage_attempts (net : network) (req : request) (attempts : list nat)
  (made : nat) (last_error : option string) (log : list request)
  : (string + json) * list request :=
  match attempts with
  | [] => (inl ("Request failed: " +:+ str_of_error last_error), log)
  | _ :: rest =>
      match request_usage net made req with
      | inr usage => (inr usage, log ++ [req])
      | inl exc =>
          usage_attempts net req rest (S made) (Some exc) (log ++ [req])
      end
  end.

(** [get_claude_usage(browsers)]: what it returns ([inr]) or the message
    of the [RuntimeError] it raises ([inl]), and the requests it made. *)
Definition get_claude_usage (lib : cookie_lib) (net : network)
  (browsers : option (list string)) : (string + json) * list request :=
  match load_cookies lib CLAUDE_DOMAIN browsers with
  | inl e => (inl ("Failed to read cookies: " +:+ e), [])
  | inr (cookies, _browser) =>
      let org_id := default EmptyString (cookies !! "lastActiveOrg") in
      if Str.eqb org_id EmptyString then
        (inl ("Missing 'lastActiveOrg' in cookies." +:+ String Re.newline
                "Please refresh Claude page in browser or switch Organization."),
         [])
      else
        let url := "https://" +:+ CLAUDE_DOMAIN +:+ "/api/organizations/"
                     +:+ org_id +:+ "/usage" in
        usage_attempts net
          {| req_url := url; req_cookies := cookies;
             req_headers := BASE_HEADERS |}
          [0%nat; 1%nat] O None []
  end.

(** Lines 109 to 133 of [print_waybar]: the window to show, its name
    and its nominal length in seconds. *)
Definition active_window (fh sd : WindowUsage) (show_5h : bool)
  : WindowUsage * string * Z :=
  if show_5h then (fh, "5h", 18000)
  else if Float.leb 100 (utilization sd) then (sd, "7d", 604800)
  else if Float.ltb 80 (utilization sd) then (sd, "7d", 604800)
  else (fh, "5h", 18000).

(** Lines 139 to 158: is the window unused?  A failure inside the
    [try] leaves [is_unused] at [False]. *)
Definition unused_test (rt : runtime) (now : Z) (target : WindowUsage)
  (window_length : Z) : bool :=
  if Float.eqb (utilization target) 0 && Json.truthy (resets_at target)
  then match time_until rt now (resets_at target) with
       | Some delta =>
           let reset_after := whole_seconds delta in
           window_length - 1 <=? reset_after
       | None => false
       end
  else false.

(** Lines 101 to 182: everything [print_waybar] derives from the two
    parsed windows. *)
Definition classify (rt : runtime) (clk : clock) (fh sd : WindowUsage)
  (show_5h : bool) : waybar_vars :=
  let fh_reset_str := reset_str rt (now_short clk) fh in
  let sd_reset_str := reset_str rt (now_long clk) sd in
  let '(target, win_name, window_length) := active_window fh sd show_5h in
  let pct := Float.round_half_even (utilization target) in
  let window_not_started :=
    Float.eqb (utilization target) 0 && is_none (resets_at target) in
  let is_unused := unused_test rt (now_unused clk) target window_length in
  let status :=
    if Float.leb 100 (utilization sd) then "Pause"
    else if is_unused || window_not_started then "Ready"
    else EmptyString in
  let data : gmap string pyval :=
    list_to_map
      [("5h_pct", VInt (Float.round_half_even (utilization fh)));
       ("7d_pct", VInt (Float.round_half_even (utilization sd)));
       ("5h_reset", VStr fh_reset_str);
       ("7d_reset", VStr sd_reset_str);
       ("icon", VStr icon_styled);
       ("icon_plain", VStr "󰜡");
       ("time_icon", VStr time_icon_styled);
       ("time_icon_plain", VStr "󰔚");
       ("status", VStr status);
       ("pct", VInt pct);
       ("reset", VStr (reset_str rt (now_active clk) target));
       ("win", VStr win_name)] in
  {| short_win := fh; long_win := sd; target := target;
     win_name := win_name; pct := pct; is_unused := is_unused;
     window_not_started := window_not_started; status := status;
     data := data |}.

(** Lines 94 to 182 of [print_waybar]. *)
Definition print_waybar_vars (rt : runtime) (clk : clock) (usage : json)
  (show_5h : bool) : outcome waybar_vars :=
  five_hour ← Json.get usage "five_hour" JNull;
  fh ← parse_window_percent rt five_hour "utilization";
  seven_day ← Json.get usage "seven_day" JNull;
  sd ← parse_window_percent rt seven_day "utilization";
  Ok (classify rt clk fh sd show_5h).

(** Lines 184 to 223: the dict that is printed. *)
Definition print_waybar (rt : runtime) (clk : clock) (usage : json)
  (format_str tooltip_format : option string) (show_5h : bool)
  : outcome waybar_output :=
  v ← print_waybar_vars rt clk usage show_5h;
  let fh := short_win v in
  let sd := long_win v in
  let reset := py_str (default (VStr EmptyString) (data v !! "reset")) in
  text ← match given format_str with
         | Some f => format_output f (data v)
         | None =>
             Ok (if Str.eqb (status v) "Pause" then icon_styled +:+ " Pause"
                 else if Str.eqb (status v) "Ready"
                 then icon_styled +:+ " Ready"
                 else icon_styled +:+ " " +:+ pretty (pct v) +:+ "% "
                        +:+ time_icon_styled +:+ " " +:+ reset)
         end;
  tooltip ← match given tooltip_format with
            | Some f => format_output f (data v)
            | None =>
                Ok ("Window     Used    Reset" +:+ String Re.newline
                    ("━━━━━━━━━━━━━━━━━━━━━━━━" +:+ String Re.newline
                    ("5-Hour     "
                       +:+ Float.rjust 3 (Float.fixed0 (utilization fh))
                       +:+ "%    " +:+ reset_str rt (now_short clk) fh
                       +:+ String Re.newline
                    ("7-Day      "
                       +:+ Float.rjust 3 (Float.fixed0 (utilization sd))
                       +:+ "%    " +:+ reset_str rt (now_long clk) sd
                       +:+ String Re.newline
                    (String Re.newline "Click to Refresh")))))
            end;
  let cls := if pct v <? 50 then "claude-low"
             else if pct v <? 80 then "claude-mid"
             else "claude-high" in
  Ok {| out_text := text; out_tooltip := tooltip; out_class := cls;
        out_alt := win_name v;
        out_percentage :=
          if show_5h then Float.round_half_even (utilization fh)
          else pct v |}.

Definition print_cli (rt : runtime) (clk : clock) (usage : json)
  : outcome (list out_item) :=
  five_hour ← Json.get usage "five_hour" JNull;
  fh ← parse_window_percent rt five_hour "utilization";
  seven_day ← Json.get usage "seven_day" JNull;
  sd ← parse_window_percent rt seven_day "utilization";
  let _fmt_reset now win :=
    if Float.eqb (utilization win) 0 && is_none (resets_at win)
    then NOT_STARTED else format_eta rt now (resets_at win) in
  Ok [JsonDump (Some 2%nat) usage;
      Line dashes;
      Line ("5-hour : " +:+ Float.fixed1 (utilization fh)
              +:+ "%  (Reset in " +:+ _fmt_reset (now_short clk) fh +:+ ")");
      Line ("7-day  : " +:+ Float.fixed1 (utilization sd)
              +:+ "%  (Reset in " +:+ _fmt_reset (now_long clk) sd +:+ ")")].

(** [main], after the command line is parsed.  [fetched] is what
    [get_claude_usage(args.browser)] does: it returns the usage or
    raises an exception whose [str] is given.  [print_waybar] and
    [print_cli] are called outside the [try], so what they raise ends
    the run and the interpreter writes the traceback.  [print_cli]
    prints the dump before it parses, so a failure there leaves the dump
    behind. *)
Definition main (rt : runtime) (clk : clock) (args : cli_args)
  (fetched : string + json) : process :=
  match fetched with
  | inl err_msg =>
      if waybar args then
        let short_err :=
          if Str.contains "403" err_msg then "Auth Err" else "Net Err" in
        {| stdout :=
             [JsonDump None
                (JObj [("text", JStr ("<span foreground='#ff5555'>󰜡 "
                                        +:+ short_err +:+ "</span>"));
                       ("tooltip", JStr ("Error fetching Claude usage:"
                                           +:+ String Re.newline err_msg));
                       ("class", JStr "critical")])];
           stderr := [];
           ended := Exit 0 |}
      else
        {| stdout := [];
           stderr := ["[!] Critical Error: " +:+ err_msg];
           ended := Exit 1 |}
  | inr usage =>
      if waybar args then
        match print_waybar rt clk usage (format args)
                (tooltip_format args) (show_5h args) with
        | Ok o => {| stdout := [dump_output o]; stderr := [];
                     ended := Exit 0 |}
        | Raise e => {| stdout := []; stderr := [traceback rt e];
                        ended := Uncaught e |}
        | Beyond => {| stdout := []; stderr := []; ended := NotModelled |}
        end
      else
        match print_cli rt clk usage with
        | Ok items => {| stdout := items; stderr := []; ended := Exit 0 |}
        | Raise e => {| stdout := [JsonDump (Some 2%nat) usage];
                        stderr := [traceback rt e]; ended := Uncaught e |}
        | Beyond => {| stdout := []; stderr := []; ended := NotModelled |}
        end
  end.

(** The whole of [main]: the usage is fetched, then shown. *)
Definition program (lib : cookie_lib) (net : network) (rt : runtime)
  (clk : clock) (args : cli_args) : process :=
  main rt clk args (get_claude_usage lib net (browser args)).1.

End Claude.

(** ** codex.py *)

Module Codex.

Definition icon_styled : string :=
  "<span foreground='#74AA9C' size='large'>󰬫</span>".
Definition time_icon_styled : string :=
  "<span foreground='#74AA9C' size='large'>󰔚</span>".

Definition BASE_HEADERS : list (string * header_value) :=
  [("Referer", Plain "https://chatgpt.com/");
   ("Origin", Plain "https://chatgpt.com");
   ("Accept", Plain "*/*")].

Definition SESSION_URL : string := "https://chatgpt.com/api/auth/session".
Definition CODEX_USAGE_URL : string :=
  "https://chatgpt.com/backend-api/wham/usage".

(** [usage_headers = BASE_HEADERS.copy()] with the key "Authorization"
    set: the dict had no such key, so it comes last. *)
Definition usage_headers (access_token : json)
  : list (string * header_value) :=
  BASE_HEADERS ++ [("Authorization", Bearer access_token)].

(** The body of the [try] in [get_codex_usage]: the value returned or
    the [str] of the exception raised, and the requests made. *)
Definition request_usage (net : network) (made : nat)
  (cookies_dict : gmap string string) : (string + json) * list request :=
  let session_req := {| req_url := SESSION_URL; req_cookies := cookies_dict;
                        req_headers := BASE_HEADERS |} in
  match net made session_req with
  | NoReply exc => (inl exc, [session_req])
  | Reply status_code http_error body =>
      if status_code =? 403
      then (inl ("403 Forbidden: Cloudflare blocked, "
                   +:+ "check IP or update browser_cookie3"),
            [session_req])
      else
        match http_error, body with
        | Some exc, _ => (inl exc, [session_req])
        | None, inl exc => (inl exc, [session_req])
        | None, inr session_data =>
            match Json.get session_data "accessToken" JNull with
            | Ok access_token =>
                if Json.truthy access_token then
                  let usage_req :=
                    {| req_url := CODEX_USAGE_URL;
                       req_cookies := cookies_dict;
                       req_headers := usage_headers access_token |} in
                  (match net (S made) usage_req with
                   | NoReply exc => inl exc
                   | Reply _ (Some exc) _ => inl exc
                   | Reply _ None usage => usage
                   end,
                   [session_req; usage_req])
                else (inl "accessToken not found in session response.",
                      [session_req])
            | _ =>
                (inl ("'" +:+ json_type_name session_data
                        +:+ "' object has no attribute 'get'"),
                 [session_req])
            end
        end
  end.

Fixpoint usage_attempts (net : network) (cookies_dict : gmap string string)
  (attempts : list nat) (last_error : option string) (log : list request)
  : (string + json) * list request :=
  match attempts with
  | [] => (inl ("Request failed: " +:+ str_of_error last_error), log)
  | _ :: rest =>
      match request_usage net (length log) cookies_dict with
      | (inr usage, reqs) => (inr usage, log ++ reqs)
      | (inl exc, reqs) =>
          usage_attempts net cookies_dict rest (Some exc) (log ++ reqs)
      end
  end.

(** [get_codex_usage(browsers)]: what it returns ([inr]) or the message
    of the [RuntimeError] it raises ([inl]), and the requests it made. *)
Definition get_codex_usage (lib : cookie_lib) (net : network)
  (browsers : option (list string)) : (string + json) * list request :=
  match load_cookies lib "chatgpt.com" browsers with
  | inl e => (inl ("Failed to read browser cookies: " +:+ e), [])
  | inr (cookies_dict, _browser) =>
      usage_attempts net cookies_dict [0%nat; 1%nat] None []
  end.

(** [x - 1]; [None] when it raises [TypeError].  The difference of two
    integers is exact, that of a float and an integer is rounded (and in
    range, for every binary64 number). *)
Definition minus_one (v : json) : option Q :=
  match v with
  | JFloat x => Float.nearest (x - 1)%Q
  | _ => match Json.number v with
         | Some x => Some (x - 1)%Q
         | None => None
         end
  end.

(** Line 137: [used_pct == 0 and reset_after >= window_length - 1];
    the comparison is reached only when the first test holds. *)
Definition unused_test (used_pct reset_after window_length : json)
  : outcome bool :=
  if Json.is_zero used_pct then
    match minus_one window_length, Json.number reset_after with
    | Some bound, Some r => Ok (Float.leb bound r)
    | _, _ => Raise TypeError
    end
  else Ok false.

(** Lines 108 to 128 of [print_waybar]: the window to show, its raw
    mapping and its name. *)
Definition active_window (p_win s_win : WindowUsage) (p_raw s_raw : json)
  (show_5h : bool) : WindowUsage * json * string :=
  if show_5h then (p_win, p_raw, "Primary")
  else if Float.leb 100 (utilization s_win)
  then (s_win, s_raw, "Secondary")
  else if Float.ltb 80 (utilization s_win)
  then (s_win, s_raw, "Secondary")
  else (p_win, p_raw, "Primary").

(** Lines 101 to 163: everything [print_waybar] derives from the two
    parsed windows and their raw mappings. *)
Definition classify (rt : runtime) (clk : clock) (p_win s_win : WindowUsage)
  (p_raw s_raw : json) (show_5h : bool) : outcome waybar_vars :=
  let p_reset_str := reset_str rt (now_short clk) p_win in
  let s_reset_str := reset_str rt (now_long clk) s_win in
  let '(target_win, target_raw, win_type) :=
    active_window p_win s_win p_raw s_raw show_5h in
  let pct := Float.round_half_even (utilization target_win) in
  used_pct ← Json.get target_raw "used_percent" (JInt 0);
  reset_after ← Json.get target_raw "reset_after_seconds" (JInt 0);
  window_length ← Json.get target_raw "limit_window_seconds" (JInt 0);
  is_unused ← unused_test used_pct reset_after window_length;
  let window_not_started :=
    Float.eqb (utilization target_win) 0
    && is_none (resets_at target_win) in
  let status :=
    if Float.leb 100 (utilization s_win) then "Pause"
    else if is_unused || window_not_started then "Ready"
    else EmptyString in
  let data : gmap string pyval :=
    list_to_map
      [("5h_pct", VInt (Float.round_half_even (utilization p_win)));
       ("7d_pct", VInt (Float.round_half_even (utilization s_win)));
       ("5h_reset", VStr p_reset_str);
       ("7d_reset", VStr s_reset_str);
       ("icon", VStr icon_styled);
       ("icon_plain", VStr "󰬫");
       ("time_icon", VStr time_icon_styled);
       ("time_icon_plain", VStr "󰔚");
       ("status", VStr status);
       ("pct", VInt pct);
       ("reset", VStr (reset_str rt (now_active clk) target_win));
       ("win", VStr win_type)] in
  Ok {| short_win := p_win; long_win := s_win; target := target_win;
        win_name := win_type; pct := pct; is_unused := is_unused;
        window_not_started := window_not_started; status := status;
        data := data |}.

(** Lines 92 to 163 of [print_waybar]. *)
Definition print_waybar_vars (rt : runtime) (clk : clock) (usage : json)
  (show_5h : bool) : outcome waybar_vars :=
  rate_limit ← Json.get usage "rate_limit" JNull;
  let rate := Json.or rate_limit (JObj []) in
  primary_window ← Json.get rate "primary_window" JNull;
  p_win ← parse_window_direct rt primary_window;
  secondary_window ← Json.get rate "secondary_window" JNull;
  s_win ← parse_window_direct rt secondary_window;
  let p_raw := Json.or primary_window (JObj []) in
  let s_raw := Json.or secondary_window (JObj []) in
  classify rt clk p_win s_win p_raw s_raw show_5h.

(** Lines 165 to 204: the dict that is printed. *)
Definition print_waybar (rt : runtime) (clk : clock) (usage : json)
  (format_str tooltip_format : option string) (show_5h : bool)
  : outcome waybar_output :=
  v ← print_waybar_vars rt clk usage show_5h;
  let p_win := short_win v in
  let s_win := long_win v in
  let reset := py_str (default (VStr EmptyString) (data v !! "reset")) in
  text ← match given format_str with
         | Some f => format_output f (data v)
         | None =>
             Ok (if Str.eqb (status v) "Pause" then icon_styled +:+ " Pause"
                 else if Str.eqb (status v) "Ready"
                 then icon_styled +:+ " Ready"
                 else icon_styled +:+ " " +:+ pretty (pct v) +:+ "% "
                        +:+ time_icon_styled +:+ " " +:+ reset)
         end;
  tooltip ← match given tooltip_format with
            | Some f => format_output f (data v)
            | None =>
                Ok ("Window     Used    Reset" +:+ String Re.newline
                    ("━━━━━━━━━━━━━━━━━━━━━━━━" +:+ String Re.newline
                    ("5-Hour     "
                       +:+ Float.rjust 3 (Float.fixed0 (utilization p_win))
                       +:+ "%    " +:+ reset_str rt (now_short clk) p_win
                       +:+ String Re.newline
                    ("7-Day      "
                       +:+ Float.rjust 3 (Float.fixed0 (utilization s_win))
                       +:+ "%    " +:+ reset_str rt (now_long clk) s_win
                       +:+ String Re.newline
                    (String Re.newline "Click to Refresh")))))
            end;
  let cls := if pct v <? 50 then "codex-low"
             else if pct v <? 80 then "codex-mid"
             else "codex-high" in
  Ok {| out_text := text; out_tooltip := tooltip; out_class := cls;
        out_alt := win_name v;
        out_percentage := pct v |}.

Definition print_cli (rt : runtime) (clk : clock) (usage : json)
  : outcome (list out_item) :=
  rate_limit ← Json.get usage "rate_limit" JNull;
  let rate := Json.or rate_limit (JObj []) in
  primary_window ← Json.get rate "primary_window" JNull;
  p ← parse_window_direct rt primary_window;
  secondary_window ← Json.get rate "secondary_window" JNull;
  s ← parse_window_direct rt secondary_window;
  Ok [JsonDump (Some 2%nat) usage;
      Line dashes;
      Line ("Primary   (Short): "
              +:+ Float.rjust 5 (Float.fixed1 (utilization p))
              +:+ "% | Reset in "
              +:+ format_eta rt (now_short clk) (resets_at p));
      Line ("Secondary (Long) : "
              +:+ Float.rjust 5 (Float.fixed1 (utilization s))
              +:+ "% | Reset in "
              +:+ format_eta rt (now_long clk) (resets_at s))].

(** [main], after the command line is parsed; [fetched] is what
    [get_codex_usage(args.browser)] does.  As in claude.py, what
    [print_waybar] or [print_cli] raises is caught by nothing. *)
Definition main (rt : runtime) (clk : clock) (args : cli_args)
  (fetched : string + json) : process :=
  match fetched with
  | inl err_msg =>
      if waybar args then
        let short_err :=
          if Str.contains "403" err_msg || Str.contains "401" err_msg
          then "Auth Err" else "Net Err" in
        {| stdout :=
             [JsonDump None
                (JObj [("text", JStr ("<span foreground='#ff5555'>󰬫 "
                                        +:+ short_err +:+ "</span>"));
                       ("tooltip", JStr ("Error:"
                                           +:+ String Re.newline err_msg));
                       ("class", JStr "critical")])];
           stderr := [];
           ended := Exit 0 |}
      else
        {| stdout := [];
           stderr := ["[!] Critical Error: " +:+ err_msg];
           ended := Exit 1 |}
  | inr usage =>
      if waybar args then
        match print_waybar rt clk usage (format args)
                (tooltip_format args) (show_5h args) with
        | Ok o => {| stdout := [dump_output o]; stderr := [];
                     ended := Exit 0 |}
        | Raise e => {| stdout := []; stderr := [traceback rt e];
                        ended := Uncaught e |}
        | Beyond => {| stdout := []; stderr := []; ended := NotModelled |}
        end
      else
        match print_cli rt clk usage with
        | Ok items => {| stdout := items; stderr := []; ended := Exit 0 |}
        | Raise e => {| stdout := [JsonDump (Some 2%nat) usage];
                        stderr := [traceback rt e]; ended := Uncaught e |}
        | Beyond => {| stdout := []; stderr := []; ended := NotModelled |}
        end
  end.

(** The whole of [main]: the usage is fetched, then shown. *)
Definition program (lib : cookie_lib) (net : network) (rt : runtime)
  (clk : clock) (args : cli_args) : process :=
  main rt clk args (get_codex_usage lib net (browser args)).1.

End Codex.


(** * Definitions used by the statements *)

(** An interpreter whose library calls all raise.  The examples use
    integer timestamps and numbers only, for which none is consulted. *)
Definition rt_none : runtime := {|
  float_of_str := fun _ => None;
  fromisoformat := fun _ => None;
  fromtimestamp_float := fun _ => None;
  traceback := fun _ => "Traceback (most recent call last):"
|}.

Definition clock_at (t : Z) : clock :=
  {| now_short := t; now_long := t; now_unused := t; now_active := t |}.

Definition window (u : Q) (r : json) : WindowUsage :=
  {| utilization := u; resets_at := r |}.

Definition usage_claude (u5 u7 : Z) : json :=
  JObj [("five_hour", JObj [("utilization", JInt u5); ("resets_at", JNull)]);
        ("seven_day", JObj [("utilization", JInt u7); ("resets_at", JNull)])].

Definition usage_codex (u5 u7 : Z) : json :=
  JObj [("rate_limit",
         JObj [("primary_window", JObj [("used_percent", JInt u5)]);
               ("secondary_window", JObj [("used_percent", JInt u7)])])].

Definition args_of (waybar_mode : bool) : cli_args :=
  {| waybar := waybar_mode; browser := None; format := None;
     tooltip_format := None; show_5h := false |}.

(** A window parsed from the mapping [items], the utilization being read
    under [key] and the reset time under [reset_key]. *)
Definition parsed_from (rt : runtime) (items : list (string * json))
  (key reset_key : string) (w : WindowUsage) : Prop :=
  resets_at w = default JNull (Json.assoc items reset_key)
  /\ utilization w
     = match py_float rt (Json.or (default JNull (Json.assoc items key))
                            (JInt 0)) with
       | Some x => x
       | None => 0%Q
       end.

Fixpoint all_chars (p : ascii -> bool) (s : string) : bool :=
  match s with
  | EmptyString => true
  | String c s' => p c && all_chars p s'
  end.

(** A field name that [str.format] reads as a bare name: it holds no
    brace and none of the characters that start a conversion, a format
    spec, an attribute or an index. *)
Definition plain_name (name : string) : Prop :=
  all_chars (fun c => negb (Str.mem c "{}.[:!")) name = true.

(** The first two steps of [format_output]: the text left by the two
    conditional passes. *)
Definition conditional_passes (format_string : string)
  (data : gmap string pyval) : outcome string :=
  result ← Re.sub Re.match_multi (replace_multi_conditional data)
             format_string;
  Re.sub Re.match_single (replace_conditional data) result.

(** A listed variable counts, in the code, when the mapping gives it a
    value that is true and is not the sentinel. *)
Definition counts (data : gmap string pyval) (name : string) : Prop :=
  exists v, data !! name = Some v /\ truthy v = true
            /\ v <> VStr NOT_STARTED.

Definition data_example : gmap string pyval :=
  list_to_map [("pct", VInt 42); ("status", VStr EmptyString);
               ("5h_reset", VStr "4h10m"); ("7d_reset", VStr "1h00m")].

(** The raw field [key] holds an integer or is missing. *)
Definition int_or_absent (items : list (string * json)) (key : string)
  : Prop :=
  Json.assoc items key = None \/ exists n, Json.assoc items key = Some (JInt n).

(** Both raw mappings are dicts whose two fields compared on line 137 of
    codex.py hold an integer or are missing. *)
Definition raws_comparable (p_raw s_raw : json) : Prop :=
  exists p_items s_items,
    p_raw = JObj p_items /\ s_raw = JObj s_items
    /\ forall items, items = p_items \/ items = s_items ->
         int_or_absent items "reset_after_seconds"
         /\ int_or_absent items "limit_window_seconds".



(** A usage in which the short window of codex.py is unused and its raw
    [reset_after_seconds] is null, while the long window is at 100. *)
Definition usage_null_reset_after : json :=
  JObj [("rate_limit",
         JObj [("primary_window",
                JObj [("used_percent", JInt 0);
                      ("reset_after_seconds", JNull)]);
               ("secondary_window",
                JObj [("used_percent", JInt 100)])])].

(** The same situation for claude.py: an unused short window whose reset
    time cannot be read, and a long window at 100. *)
Definition usage_unreadable_reset : json :=
  JObj [("five_hour",
         JObj [("utilization", JInt 0); ("resets_at", JList [JInt 1])]);
        ("seven_day", JObj [("utilization", JInt 100)])].

(** Closes a goal on concrete data by evaluation. *)
Ltac by_compute := vm_compute; first [reflexivity | discriminate | tauto].

(** ** Definitions used by the further properties *)

(** A multi-variable block as the first pattern of [format_output]
    reads it: a header that holds no [}] and has an [&] between two
    texts that are not empty, and a content on one line that does not
    hold the closing tag, which is therefore the first [{/}] after the
    header. *)
Definition is_multi_block (hdr content : string) : Prop :=
  Str.mem "}"%char hdr = false
  /\ (exists a b,
        a <> EmptyString /\ b <> EmptyString /\ hdr = a +:+ "&" +:+ b)
  /\ Str.contains "{/}" content = false
  /\ Str.mem Re.newline content = false.

Definition multi_block_text (hdr content : string) : string :=
  "{?" +:+ hdr +:+ "}" +:+ content +:+ "{/}".

(** A multi-variable block starts the text. *)
Definition starts_multi_block (s : string) : Prop :=
  exists hdr content post,
    is_multi_block hdr content /\ s = multi_block_text hdr content +:+ post.

(** A pattern of [format_output] finds nothing where no [{?] starts. *)
Definition needs_mark (m : string -> outcome Re.found) : Prop :=
  forall s, String.prefix "{?" s = false -> m s = Ok None.

(** What [load_cookies] notes of a browser that gives no cookies: the
    entry of its error list, or [None] when the browser gives some. *)
Definition browser_failure (lib : cookie_lib) (domain name : string)
  : option string :=
  match lib name with
  | None => Some (name +:+ ": unsupported by browser_cookie3")
  | Some loader =>
      match loader domain with
      | inl exc => Some (name +:+ ": " +:+ exc)
      | inr [] => Some (name +:+ ": no cookies found")
      | inr (_ :: _) => None
      end
  end.

(** The browser gives the jar [jar], which holds a cookie. *)
Definition browser_gives (lib : cookie_lib) (domain name : string)
  (jar : list (string * string)) : Prop :=
  jar <> [] /\ exists loader, lib name = Some loader /\ loader domain = inr jar.

(** The browsers [load_cookies] goes through. *)
Definition browsers_tried (browsers : option (list string)) : list string :=
  match browsers with
  | Some (b :: bs) => b :: bs
  | _ => DEFAULT_BROWSERS
  end.

(** A library that knows two browsers: "chrome", whose cookie store
    cannot be read, and "firefox", which holds three cookies. *)
Definition jar_example : list (string * string) :=
  [("lastActiveOrg", "org-1"); ("lastActiveOrg", "org-2");
   ("sessionKey", "sk")].

Definition lib_example : cookie_lib := fun name =>
  if Str.eqb name "chrome" then Some (fun _ => inl "database is locked")
  else if Str.eqb name "firefox" then Some (fun _ => inr jar_example)
  else None.

(** The one request of [get_claude_usage], for the organization
    [org_id]. *)
Definition claude_request (cookies : gmap string string) (org_id : string)
  : request :=
  {| req_url := "https://claude.ai/api/organizations/" +:+ org_id
                  +:+ "/usage";
     req_cookies := cookies;
     req_headers := Claude.BASE_HEADERS |}.

(** The two requests of [get_codex_usage]. *)
Definition codex_session_request (cookies : gmap string string) : request :=
  {| req_url := Codex.SESSION_URL; req_cookies := cookies;
     req_headers := Codex.BASE_HEADERS |}.

Definition codex_usage_request (cookies : gmap string string)
  (access_token : json) : request :=
  {| req_url := Codex.CODEX_USAGE_URL; req_cookies := cookies;
     req_headers := Codex.usage_headers access_token |}.

(** The object a run in waybar mode prints when fetching fails. *)
Definition error_card (icon short_err tooltip : string) : out_item :=
  JsonDump None
    (JObj [("text", JStr ("<span foreground='#ff5555'>" +:+ icon +:+ " "
                            +:+ short_err +:+ "</span>"));
           ("tooltip", JStr tooltip);
           ("class", JStr "critical")]).

(** A network that answers the first request with status 403 and lets
    the second one time out. *)
Definition net_example : network := fun made _ =>
  match made with
  | O => Reply 403 None (inl "Expecting value")
  | _ => NoReply "Connection timed out"
  end.

(** A network whose session reply holds a token and whose usage reply is
    a server error. *)
Definition net_token_example : network := fun made _ =>
  match made with
  | O | 2%nat => Reply 200 None (inr (JObj [("accessToken", JStr "tok")]))
  | _ => Reply 500 (Some "HTTP Error 500: ") (inl "Expecting value")
  end.

(** A raw window the parsers accept: a value that counts as false, or a
    dict. *)
Definition window_like (v : json) : Prop :=
  Json.truthy v = false \/ exists items, v = JObj items.

(** A usage [print_waybar] of claude.py can read: a dict whose two
    windows, when present, are such. *)
Definition claude_usage_like (usage : json) : Prop :=
  exists items,
    usage = JObj items
    /\ window_like (default JNull (Json.assoc items "five_hour"))
    /\ window_like (default JNull (Json.assoc items "seven_day")).

(** The same for codex.py, where the windows are under "rate_limit". *)
Definition codex_usage_like (usage : json) : Prop :=
  exists items rate,
    usage = JObj items
    /\ Json.or (default JNull (Json.assoc items "rate_limit")) (JObj [])
       = JObj rate
    /\ window_like (default JNull (Json.assoc rate "primary_window"))
    /\ window_like (default JNull (Json.assoc rate "secondary_window")).

(** The default tooltip when neither window has begun. *)
Definition tooltip_not_started : string :=
  "Window     Used    Reset" +:+ String Re.newline
  ("━━━━━━━━━━━━━━━━━━━━━━━━" +:+ String Re.newline
  ("5-Hour       0%    Not started" +:+ String Re.newline
  ("7-Day        0%    Not started" +:+ String Re.newline
  (String Re.newline "Click to Refresh")))).

Fixpoint last_char (s : string) : option ascii :=
  match s with
  | EmptyString => None
  | String c s' =>
      match s' with
      | EmptyString => Some c
      | String _ _ => last_char s'
      end
  end.

(** Which of the twelve variables of a template open a conditional
    block, given what [print_waybar] has derived. *)
Definition block_variables (v : waybar_vars) : Prop :=
  let opens name := counts (data v) name in
  (opens "5h_reset" <-> Json.truthy (resets_at (short_win v)) = true)
  /\ (opens "7d_reset" <-> Json.truthy (resets_at (long_win v)) = true)
  /\ (opens "reset" <-> Json.truthy (resets_at (target v)) = true)
  /\ (opens "5h_pct"
      <-> Float.round_half_even (utilization (short_win v)) <> 0)
  /\ (opens "7d_pct"
      <-> Float.round_half_even (utilization (long_win v)) <> 0)
  /\ (opens "pct" <-> pct v <> 0)
  /\ (opens "status" <-> status v <> EmptyString)
  /\ opens "win" /\ opens "icon" /\ opens "icon_plain"
  /\ opens "time_icon" /\ opens "time_icon_plain".

(** Is the integer [n] kept by [float], by [round] and by the [.0f]
    presentation? *)
Definition kept_exactly (n : Z) : bool :=
  match Float.nearest (inject_Z n) with
  | Some x =>
      Qeq_bool x (inject_Z n)
      && (Float.round_half_even x =? n)
      && Str.eqb (Float.fixed0 x) (pretty n)
  | None => false
  end.

(** ** Two claims as the specification words them

    Each definition follows the words of the specification, to be
    compared with what the code does. *)

(** C1 as worded.  "Present" is read by the truthiness rule that the
    specification gives the conditional blocks (the single-variable
    block follows "the same truthiness rule", and an empty status hides
    one): a block whose listed variables all count renders as its
    content, expanded, and any other block as nothing. *)
Definition multi_block_as_stated (data : gmap string pyval)
  (names : list string) (content : string) : Prop :=
  (Forall (counts data) names ->
     format_output ("{?" +:+ String.concat "&" names +:+ "}" +:+ content
                      +:+ "{/}") data
     = py_format content data)
  /\ (~ Forall (counts data) names ->
     format_output ("{?" +:+ String.concat "&" names +:+ "}" +:+ content
                      +:+ "{/}") data
     = Ok EmptyString).



(** * Properties *)

(** ** Comparisons of floats *)

Lemma leb_le x y : Float.leb x y = true <-> (x <= y)%Q.
Proof. apply Qle_bool_iff. Qed.

Lemma leb_gt x y : Float.leb x y = false <-> (y < x)%Q.
Proof.
  unfold Float.leb. split.
  - intros H. apply Qnot_le_lt. intros Hle.
    apply Qle_bool_iff in Hle. congruence.
  - intros H. destruct (Qle_bool x y) eqn:E; [|done].
    apply Qle_bool_iff in E. exfalso. exact (Qlt_not_le _ _ H E).
Qed.

Lemma ltb_lt x y : Float.ltb x y = true <-> (x < y)%Q.
Proof.
  unfold Float.ltb. rewrite negb_true_iff. apply (leb_gt y x).
Qed.

Lemma ltb_ge x y : Float.ltb x y = false <-> (y <= x)%Q.
Proof.
  unfold Float.ltb. rewrite negb_false_iff. apply (leb_le y x).
Qed.

Lemma eqb_eq x y : Float.eqb x y = true <-> (x == y)%Q.
Proof. apply Qeq_bool_iff. Qed.

(** ** The active window *)

Lemma claude_active_cases fh sd show :
  Claude.active_window fh sd show =
    if show || negb (Float.leb 100 (utilization sd) ||
                     Float.ltb 80 (utilization sd))
    then (fh, "5h", 18000) else (sd, "7d", 604800).
Proof.
  unfold Claude.active_window.
  destruct show, (Float.leb 100 _), (Float.ltb 80 _); reflexivity.
Qed.

Lemma codex_active_cases p s p_raw s_raw show :
  Codex.active_window p s p_raw s_raw show =
    if show || negb (Float.leb 100 (utilization s) ||
                     Float.ltb 80 (utilization s))
    then (p, p_raw, "Primary") else (s, s_raw, "Secondary").
Proof.
  unfold Codex.active_window.
  destruct show, (Float.leb 100 _), (Float.ltb 80 _); reflexivity.
Qed.

(** C4. The active window is the short one under the force flag; without
    it the long one when its utilization is at least 100, the long one
    when it is above 80, and the short one otherwise, so at exactly 80
    the short one.  Both programs. *)
Theorem active_window_precedence (fh sd : WindowUsage) (p_raw s_raw : json)
  (show : bool) :
  let u := utilization sd in
  (show = true ->
     Claude.active_window fh sd show = (fh, "5h", 18000)
     /\ Codex.active_window fh sd p_raw s_raw show = (fh, p_raw, "Primary"))
  /\ (show = false -> (100 <= u)%Q ->
     Claude.active_window fh sd show = (sd, "7d", 604800)
     /\ Codex.active_window fh sd p_raw s_raw show
        = (sd, s_raw, "Secondary"))
  /\ (show = false -> (u < 100)%Q -> (80 < u)%Q ->
     Claude.active_window fh sd show = (sd, "7d", 604800)
     /\ Codex.active_window fh sd p_raw s_raw show
        = (sd, s_raw, "Secondary"))
  /\ (show = false -> (u <= 80)%Q ->
     Claude.active_window fh sd show = (fh, "5h", 18000)
     /\ Codex.active_window fh sd p_raw s_raw show = (fh, p_raw, "Primary")).
Proof.
  intros u. unfold Claude.active_window, Codex.active_window. fold u.
  split; [|split; [|split]].
  - intros ->. split; reflexivity.
  - intros -> H. apply leb_le in H. rewrite H. split; reflexivity.
  - intros -> H1 H2. apply leb_gt in H1. apply ltb_lt in H2.
    rewrite H1, H2. split; reflexivity.
  - intros -> H.
    assert (H1 : Float.leb 100 u = false).
    { apply leb_gt. eapply Qle_lt_trans; [exact H | reflexivity]. }
    apply ltb_ge in H. rewrite H1, H. split; reflexivity.
Qed.

Lemma active_window_precedence_witness :
  let fh := window 12 JNull in
  let sd := window 80 JNull in
  Claude.active_window fh sd false = (fh, "5h", 18000)
  /\ Claude.active_window fh (window 81 JNull) false
     = (window 81 JNull, "7d", 604800)
  /\ Claude.active_window fh (window 100 JNull) false
     = (window 100 JNull, "7d", 604800)
  /\ Codex.active_window fh (window 100 JNull) JNull JNull true
     = (fh, JNull, "Primary").
Proof.
  intros fh sd.
  split; [|split; [|split]].
  - destruct (active_window_precedence fh sd JNull JNull false)
      as (_ & _ & _ & H).
    apply H; by_compute.
  - destruct (active_window_precedence fh (window 81 JNull) JNull JNull false)
      as (_ & _ & H & _).
    apply H; by_compute.
  - destruct (active_window_precedence fh (window 100 JNull) JNull JNull false)
      as (_ & H & _).
    apply H; by_compute.
  - destruct (active_window_precedence fh (window 100 JNull) JNull JNull true)
      as (H & _).
    apply H; by_compute.
Defined.

(** ** When [classify] of codex.py returns *)

(** With integers, or nothing, in the two raw fields that line 137
    compares, [classify] returns. *)
Lemma codex_classify_returns rt clk p s p_raw s_raw show :
  raws_comparable p_raw s_raw ->
  exists v, Codex.classify rt clk p s p_raw s_raw show = Ok v.
Proof.
  intros (p_items & s_items & -> & -> & H). unfold Codex.classify.
  assert (Ht : exists t items n,
            Codex.active_window p s (JObj p_items) (JObj s_items) show
            = (t, JObj items, n)
            /\ (items = p_items \/ items = s_items)).
  { rewrite codex_active_cases.
    destruct (show || _); do 3 eexists; split; eauto. }
  destruct Ht as (t & items & n & -> & Hi).
  destruct (H items Hi) as [Hr Hl].
  cbn [Json.get mbind outcome_bind].
  assert (Hu : exists b,
            Codex.unused_test (default (JInt 0) (Json.assoc items "used_percent"))
              (default (JInt 0) (Json.assoc items "reset_after_seconds"))
              (default (JInt 0) (Json.assoc items "limit_window_seconds"))
            = Ok b).
  { unfold Codex.unused_test.
    destruct (Json.is_zero _); [|eexists; reflexivity].
    destruct Hr as [-> | [r ->]], Hl as [-> | [l ->]];
      cbn; eexists; reflexivity. }
  destruct Hu as [b ->]. cbn [mbind outcome_bind]. eexists. reflexivity.
Qed.

Lemma empty_raws_comparable : raws_comparable (JObj []) (JObj []).
Proof.
  exists [], []. split; [reflexivity|]. split; [reflexivity|].
  intros items [-> | ->]; split; left; reflexivity.
Qed.

(** Otherwise it may not: an unused short window whose raw mapping holds
    a null [reset_after_seconds] makes the comparison raise. *)
Example codex_null_reset_after :
  Codex.print_waybar_vars rt_none (clock_at 0)
    (JObj [("rate_limit",
            JObj [("primary_window",
                   JObj [("used_percent", JInt 0);
                         ("reset_after_seconds", JNull)])])])
    false
  = Raise TypeError.
Proof. reflexivity. Qed.

(** ** What [classify] derives *)

Lemma claude_classify_fields rt clk fh sd show :
  let v := Claude.classify rt clk fh sd show in
  let aw := Claude.active_window fh sd show in
  short_win v = fh /\ long_win v = sd
  /\ target v = aw.1.1 /\ win_name v = aw.1.2
  /\ pct v = Float.round_half_even (utilization aw.1.1)
  /\ is_unused v = Claude.unused_test rt (now_unused clk) aw.1.1 aw.2
  /\ window_not_started v
     = Float.eqb (utilization aw.1.1) 0 && is_none (resets_at aw.1.1)
  /\ status v = (if Float.leb 100 (utilization sd) then "Pause"
                 else if is_unused v || window_not_started v then "Ready"
                 else EmptyString)
  /\ data v !! "status" = Some (VStr (status v))
  /\ data v !! "pct" = Some (VInt (pct v))
  /\ data v !! "reset"
     = Some (VStr (reset_str rt (now_active clk) (target v)))
  /\ data v !! "win" = Some (VStr (win_name v)).
Proof.
  unfold Claude.classify.
  destruct (Claude.active_window fh sd show) as [[t n] l]. cbn -[list_to_map].
  repeat split; reflexivity.
Qed.

Lemma codex_classify_fields rt clk p s p_raw s_raw show v :
  Codex.classify rt clk p s p_raw s_raw show = Ok v ->
  let aw := Codex.active_window p s p_raw s_raw show in
  short_win v = p /\ long_win v = s
  /\ target v = aw.1.1 /\ win_name v = aw.2
  /\ pct v = Float.round_half_even (utilization aw.1.1)
  /\ (exists used_pct reset_after window_length,
        Json.get aw.1.2 "used_percent" (JInt 0) = Ok used_pct
        /\ Json.get aw.1.2 "reset_after_seconds" (JInt 0) = Ok reset_after
        /\ Json.get aw.1.2 "limit_window_seconds" (JInt 0) = Ok window_length
        /\ Codex.unused_test used_pct reset_after window_length
           = Ok (is_unused v))
  /\ window_not_started v
     = Float.eqb (utilization aw.1.1) 0 && is_none (resets_at aw.1.1)
  /\ status v = (if Float.leb 100 (utilization s) then "Pause"
                 else if is_unused v || window_not_started v then "Ready"
                 else EmptyString)
  /\ data v !! "status" = Some (VStr (status v))
  /\ data v !! "pct" = Some (VInt (pct v))
  /\ data v !! "reset"
     = Some (VStr (reset_str rt (now_active clk) (target v)))
  /\ data v !! "win" = Some (VStr (win_name v)).
Proof.
  unfold Codex.classify.
  destruct (Codex.active_window p s p_raw s_raw show) as [[t raw] n].
  cbn -[list_to_map Codex.unused_test Json.get].
  destruct (Json.get raw "used_percent" (JInt 0)) as [u| |] eqn:Eu;
    cbn -[list_to_map Codex.unused_test Json.get]; try discriminate.
  destruct (Json.get raw "reset_after_seconds" (JInt 0)) as [r| |] eqn:Er;
    cbn -[list_to_map Codex.unused_test Json.get]; try discriminate.
  destruct (Json.get raw "limit_window_seconds" (JInt 0)) as [l| |] eqn:El;
    cbn -[list_to_map Codex.unused_test Json.get]; try discriminate.
  destruct (Codex.unused_test u r l) as [b| |] eqn:Et;
    cbn -[list_to_map Codex.unused_test Json.get]; try discriminate.
  intros [= <-]. cbn -[list_to_map Codex.unused_test Json.get].
  repeat split; try reflexivity.
  exists u, r, l. repeat split; assumption.
Qed.

(** Where [classify] returns, a long window at 100 or more gives the
    status "Pause" whatever the force flag, and under the force flag the
    short window is the one shown, its rounded percentage, reset string
    and name filling the active-window fields of the mapping.  In
    claude.py [classify] always returns (utilizations being finite, as
    everywhere in the embedding); in codex.py it does, at the least, when
    the raw fields it compares are integers or missing. *)
Lemma pause_when_classified (rt : runtime) (clk : clock)
  (fh sd : WindowUsage) (p_raw s_raw : json) (show : bool) :
  (100 <= utilization sd)%Q ->
  let shows_short v name :=
    show = true ->
    target v = fh /\ win_name v = name
    /\ data v !! "pct"
       = Some (VInt (Float.round_half_even (utilization fh)))
    /\ data v !! "reset" = Some (VStr (reset_str rt (now_active clk) fh))
    /\ data v !! "win" = Some (VStr name) in
  let paused v :=
    status v = "Pause" /\ data v !! "status" = Some (VStr "Pause") in
  (paused (Claude.classify rt clk fh sd show)
   /\ shows_short (Claude.classify rt clk fh sd show) "5h")
  /\ (forall v, Codex.classify rt clk fh sd p_raw s_raw show = Ok v ->
        paused v /\ shows_short v "Primary")
  /\ (raws_comparable p_raw s_raw ->
      exists v, Codex.classify rt clk fh sd p_raw s_raw show = Ok v).
Proof.
  intros Hfull shows_short paused. apply leb_le in Hfull.
  split; [|split; [|apply codex_classify_returns]].
  - destruct (claude_classify_fields rt clk fh sd show)
      as (_ & _ & Ht & Hn & Hp & _ & _ & Hs & Hds & Hdp & Hdr & Hdw).
    rewrite Hfull in Hs.
    split; [split; [exact Hs | now rewrite Hds, Hs] |].
    intros ->.
    change (Claude.active_window fh sd true) with (fh, "5h", 18000)
      in Ht, Hn, Hp.
    cbn [fst snd] in Ht, Hn, Hp.
    split; [exact Ht | split; [exact Hn |]].
    rewrite Hdp, Hdr, Hdw, Hp, Ht, Hn. repeat split; reflexivity.
  - intros v Hv.
    destruct (codex_classify_fields _ _ _ _ _ _ _ _ Hv)
      as (_ & _ & Ht & Hn & Hp & _ & _ & Hs & Hds & Hdp & Hdr & Hdw).
    rewrite Hfull in Hs.
    split; [split; [exact Hs | now rewrite Hds, Hs] |].
    intros ->. cbn in Ht, Hn, Hp.
    split; [exact Ht | split; [exact Hn |]].
    rewrite Hdp, Hdr, Hdw, Hp, Ht, Hn. repeat split; reflexivity.
Qed.

(** C2, where the code fails it.  On [usage_null_reset_after] codex.py
    gives the status "Pause" without the force flag; under the flag the
    short window is the one tested, line 137 compares its null
    [reset_after_seconds] with a number, and the [TypeError] ends the
    run: nothing is printed but the traceback.  Nothing guards that
    comparison, whereas claude.py computes the same test inside a [try]
    and, in the same situation, gives "Pause" and shows the short
    window. *)
Theorem pause_lost_under_the_flag (rt : runtime) (clk : clock) :
  (exists v,
     Codex.print_waybar_vars rt clk usage_null_reset_after false = Ok v
     /\ status v = "Pause" /\ win_name v = "Secondary")
  /\ Codex.print_waybar_vars rt clk usage_null_reset_after true
     = Raise TypeError
  /\ (forall args,
        waybar args = true -> show_5h args = true ->
        Codex.main rt clk args (inr usage_null_reset_after)
        = {| stdout := []; stderr := [traceback rt TypeError];
             ended := Uncaught TypeError |})
  /\ (forall show, exists v,
        Claude.print_waybar_vars rt clk usage_unreadable_reset show = Ok v
        /\ status v = "Pause"
        /\ (show = true -> win_name v = "5h" /\ pct v = 0)).
Proof.
  split; [|split; [|split]].
  - eexists. split; [reflexivity|]. split; reflexivity.
  - reflexivity.
  - intros args Hw Hs. unfold Codex.main, Codex.print_waybar.
    rewrite Hw, Hs. reflexivity.
  - intros [|]; eexists; (split; [reflexivity|]);
      (split; [reflexivity|]); intros H;
      [split; reflexivity | discriminate H].
Qed.

(** ** The status "Ready" *)









(** ** Severity class *)

Lemma claude_output_inv rt clk usage f t show o :
  Claude.print_waybar rt clk usage f t show = Ok o ->
  exists v, Claude.print_waybar_vars rt clk usage show = Ok v
    /\ out_class o = (if pct v <? 50 then "claude-low"
                      else if pct v <? 80 then "claude-mid"
                      else "claude-high")
    /\ out_alt o = win_name v.
Proof.
  unfold Claude.print_waybar.
  destruct (Claude.print_waybar_vars rt clk usage show) as [v| |];
    try discriminate.
  cbn [mbind outcome_bind].
  destruct (match given f with Some _ => _ | None => _ end) as [tx| |];
    try discriminate.
  destruct (match given t with Some _ => _ | None => _ end) as [tt| |];
    try discriminate.
  intros [= <-]. exists v. repeat split.
Qed.

Lemma codex_output_inv rt clk usage f t show o :
  Codex.print_waybar rt clk usage f t show = Ok o ->
  exists v, Codex.print_waybar_vars rt clk usage show = Ok v
    /\ out_class o = (if pct v <? 50 then "codex-low"
                      else if pct v <? 80 then "codex-mid"
                      else "codex-high")
    /\ out_alt o = win_name v /\ out_percentage o = pct v.
Proof.
  unfold Codex.print_waybar.
  destruct (Codex.print_waybar_vars rt clk usage show) as [v| |];
    try discriminate.
  cbn [mbind outcome_bind].
  destruct (match given f with Some _ => _ | None => _ end) as [tx| |];
    try discriminate.
  destruct (match given t with Some _ => _ | None => _ end) as [tt| |];
    try discriminate.
  intros [= <-]. exists v. repeat split.
Qed.

Lemma tier_cases (p : Z) (low mid high : string) :
  let c := if p <? 50 then low else if p <? 80 then mid else high in
  (p < 50 -> c = low) /\ (50 <= p < 80 -> c = mid) /\ (80 <= p -> c = high).
Proof.
  cbn zeta. destruct (Z.ltb_spec p 50), (Z.ltb_spec p 80);
    repeat split; intros; first [reflexivity | lia].
Qed.

(** C6. The class printed is the low one for a rounded percentage below
    50, the middle one from 50 to 79 and the high one from 80 on, the
    percentage being that of the active window.  Both programs. *)
Theorem severity_class (rt : runtime) (clk : clock) (usage : json)
  (f t : option string) (show : bool) (o : waybar_output) :
  (Claude.print_waybar rt clk usage f t show = Ok o ->
   exists v, Claude.print_waybar_vars rt clk usage show = Ok v
     /\ pct v = Float.round_half_even (utilization (target v))
     /\ (pct v < 50 -> out_class o = "claude-low")
     /\ (50 <= pct v < 80 -> out_class o = "claude-mid")
     /\ (80 <= pct v -> out_class o = "claude-high"))
  /\ (Codex.print_waybar rt clk usage f t show = Ok o ->
   exists v, Codex.print_waybar_vars rt clk usage show = Ok v
     /\ pct v = Float.round_half_even (utilization (target v))
     /\ (pct v < 50 -> out_class o = "codex-low")
     /\ (50 <= pct v < 80 -> out_class o = "codex-mid")
     /\ (80 <= pct v -> out_class o = "codex-high")).
Proof.
  split; intros H.
  - destruct (claude_output_inv _ _ _ _ _ _ _ H) as (v & Hv & Hc & _).
    exists v. split; [exact Hv|]. split.
    + unfold Claude.print_waybar_vars in Hv.
      destruct (Json.get usage "five_hour" JNull) as [a| |]; try discriminate.
      cbn [mbind outcome_bind] in Hv.
      destruct (parse_window_percent rt a "utilization") as [fh| |];
        try discriminate.
      cbn [mbind outcome_bind] in Hv.
      destruct (Json.get usage "seven_day" JNull) as [b| |]; try discriminate.
      cbn [mbind outcome_bind] in Hv.
      destruct (parse_window_percent rt b "utilization") as [sd| |];
        try discriminate.
      cbn [mbind outcome_bind] in Hv. injection Hv as <-.
      destruct (claude_classify_fields rt clk fh sd show)
        as (_ & _ & Ht & _ & Hp & _).
      now rewrite Hp, Ht.
    + rewrite Hc. apply tier_cases.
  - destruct (codex_output_inv _ _ _ _ _ _ _ H) as (v & Hv & Hc & _).
    exists v. split; [exact Hv|]. split.
    + unfold Codex.print_waybar_vars in Hv.
      destruct (Json.get usage "rate_limit" JNull) as [r| |]; try discriminate.
      cbn [mbind outcome_bind] in Hv.
      destruct (Json.get _ "primary_window" JNull) as [a| |];
        try discriminate.
      cbn [mbind outcome_bind] in Hv.
      destruct (parse_window_direct rt a) as [p| |]; try discriminate.
      cbn [mbind outcome_bind] in Hv.
      destruct (Json.get _ "secondary_window" JNull) as [b| |];
        try discriminate.
      cbn [mbind outcome_bind] in Hv.
      destruct (parse_window_direct rt b) as [s| |]; try discriminate.
      cbn [mbind outcome_bind] in Hv.
      destruct (codex_classify_fields _ _ _ _ _ _ _ _ Hv)
        as (_ & _ & Ht & _ & Hp & _).
      now rewrite Hp, Ht.
    + rewrite Hc. apply tier_cases.
Qed.

Lemma severity_class_witness :
  match Claude.print_waybar rt_none (clock_at 0) (usage_claude 49 0)
          None None false,
        Claude.print_waybar rt_none (clock_at 0) (usage_claude 50 0)
          None None false,
        Claude.print_waybar rt_none (clock_at 0) (usage_claude 79 0)
          None None false,
        Codex.print_waybar rt_none (clock_at 0) (usage_codex 80 0)
          None None false with
  | Ok o49, Ok o50, Ok o79, Ok o80 =>
      out_class o49 = "claude-low" /\ out_class o50 = "claude-mid"
      /\ out_class o79 = "claude-mid" /\ out_class o80 = "codex-high"
  | _, _, _, _ => False
  end.
Proof.
  destruct (Claude.print_waybar _ _ (usage_claude 49 0) _ _ _)
    as [o49| |] eqn:E49; [|vm_compute in E49; discriminate E49..].
  destruct (Claude.print_waybar _ _ (usage_claude 50 0) _ _ _)
    as [o50| |] eqn:E50; [|vm_compute in E50; discriminate E50..].
  destruct (Claude.print_waybar _ _ (usage_claude 79 0) _ _ _)
    as [o79| |] eqn:E79; [|vm_compute in E79; discriminate E79..].
  destruct (Codex.print_waybar _ _ (usage_codex 80 0) _ _ _)
    as [o80| |] eqn:E80; [|vm_compute in E80; discriminate E80..].
  destruct (severity_class rt_none (clock_at 0) (usage_claude 49 0)
              None None false o49) as [H49 _].
  destruct (severity_class rt_none (clock_at 0) (usage_claude 50 0)
              None None false o50) as [H50 _].
  destruct (severity_class rt_none (clock_at 0) (usage_claude 79 0)
              None None false o79) as [H79 _].
  destruct (severity_class rt_none (clock_at 0) (usage_codex 80 0)
              None None false o80) as [_ H80].
  destruct (H49 E49) as (v49 & Hv49 & _ & Hlow & _).
  destruct (H50 E50) as (v50 & Hv50 & _ & _ & Hmid50 & _).
  destruct (H79 E79) as (v79 & Hv79 & _ & _ & Hmid79 & _).
  destruct (H80 E80) as (v80 & Hv80 & _ & _ & _ & Hhigh).
  vm_compute in Hv49, Hv50, Hv79, Hv80.
  injection Hv49 as <-. injection Hv50 as <-.
  injection Hv79 as <-. injection Hv80 as <-.
  split; [apply Hlow; by_compute|].
  split; [apply Hmid50; split; by_compute|].
  split; [apply Hmid79; split; by_compute|].
  apply Hhigh; by_compute.
Defined.

(** ** [format_eta] *)

Lemma format_secs_cases (s : Z) :
  (s <= 0 -> format_secs s = "0m00s")
  /\ (86400 <= s ->
      format_secs s
      = pretty (s / 86400) +:+ "d" +:+ pad2 (s mod 86400 / 3600) +:+ "h")
  /\ (3600 <= s < 86400 ->
      format_secs s
      = pretty (s / 3600) +:+ "h" +:+ pad2 (s mod 3600 / 60) +:+ "m")
  /\ (0 < s < 3600 ->
      format_secs s
      = pretty (s / 60) +:+ "m" +:+ pad2 (s mod 60) +:+ "s").
Proof.
  unfold format_secs.
  destruct (Z.leb_spec s 0), (Z.leb_spec 86400 s), (Z.leb_spec 3600 s);
    repeat split; intros; first [reflexivity | lia].
Qed.

(** C5. A reset timestamp that is present and can be read is shown by
    the whole seconds [s] that remain: "0m00s" when none does, days and
    two-digit hours from a day on, hours and two-digit minutes from an
    hour on, minutes and two-digit seconds below; one that cannot be
    read gives the fixed error text. *)
Theorem format_eta_by_seconds (rt : runtime) (now : Z) (reset_at : json) :
  Json.truthy reset_at = true ->
  (time_until rt now reset_at = None ->
   format_eta rt now reset_at = "??′??″")
  /\ forall delta, time_until rt now reset_at = Some delta ->
     let s := whole_seconds delta in
     let eta := format_eta rt now reset_at in
     (s <= 0 -> eta = "0m00s")
     /\ (86400 <= s ->
         eta = pretty (s / 86400) +:+ "d"
                 +:+ pad2 (s mod 86400 / 3600) +:+ "h")
     /\ (3600 <= s < 86400 ->
         eta = pretty (s / 3600) +:+ "h" +:+ pad2 (s mod 3600 / 60) +:+ "m")
     /\ (0 < s < 3600 ->
         eta = pretty (s / 60) +:+ "m" +:+ pad2 (s mod 60) +:+ "s").
Proof.
  intros Ht. unfold format_eta. rewrite Ht. cbn [negb]. split.
  - intros ->. reflexivity.
  - intros delta ->. apply format_secs_cases.
Qed.

Lemma format_eta_by_seconds_witness :
  format_eta rt_none 0 (JInt 90000) = "1d01h"
  /\ format_eta rt_none 0 (JInt 3725) = "1h02m"
  /\ format_eta rt_none 0 (JInt 59) = "0m59s"
  /\ format_eta rt_none 5000000 (JInt 5) = "0m00s"
  /\ format_eta rt_none 0 (JStr "soon") = "??′??″".
Proof.
  split; [|split; [|split; [|split]]].
  - destruct (format_eta_by_seconds rt_none 0 (JInt 90000) eq_refl)
      as [_ H].
    destruct (H 90000000000 eq_refl) as (_ & Hd & _).
    rewrite Hd; by_compute.
  - destruct (format_eta_by_seconds rt_none 0 (JInt 3725) eq_refl)
      as [_ H].
    destruct (H 3725000000 eq_refl) as (_ & _ & Hh & _).
    rewrite Hh; [by_compute | split; by_compute].
  - destruct (format_eta_by_seconds rt_none 0 (JInt 59) eq_refl)
      as [_ H].
    destruct (H 59000000 eq_refl) as (_ & _ & _ & Hm).
    rewrite Hm; [by_compute | split; by_compute].
  - destruct (format_eta_by_seconds rt_none 5000000 (JInt 5) eq_refl)
      as [_ H].
    destruct (H 0 eq_refl) as (H0 & _).
    apply H0. by_compute.
  - destruct (format_eta_by_seconds rt_none 0 (JStr "soon") eq_refl)
      as [H _].
    apply H. reflexivity.
Defined.

Lemma pad2_digit (n : Z) :
  0 <= n < 10 -> pad2 n = "0" +:+ pretty n.
Proof.
  intros H. assert (Hc : In n [0; 1; 2; 3; 4; 5; 6; 7; 8; 9]).
  { cbn. lia. }
  cbn in Hc. intuition (subst; reflexivity).
Qed.

(** C10. Every reset timestamp that counts as false -- the integer 0 and
    the empty string as well as None -- gets the fixed text for an
    absent timestamp, whatever the clock: for the epoch second 0 this is
    not the "0m00s" that lines 81 to 97 give to a moment that has
    passed. *)
Theorem format_eta_falsy (rt : runtime) (now : Z) (reset_at : json) :
  Json.truthy reset_at = false ->
  format_eta rt now reset_at = "0′00″"
  /\ format_eta rt now (JInt 0) = "0′00″"
  /\ format_eta rt now (JStr EmptyString) = "0′00″"
  /\ format_eta rt now JNull = "0′00″"
  /\ forall s, s <= 0 -> format_eta rt now (JInt 0) <> format_secs s.
Proof.
  intros H. unfold format_eta. rewrite H. cbn.
  repeat split. intros s Hs.
  destruct (format_secs_cases s) as [H0 _]. rewrite (H0 Hs). discriminate.
Qed.

Lemma format_eta_falsy_witness :
  format_eta rt_none 1700000000000000 (JFloat 0) = "0′00″"
  /\ format_eta rt_none 1700000000000000 (JInt 0) <> "0m00s".
Proof.
  destruct (format_eta_falsy rt_none 1700000000000000 (JFloat 0) eq_refl)
    as (H & _ & _ & _ & Hne).
  split; [exact H|]. apply (Hne 0). lia.
Defined.

(** ** The window parsers *)

Lemma or_zero_float rt v :
  py_float rt v = None \/ Json.truthy v = false ->
  match py_float rt (Json.or v (JInt 0)) with
  | Some x => x
  | None => 0%Q
  end = 0%Q.
Proof.
  unfold Json.or. intros [H | H].
  - destruct (Json.truthy v); [now rewrite H | reflexivity].
  - rewrite H. reflexivity.
Qed.

(** C7. On an absent window and on every mapping both parsers return a
    window and raise nothing: the absent one gives utilization 0.0 and no
    reset time; a mapping gives its reset time as it is, and utilization
    0.0 when the utilization is missing, counts as false or cannot be
    converted by [float]. *)
Theorem window_parsers_total (rt : runtime) (key : string)
  (items : list (string * json)) :
  parse_window_percent rt JNull key = Ok (window 0 JNull)
  /\ parse_window_direct rt JNull = Ok (window 0 JNull)
  /\ (exists w, parse_window_percent rt (JObj items) key = Ok w
        /\ parsed_from rt items key "resets_at" w
        /\ (Json.assoc items key = None
            \/ (exists v, Json.assoc items key = Some v
                  /\ (py_float rt v = None \/ Json.truthy v = false)) ->
            utilization w = 0%Q))
  /\ (exists w, parse_window_direct rt (JObj items) = Ok w
        /\ parsed_from rt items "used_percent" "reset_at" w
        /\ (Json.assoc items "used_percent" = None
            \/ (exists v, Json.assoc items "used_percent" = Some v
                  /\ (py_float rt v = None \/ Json.truthy v = false)) ->
            utilization w = 0%Q)).
Proof.
  split; [reflexivity|]. split; [reflexivity|].
  assert (Hor : Json.or (JObj items) (JObj []) = JObj items
                \/ items = []).
  { destruct items; [right | left]; reflexivity. }
  split.
  - unfold parse_window_percent.
    assert (Hget : forall k d,
              Json.get (Json.or (JObj items) (JObj [])) k d
              = Ok (default d (Json.assoc items k))).
    { intros k d. destruct Hor as [-> | ->]; reflexivity. }
    rewrite !Hget. cbn [mbind outcome_bind].
    eexists. split; [reflexivity|]. split; [split; reflexivity|].
    cbn [utilization].
    intros [-> | (v & -> & Hv)]; [reflexivity|].
    cbn [default]. now apply or_zero_float.
  - unfold parse_window_direct.
    assert (Hget : forall k d,
              Json.get (Json.or (JObj items) (JObj [])) k d
              = Ok (default d (Json.assoc items k))).
    { intros k d. destruct Hor as [-> | ->]; reflexivity. }
    rewrite !Hget. cbn [mbind outcome_bind].
    eexists. split; [reflexivity|]. split; [split; reflexivity|].
    cbn [utilization].
    intros [-> | (v & -> & Hv)]; [reflexivity|].
    cbn [default]. now apply or_zero_float.
Qed.

Lemma window_parsers_total_witness :
  parse_window_percent rt_none
    (JObj [("utilization", JStr "n/a"); ("resets_at", JInt 1700000000)])
    "utilization"
  = Ok (window 0 (JInt 1700000000))
  /\ parse_window_direct rt_none
       (JObj [("used_percent", JList [JInt 3]); ("reset_at", JStr "x")])
     = Ok (window 0 (JStr "x")).
Proof.
  split.
  - destruct (window_parsers_total rt_none "utilization"
                [("utilization", JStr "n/a"); ("resets_at", JInt 1700000000)])
      as (_ & _ & (w & Hw & [Hr _] & Hu) & _).
    rewrite Hw. destruct w as [u r]. cbn in Hr, Hu. rewrite Hr, Hu.
    + reflexivity.
    + right. exists (JStr "n/a"). split; [reflexivity | left; reflexivity].
  - destruct (window_parsers_total rt_none "utilization"
                [("used_percent", JList [JInt 3]); ("reset_at", JStr "x")])
      as (_ & _ & _ & (w & Hw & [Hr _] & Hu)).
    rewrite Hw. destruct w as [u r]. cbn in Hr, Hu. rewrite Hr, Hu.
    + reflexivity.
    + right. exists (JList [JInt 3]). split; [reflexivity | left; reflexivity].
Defined.

(** What is not a mapping and counts as true has no [get]: the parsers
    raise on it.  The annotation of [raw] rules such values out. *)
Lemma parse_window_not_a_mapping rt key :
  parse_window_percent rt (JList [JInt 1]) key = Raise AttributeError
  /\ parse_window_direct rt (JStr "n/a") = Raise AttributeError.
Proof. split; reflexivity. Qed.

(** ** [main] when fetching fails *)

(** C9. When fetching the usage raises an exception, a run in waybar
    mode prints one JSON object of class "critical", without indentation
    and so on one line, prints nothing on the error stream and ends with
    code 0; a run in the other mode prints only the message, on the error
    stream, and ends with code 1.  Both programs. *)
Theorem fetch_failure (rt : runtime) (clk : clock) (args : cli_args)
  (err_msg : string) :
  let card p :=
    ended p = Exit 0 /\ stderr p = []
    /\ exists text tooltip,
         stdout p = [JsonDump None
                       (JObj [("text", JStr text); ("tooltip", JStr tooltip);
                              ("class", JStr "critical")])] in
  let fatal p :=
    ended p = Exit 1 /\ stdout p = []
    /\ stderr p = ["[!] Critical Error: " +:+ err_msg] in
  (waybar args = true ->
   card (Claude.main rt clk args (inl err_msg))
   /\ card (Codex.main rt clk args (inl err_msg)))
  /\ (waybar args = false ->
   fatal (Claude.main rt clk args (inl err_msg))
   /\ fatal (Codex.main rt clk args (inl err_msg))).
Proof.
  intros card fatal. unfold Claude.main, Codex.main.
  split; intros ->; split; repeat split; eexists; eexists; reflexivity.
Qed.

Lemma fetch_failure_witness :
  ended (Claude.main rt_none (clock_at 0) (args_of true)
           (inl "Request failed: 403")) = Exit 0
  /\ ended (Codex.main rt_none (clock_at 0) (args_of false)
              (inl "Request failed: timeout")) = Exit 1.
Proof.
  split.
  - destruct (fetch_failure rt_none (clock_at 0) (args_of true)
                "Request failed: 403") as [H _].
    destruct (H eq_refl) as [(He & _) _]. exact He.
  - destruct (fetch_failure rt_none (clock_at 0) (args_of false)
                "Request failed: timeout") as [_ H].
    destruct (H eq_refl) as [_ (He & _)]. exact He.
Defined.

(** ** Strings and outcomes *)

Lemma str_app_cons c (s t : string) : String c s +:+ t = String c (s +:+ t).
Proof. reflexivity. Qed.

Lemma str_app_nil_l (t : string) : EmptyString +:+ t = t.
Proof. reflexivity. Qed.

Lemma str_app_nil_r (s : string) : s +:+ EmptyString = s.
Proof. induction s as [|c s IH]; [reflexivity|]. now rewrite str_app_cons, IH. Qed.

Lemma str_app_assoc (a b c : string) : (a +:+ b) +:+ c = a +:+ (b +:+ c).
Proof.
  induction a as [|x a IH]; [reflexivity|]. now rewrite !str_app_cons, IH.
Qed.

Lemma str_length_app (a b : string) :
  String.length (a +:+ b) = (String.length a + String.length b)%nat.
Proof.
  induction a as [|x a IH]; [reflexivity|].
  rewrite str_app_cons. cbn [String.length]. now rewrite IH.
Qed.

Lemma str_drop_app (a b : string) : Str.drop (String.length a) (a +:+ b) = b.
Proof. induction a as [|x a IH]; [now destruct b | exact IH]. Qed.

Lemma bind_ok {A B} (m : outcome A) (f : A -> outcome B) (b : B) :
  (m ≫= f) = Ok b -> exists a, m = Ok a /\ f a = Ok b.
Proof. destruct m as [a| |]; [|discriminate..]. intros H. now exists a. Qed.

Lemma bind_ret {A} (m : outcome A) : (m ≫= Ok) = m.
Proof. now destruct m. Qed.

Lemma bind_bind {A B C} (m : outcome A) (f : A -> outcome B)
  (g : B -> outcome C) :
  ((m ≫= f) ≫= g) = (m ≫= fun a => f a ≫= g).
Proof. now destruct m. Qed.

(** ** [str.format] *)

Lemma plain_name_cons c name :
  plain_name (String c name) ->
  c <> "{"%char /\ c <> "}"%char /\ Format.starts_suffix c = false
  /\ plain_name name.
Proof.
  unfold plain_name. cbn [all_chars]. intros H.
  apply andb_true_iff in H as [Hc Hn]. apply negb_true_iff in Hc.
  cbn [Str.mem] in Hc.
  destruct (bool_decide (c = "{"%char)) eqn:E1; [discriminate|].
  destruct (bool_decide (c = "}"%char)) eqn:E2; [discriminate|].
  apply bool_decide_eq_false in E1, E2.
  split; [exact E1|]. split; [exact E2|]. split; [exact Hc | exact Hn].
Qed.

(** Inside a field whose name is plain, up to the closing brace. *)
Lemma scan_field data name : forall acc post,
  plain_name name ->
  Format.scan data (Some acc) (name +:+ "}" +:+ post)
  = (v ← Format.get_field data (acc +:+ name);
     r ← Format.scan data None post;
     Ok (v +:+ r)).
Proof.
  induction name as [|c name IH]; intros acc post Hp.
  - rewrite str_app_nil_l, str_app_nil_r. reflexivity.
  - apply plain_name_cons in Hp as (H1 & H2 & H3 & Hp).
    rewrite str_app_cons. cbn [Format.scan].
    rewrite (bool_decide_eq_false_2 _ H2), (bool_decide_eq_false_2 _ H1), H3.
    rewrite (IH _ _ Hp), str_app_assoc. reflexivity.
Qed.

(** A replacement field with a plain name, read from its opening brace. *)
Lemma scan_placeholder data name post :
  plain_name name ->
  Format.scan data None ("{" +:+ name +:+ "}" +:+ post)
  = (v ← Format.get_field data name;
     r ← Format.scan data None post;
     Ok (v +:+ r)).
Proof.
  intros Hp. pose proof (scan_field data name EmptyString post Hp) as H.
  rewrite str_app_nil_l in H. rewrite <- H. clear H.
  destruct name as [|c name].
  - reflexivity.
  - apply plain_name_cons in Hp as (H1 & _).
    rewrite !str_app_cons, str_app_nil_l. cbn [Format.scan].
    rewrite bool_decide_eq_true_2 by reflexivity.
    now rewrite (bool_decide_eq_false_2 _ H1).
Qed.

(** Text that renders can be followed by any text: the scanner is back
    in literal text at its end. *)
Lemma scan_app data (n : nat) : forall pre st shown,
  (String.length pre <= n)%nat ->
  Format.scan data st pre = Ok shown ->
  forall s, Format.scan data st (pre +:+ s)
            = (r ← Format.scan data None s; Ok (shown +:+ r)).
Proof.
  induction n as [|n IH]; intros pre st shown Hlen H s.
  - destruct pre; [|cbn in Hlen; lia].
    destruct st; [discriminate|]. injection H as <-.
    rewrite str_app_nil_l. symmetry. apply bind_ret.
  - destruct pre as [|c pre].
    { destruct st; [discriminate|]. injection H as <-.
      rewrite str_app_nil_l. symmetry. apply bind_ret. }
    cbn [String.length] in Hlen. rewrite str_app_cons.
    destruct st as [name|].
    + cbn [Format.scan] in H |- *.
      destruct (bool_decide (c = "}"%char)).
      * apply bind_ok in H as (v & Hv & H). rewrite Hv in *.
        apply bind_ok in H as (r & Hr & H). injection H as <-.
        cbn [mbind outcome_bind].
        rewrite (IH pre None r) by (lia || assumption).
        rewrite bind_bind. cbn [mbind outcome_bind].
        destruct (Format.scan data None s); [|reflexivity..].
        cbn [mbind outcome_bind]. now rewrite str_app_assoc.
      * destruct (bool_decide (c = "{"%char)); [discriminate|].
        destruct (Format.starts_suffix c); [discriminate|].
        apply IH; [lia | assumption].
    + cbn [Format.scan] in H |- *.
      destruct (bool_decide (c = "{"%char)).
      * destruct pre as [|d pre]; [discriminate|].
        rewrite str_app_cons. cbn [String.length] in Hlen.
        destruct (bool_decide (d = "{"%char)).
        -- apply bind_ok in H as (r & Hr & H). injection H as <-.
           rewrite (IH pre None r) by (lia || assumption).
           rewrite bind_bind. cbn [mbind outcome_bind].
           destruct (Format.scan data None s); reflexivity.
        -- rewrite <- str_app_cons. apply IH; [cbn; lia | assumption].
      * destruct (bool_decide (c = "}"%char)).
        -- destruct pre as [|d pre]; [discriminate|].
           rewrite str_app_cons. cbn [String.length] in Hlen.
           destruct (bool_decide (d = "}"%char)); [|discriminate].
           apply bind_ok in H as (r & Hr & H). injection H as <-.
           rewrite (IH pre None r) by (lia || assumption).
           rewrite bind_bind. cbn [mbind outcome_bind].
           destruct (Format.scan data None s); reflexivity.
        -- apply bind_ok in H as (r & Hr & H). injection H as <-.
           rewrite (IH pre None r) by (lia || assumption).
           rewrite bind_bind. cbn [mbind outcome_bind].
           destruct (Format.scan data None s); reflexivity.
Qed.

Lemma py_format_app data pre shown s :
  py_format pre data = Ok shown ->
  py_format (pre +:+ s) data = (r ← py_format s data; Ok (shown +:+ r)).
Proof. intros H. exact (scan_app data _ pre None shown (le_n _) H s). Qed.

Lemma get_field_cases data name :
  (Format.maybe_number name = false ->
   Format.get_field data name
   = match data !! name with
     | Some v => Ok (py_str v)
     | None => Raise (KeyError name)
     end)
  /\ (Format.digits_onto 0 name <> None ->
      raises (Format.get_field data name)).
Proof.
  unfold Format.get_field. split.
  - intros Hm.
    assert (Hd : forall acc, Format.digits_onto acc name = None).
    { induction name as [|c name IH]; [discriminate|].
      intros acc. cbn [Format.maybe_number Format.digits_onto] in Hm |- *.
      destruct (Format.is_digit c); [|reflexivity].
      cbn [orb andb] in Hm. apply IH, Hm. }
    now rewrite Hd, Hm.
  - destruct (Format.digits_onto 0 name) as [n|]; [|congruence].
    intros _. destruct (Format.PY_SSIZE_T_MAX <? n); eexists; reflexivity.
Qed.

Lemma format_output_passes fmt data :
  format_output fmt data
  = (text ← conditional_passes fmt data; py_format text data).
Proof.
  unfold format_output, conditional_passes. now rewrite bind_bind.
Qed.


(** A placeholder whose name is empty or a number raises as well,
    whatever the mapping holds. *)
Lemma numbered_field_fails (data : gmap string pyval)
  (pre name post shown : string) :
  py_format pre data = Ok shown ->
  plain_name name ->
  Format.digits_onto 0 name <> None ->
  raises (py_format (pre +:+ "{" +:+ name +:+ "}" +:+ post) data).
Proof.
  intros Hpre Hplain Hnum.
  rewrite (py_format_app _ _ _ _ Hpre). unfold py_format.
  rewrite (scan_placeholder _ _ _ Hplain).
  destruct (get_field_cases data name) as [_ Hr].
  destruct (Hr Hnum) as [e ->]. exists e. reflexivity.
Qed.


(** ** The pass over the multi-variable blocks *)

Lemma str_mem_app c (a b : string) :
  Str.mem c (a +:+ b) = Str.mem c a || Str.mem c b.
Proof.
  induction a as [|x a IH]; [reflexivity|].
  rewrite str_app_cons. cbn [Str.mem]. now rewrite IH, orb_assoc.
Qed.

Lemma drop_last_app (a b : string) :
  b <> EmptyString -> Str.drop_last (a +:+ b) = a +:+ Str.drop_last b.
Proof.
  intros Hb. induction a as [|x a IH]; [reflexivity|].
  rewrite !str_app_cons. cbn [Str.drop_last]. rewrite IH.
  destruct (a +:+ b) eqn:E; [|reflexivity].
  destruct a; [|discriminate]. now rewrite str_app_nil_l in E.
Qed.

Lemma amp_inside_intro (a b : string) :
  a <> EmptyString -> b <> EmptyString ->
  Re.amp_inside (a +:+ "&" +:+ b) = true.
Proof.
  intros Ha Hb. destruct a as [|x a]; [congruence|].
  rewrite str_app_cons. cbn [Re.amp_inside].
  rewrite drop_last_app by (rewrite str_app_cons; discriminate).
  rewrite str_mem_app. rewrite str_app_cons.
  cbn [Str.drop_last]. rewrite str_app_nil_l.
  destruct b; [congruence|]. cbn [Str.mem].
  rewrite bool_decide_eq_true_2 by reflexivity. apply orb_true_r.
Qed.

Lemma span_header (hdr rest : string) :
  Str.mem "}"%char hdr = false ->
  Re.span (fun c => negb (bool_decide (c = "}"%char)))
    (hdr +:+ String "}" rest)
  = (hdr, String "}" rest).
Proof.
  induction hdr as [|c hdr IH]; intros H.
  - reflexivity.
  - cbn [Str.mem] in H. apply orb_false_iff in H as [Hc Hh].
    apply bool_decide_eq_false in Hc.
    rewrite str_app_cons. cbn [Re.span].
    rewrite bool_decide_eq_false_2 by congruence. cbn [negb].
    now rewrite (IH Hh).
Qed.

Lemma contains_cons sub c s :
  Str.contains sub (String c s) = false ->
  String.prefix sub (String c s) = false /\ Str.contains sub s = false.
Proof. cbn [Str.contains]. apply orb_false_iff. Qed.

(** The closing tag cannot begin inside [content] and end in the tag
    that follows: the tag starts with a brace, and neither of its other
    two characters is one. *)
Lemma closer_not_astride (content post : string) :
  content <> EmptyString ->
  String.prefix "{/}" content = false ->
  String.prefix "{/}" (content +:+ "{/}" +:+ post) = false.
Proof.
  intros Hne H.
  destruct content as [|a [|b [|c content]]]; [congruence|..];
    rewrite ?str_app_cons, ?str_app_nil_l; cbn [String.prefix] in H |- *;
    repeat (match goal with
            | |- context [ascii_dec ?x ?y] => destruct (ascii_dec x y)
            | H : context [ascii_dec ?x ?y] |- _ => destruct (ascii_dec x y)
            end; cbn [String.prefix] in * );
    first [congruence | destruct content; discriminate].
Qed.

Lemma str_prefix_app (a b : string) : String.prefix a (a +:+ b) = true.
Proof.
  induction a as [|x a IH]; [now destruct b|].
  rewrite str_app_cons. cbn [String.prefix].
  destruct (ascii_dec x x); [exact IH | congruence].
Qed.

Lemma lazy_until_here (closer s : string) :
  Re.lazy_until closer (closer +:+ s) = Some (EmptyString, s).
Proof.
  destruct (closer +:+ s) eqn:E; cbn [Re.lazy_until];
    rewrite <- E, str_prefix_app, str_drop_app; reflexivity.
Qed.

Lemma lazy_until_found (content post : string) :
  Str.contains "{/}" content = false ->
  Str.mem Re.newline content = false ->
  Re.lazy_until "{/}" (content +:+ "{/}" +:+ post) = Some (content, post).
Proof.
  induction content as [|c content IH]; intros Hc Hn.
  - rewrite str_app_nil_l. apply lazy_until_here.
  - apply contains_cons in Hc as [Hp Hc].
    cbn [Str.mem] in Hn. apply orb_false_iff in Hn as [Hnc Hn].
    pose proof (closer_not_astride (String c content) post
                  ltac:(discriminate) Hp) as Hno.
    rewrite str_app_cons in Hno |- *.
    cbn [Re.lazy_until]. rewrite Hno.
    apply bool_decide_eq_false in Hnc.
    rewrite bool_decide_eq_false_2 by congruence.
    now rewrite (IH Hc Hn).
Qed.

(** The whole block is one match of the first pattern. *)
Lemma match_multi_block (hdr content post : string) :
  Str.mem "}"%char hdr = false ->
  Re.amp_inside hdr = true ->
  Str.contains "{/}" content = false ->
  Str.mem Re.newline content = false ->
  Re.match_multi ("{?" +:+ hdr +:+ "}" +:+ content +:+ "{/}" +:+ post)
  = Ok (Some (hdr, content, post)).
Proof.
  intros Hh Ha Hc Hn.
  change ("{?" +:+ hdr +:+ "}" +:+ content +:+ "{/}" +:+ post)
    with (String "{" (String "?"
            (hdr +:+ String "}" (content +:+ "{/}" +:+ post)))).
  unfold Re.match_multi. cbn beta iota.
  rewrite (span_header _ _ Hh), Ha.
  now rewrite (lazy_until_found _ _ Hc Hn).
Qed.

Lemma sub_from_skip m r (a : string) : forall b,
  Re.sub_from m r (String.length a) (a +:+ b) = Re.sub_from m r O b.
Proof.
  induction a as [|x a IH]; intros b.
  - rewrite str_app_nil_l. now destruct b.
  - rewrite str_app_cons. cbn [String.length Re.sub_from]. apply IH.
Qed.

(** [re.sub] at a match: the replacement, then the rest of the text. *)
Lemma sub_at_match m r (c : ascii) (matched after g1 g2 : string) :
  m (String c matched +:+ after) = Ok (Some (g1, g2, after)) ->
  Re.sub m r (String c matched +:+ after)
  = (out ← r g1 g2; rest ← Re.sub m r after; Ok (out +:+ rest)).
Proof.
  intros H. unfold Re.sub. rewrite str_app_cons in H |- *.
  cbn [Re.sub_from]. rewrite H. cbn [mbind outcome_bind].
  replace (String.length (matched +:+ after) - String.length after)%nat
    with (String.length matched) by (rewrite str_length_app; lia).
  now rewrite sub_from_skip.
Qed.

Lemma match_multi_other c s :
  c <> "{"%char -> Re.match_multi (String c s) = Ok None.
Proof.
  intros H. unfold Re.match_multi.
  destruct c as [[] [] [] [] [] [] [] []]; try reflexivity.
  congruence.
Qed.

(** Text without an opening brace is copied. *)
Lemma sub_multi_plain r (pre : string) : forall s,
  Str.mem "{"%char pre = false ->
  Re.sub Re.match_multi r (pre +:+ s)
  = (rest ← Re.sub Re.match_multi r s; Ok (pre +:+ rest)).
Proof.
  induction pre as [|c pre IH]; intros s H.
  - rewrite str_app_nil_l. symmetry. apply bind_ret.
  - cbn [Str.mem] in H. apply orb_false_iff in H as [Hc Hp].
    apply bool_decide_eq_false in Hc.
    rewrite str_app_cons. unfold Re.sub in *. cbn [Re.sub_from].
    rewrite match_multi_other by congruence. cbn [mbind outcome_bind].
    rewrite (IH s Hp), bind_bind.
    destruct (Re.sub_from Re.match_multi r 0 s); reflexivity.
Qed.

Lemma shown_counts data name : shown data name = true <-> counts data name.
Proof.
  unfold shown, counts. destruct (data !! name) as [v|]; cbn [default].
  - rewrite andb_true_iff. split.
    + intros [Ht Hd]. exists v. repeat split; [assumption|].
      intros ->. cbn in Hd. unfold Str.eqb in Hd.
      now rewrite bool_decide_eq_true_2 in Hd.
    + intros (v' & [= <-] & Ht & Hd). split; [assumption|].
      destruct v as [s|n]; [|reflexivity]. cbn. unfold Str.eqb.
      rewrite bool_decide_eq_false_2; [reflexivity | congruence].
  - split; [discriminate|]. now intros (v & [=] & _).
Qed.

Lemma all_valid_counts data (names : list string) :
  forallb (fun v => shown data (Str.strip v)) names = true
  <-> Forall (counts data) (map Str.strip names).
Proof.
  rewrite forallb_forall, Forall_map, List.Forall_forall.
  split; intros H v Hv; apply shown_counts, H, Hv.
Qed.

(** ** A failed rendering ends the run *)

(** Nothing catches what [format_output] raises: [print_waybar] passes
    it on and [main] ends on it. *)
Lemma render_failure_uncaught rt clk args usage e :
  waybar args = true ->
  Claude.print_waybar rt clk usage (format args) (tooltip_format args)
    (show_5h args) = Raise e ->
  ended (Claude.main rt clk args (inr usage)) = Uncaught e.
Proof. intros Hw H. unfold Claude.main. now rewrite Hw, H. Qed.

Example unknown_field_ends_run :
  ended (Claude.main rt_none (clock_at 0)
           {| waybar := true; browser := None; format := Some "{oops}";
              tooltip_format := None; show_5h := false |}
           (inr (usage_claude 10 20)))
  = Uncaught (KeyError "oops").
Proof. reflexivity. Qed.

(** * Further properties of the template engine *)

(** ** Text without markers *)

Lemma match_single_other c s :
  c <> "{"%char -> Re.match_single (String c s) = Ok None.
Proof.
  intros H. unfold Re.match_single.
  destruct c as [[] [] [] [] [] [] [] []]; try reflexivity.
  congruence.
Qed.

Lemma match_multi_no_mark d s :
  d <> "?"%char -> Re.match_multi (String "{" (String d s)) = Ok None.
Proof.
  intros H. unfold Re.match_multi.
  destruct d as [[] [] [] [] [] [] [] []]; try reflexivity.
  congruence.
Qed.

Lemma match_single_no_mark d s :
  d <> "?"%char -> Re.match_single (String "{" (String d s)) = Ok None.
Proof.
  intros H. unfold Re.match_single.
  destruct d as [[] [] [] [] [] [] [] []]; try reflexivity.
  congruence.
Qed.

Lemma prefix_mark c d s :
  String.prefix "{?" (String c (String d s)) = false ->
  c <> "{"%char \/ d <> "?"%char.
Proof.
  cbn [String.prefix].
  destruct (ascii_dec "{" c) as [<- | Hc]; [|left; congruence].
  destruct (ascii_dec "?" d) as [<- | Hd]; [|right; congruence].
  destruct s; discriminate.
Qed.

Lemma match_multi_needs_mark : needs_mark Re.match_multi.
Proof.
  intros [|c [|d s]] H; [reflexivity | |].
  - destruct (ascii_dec c "{") as [-> | Hc]; [reflexivity|].
    now apply match_multi_other.
  - destruct (prefix_mark _ _ _ H) as [Hc | Hd].
    + now apply match_multi_other.
    + destruct (ascii_dec c "{") as [-> | Hc].
      * now apply match_multi_no_mark.
      * now apply match_multi_other.
Qed.

Lemma match_single_needs_mark : needs_mark Re.match_single.
Proof.
  intros [|c [|d s]] H; [reflexivity | |].
  - destruct (ascii_dec c "{") as [-> | Hc]; [reflexivity|].
    now apply match_single_other.
  - destruct (prefix_mark _ _ _ H) as [Hc | Hd].
    + now apply match_single_other.
    + destruct (ascii_dec c "{") as [-> | Hc].
      * now apply match_single_no_mark.
      * now apply match_single_other.
Qed.

Lemma sub_no_mark m r (s : string) :
  needs_mark m -> Str.contains "{?" s = false -> Re.sub m r s = Ok s.
Proof.
  intros Hm. unfold Re.sub. induction s as [|c s IH]; intros H.
  - reflexivity.
  - apply contains_cons in H as [Hp Hc].
    cbn [Re.sub_from]. rewrite (Hm _ Hp). cbn [mbind outcome_bind].
    now rewrite (IH Hc).
Qed.

Lemma passes_no_mark fmt data :
  Str.contains "{?" fmt = false -> conditional_passes fmt data = Ok fmt.
Proof.
  intros H. unfold conditional_passes.
  rewrite (sub_no_mark _ _ _ match_multi_needs_mark H).
  cbn [mbind outcome_bind].
  apply (sub_no_mark _ _ _ match_single_needs_mark H).
Qed.

Lemma no_brace_no_mark (s : string) :
  Str.mem "{"%char s = false -> Str.contains "{?" s = false.
Proof.
  induction s as [|c s IH]; intros H.
  - reflexivity.
  - cbn [Str.mem] in H. apply orb_false_iff in H as [Hc Hs].
    apply bool_decide_eq_false in Hc.
    cbn [Str.contains]. rewrite (IH Hs), orb_false_r.
    cbn [String.prefix]. destruct (ascii_dec "{" c); [congruence | reflexivity].
Qed.

Lemma scan_literal data (s : string) :
  Str.mem "{"%char s = false -> Str.mem "}"%char s = false ->
  Format.scan data None s = Ok s.
Proof.
  induction s as [|c s IH]; intros Ho Hc.
  - reflexivity.
  - cbn [Str.mem] in Ho, Hc.
    apply orb_false_iff in Ho as [Ho1 Ho], Hc as [Hc1 Hc].
    apply bool_decide_eq_false in Ho1, Hc1.
    cbn [Format.scan].
    rewrite !bool_decide_eq_false_2 by congruence.
    now rewrite (IH Ho Hc).
Qed.

Lemma format_no_mark fmt data :
  Str.contains "{?" fmt = false ->
  format_output fmt data = py_format fmt data.
Proof.
  intros H. rewrite format_output_passes, (passes_no_mark _ _ H). reflexivity.
Qed.

(** X1. A template in which no [{?] occurs is rendered by [str.format]
    alone, the two conditional passes leaving it as it is; text without
    any brace comes back unchanged, whatever the mapping. *)
Theorem template_without_markers (data : gmap string pyval) (fmt : string) :
  Str.contains "{?" fmt = false ->
  format_output fmt data = py_format fmt data
  /\ (Str.mem "{"%char fmt = false -> Str.mem "}"%char fmt = false ->
      format_output fmt data = Ok fmt).
Proof.
  intros H. pose proof (format_no_mark fmt data H) as Hf.
  split; [exact Hf|].
  intros Ho Hc. rewrite Hf. now apply scan_literal.
Qed.

Lemma template_without_markers_witness :
  format_output "{pct}% used" data_example = Ok "42% used"
  /\ format_output "5h | 7d" data_example = Ok "5h | 7d".
Proof.
  split.
  - destruct (template_without_markers data_example "{pct}% used" eq_refl)
      as [H _].
    rewrite H. reflexivity.
  - destruct (template_without_markers data_example "5h | 7d" eq_refl)
      as [_ H].
    apply H; reflexivity.
Defined.

(** ** Braces *)

Lemma scan_doubled data (c : ascii) (post : string) :
  c = "{"%char \/ c = "}"%char ->
  Format.scan data None (String c (String c post))
  = (r ← Format.scan data None post; Ok (String c r)).
Proof. intros [-> | ->]; reflexivity. Qed.

Lemma scan_lone_close data (post : string) :
  String.prefix "}" post = false ->
  Format.scan data None (String "}" post) = Raise ValueError.
Proof.
  intros H. destruct post as [|d post]; [reflexivity|].
  cbn [String.prefix] in H.
  assert (Hd : d <> "}"%char).
  { intros ->. destruct (ascii_dec "}" "}"); [|congruence].
    destruct post; discriminate. }
  cbn [Format.scan].
  rewrite (bool_decide_eq_false_2 (d = "}"%char)) by exact Hd.
  reflexivity.
Qed.

(** X2. The escapes of [str.format] are live in a template: after text
    that renders, a doubled brace renders as one brace and the rendering
    goes on, while a closing brace on its own makes the call raise
    [ValueError]. *)
Theorem braces_in_templates (data : gmap string pyval)
  (fmt pre post shown : string) :
  Str.contains "{?" fmt = false ->
  py_format pre data = Ok shown ->
  (fmt = pre +:+ "{{" +:+ post ->
   format_output fmt data
   = (rest ← py_format post data; Ok (shown +:+ "{" +:+ rest)))
  /\ (fmt = pre +:+ "}}" +:+ post ->
      format_output fmt data
      = (rest ← py_format post data; Ok (shown +:+ "}" +:+ rest)))
  /\ (fmt = pre +:+ "}" +:+ post -> String.prefix "}" post = false ->
      format_output fmt data = Raise ValueError).
Proof.
  intros Hm Hpre.
  rewrite (format_no_mark fmt data Hm). clear Hm.
  split; [|split]; intros ->; rewrite (py_format_app _ _ _ _ Hpre);
    unfold py_format.
  - change ("{{" +:+ post) with (String "{" (String "{" post)).
    rewrite (scan_doubled data "{" post) by (left; reflexivity).
    rewrite bind_bind.
    destruct (Format.scan data None post); reflexivity.
  - change ("}}" +:+ post) with (String "}" (String "}" post)).
    rewrite (scan_doubled data "}" post) by (right; reflexivity).
    rewrite bind_bind.
    destruct (Format.scan data None post); reflexivity.
  - intros Hp. change ("}" +:+ post) with (String "}" post).
    now rewrite (scan_lone_close data post Hp).
Qed.

Lemma braces_in_templates_witness :
  format_output "{pct}{{%}}" data_example = Ok "42{%}"
  /\ format_output "{pct}}%" data_example = Raise ValueError.
Proof.
  split.
  - destruct (braces_in_templates data_example "{pct}{{%}}" "{pct}" "%}}" "42"
                eq_refl eq_refl) as (H & _ & _).
    rewrite (H eq_refl). reflexivity.
  - destruct (braces_in_templates data_example "{pct}}%" "{pct}" "%" "42"
                eq_refl eq_refl) as (_ & _ & H).
    apply H; reflexivity.
Defined.

(** ** Single-variable blocks *)

Lemma str_prefix_refl (s : string) : String.prefix s s = true.
Proof.
  induction s as [|c s IH]; [reflexivity|].
  cbn [String.prefix]. destruct (ascii_dec c c); [exact IH | congruence].
Qed.

(** What starts a text [b +:+ c] starts [b], or runs through [b] into
    [c]. *)
Lemma str_prefix_app_cases (b : string) : forall a c,
  String.prefix a (b +:+ c) = true ->
  String.prefix a b = true
  \/ exists x, a = b +:+ x /\ String.prefix x c = true.
Proof.
  induction b as [|y b IH]; intros a c H.
  - right. exists a. now rewrite !str_app_nil_l in *.
  - destruct a as [|z a]; [left; reflexivity|].
    rewrite str_app_cons in H. cbn [String.prefix] in H |- *.
    destruct (ascii_dec z y) as [-> | ]; [|discriminate].
    destruct (IH _ _ H) as [Hp | (x & -> & Hx)]; [now left|].
    right. exists x. now rewrite str_app_cons.
Qed.

(** A closing tag is an opening brace and text without one, so it cannot
    begin inside the content and end in the tag that follows. *)
Lemma tag_not_astride (r content post : string) :
  Str.mem "{"%char r = false ->
  content <> EmptyString ->
  String.prefix (String "{" r) content = false ->
  String.prefix (String "{" r) (content +:+ String "{" r +:+ post) = false.
Proof.
  intros Hr Hne Hp.
  destruct (String.prefix _ (content +:+ _)) eqn:E; [|reflexivity].
  apply str_prefix_app_cases in E as [E | (x & Hx & E)]; [congruence|].
  destruct x as [|d x].
  - rewrite str_app_nil_r in Hx. subst content.
    now rewrite str_prefix_refl in Hp.
  - destruct content as [|c content]; [congruence|].
    rewrite str_app_cons in Hx. injection Hx as _ ->.
    rewrite str_mem_app in Hr. apply orb_false_iff in Hr as [_ Hr].
    rewrite str_app_cons in E. cbn [String.prefix] in E.
    destruct (ascii_dec d "{") as [-> | ]; [|discriminate].
    cbn [Str.mem] in Hr. now rewrite bool_decide_eq_true_2 in Hr.
Qed.

Lemma tag_found (r content post : string) :
  Str.mem "{"%char r = false ->
  Str.contains (String "{" r) content = false ->
  Str.mem Re.newline content = false ->
  Re.lazy_until (String "{" r) (content +:+ String "{" r +:+ post)
  = Some (content, post).
Proof.
  intros Hr. induction content as [|c content IH]; intros Hc Hn.
  - rewrite str_app_nil_l. apply lazy_until_here.
  - apply contains_cons in Hc as [Hp Hc].
    cbn [Str.mem] in Hn. apply orb_false_iff in Hn as [Hnc Hn].
    pose proof (tag_not_astride r (String c content) post Hr
                  ltac:(discriminate) Hp) as Hno.
    rewrite str_app_cons in Hno |- *.
    cbn [Re.lazy_until]. rewrite Hno.
    apply bool_decide_eq_false in Hnc.
    rewrite bool_decide_eq_false_2 by congruence.
    now rewrite (IH Hc Hn).
Qed.

Lemma span_word (name rest : string) :
  all_chars Re.is_word name = true ->
  Re.span Re.is_word (name +:+ String "}" rest) = (name, String "}" rest).
Proof.
  induction name as [|c name IH]; intros H.
  - reflexivity.
  - cbn [all_chars] in H. apply andb_true_iff in H as [Hc Hn].
    rewrite str_app_cons. cbn [Re.span]. now rewrite Hc, (IH Hn).
Qed.

Lemma word_mem (c : ascii) (name : string) :
  Re.is_word c = false -> all_chars Re.is_word name = true ->
  Str.mem c name = false.
Proof.
  intros Hc. induction name as [|d name IH]; intros H.
  - reflexivity.
  - cbn [all_chars] in H. apply andb_true_iff in H as [Hd Hn].
    cbn [Str.mem]. rewrite (IH Hn), orb_false_r.
    apply bool_decide_eq_false. intros ->. congruence.
Qed.

Lemma str_eqb_nil (s : string) :
  s <> EmptyString -> Str.eqb s EmptyString = false.
Proof. now destruct s. Qed.

(** The closing tag of [name] holds one opening brace, its first
    character. *)
Lemma tag_one_brace (name : string) :
  all_chars Re.is_word name = true ->
  Str.mem "{"%char ("/" +:+ name +:+ "}") = false.
Proof.
  intros Hw. change ("/" +:+ name +:+ "}") with (String "/" (name +:+ "}")).
  cbn [Str.mem]. rewrite str_mem_app, (word_mem "{" name eq_refl Hw).
  reflexivity.
Qed.

(** The whole single-variable block is one match of the second
    pattern. *)
Lemma match_single_block (name content post : string) :
  name <> EmptyString ->
  all_chars Re.is_word name = true ->
  Str.contains ("{/" +:+ name +:+ "}") content = false ->
  Str.mem Re.newline content = false ->
  Re.match_single ("{?" +:+ name +:+ "}" +:+ content
                     +:+ ("{/" +:+ name +:+ "}") +:+ post)
  = Ok (Some (name, content, post)).
Proof.
  intros Hne Hw Hc Hn.
  change ("{?" +:+ name +:+ "}" +:+ content
            +:+ ("{/" +:+ name +:+ "}") +:+ post)
    with (String "{" (String "?"
            (name +:+ String "}"
               (content +:+ ("{/" +:+ name +:+ "}") +:+ post)))).
  unfold Re.match_single. cbn beta iota.
  rewrite (span_word _ _ Hw), (str_eqb_nil _ Hne).
  change (negb (Format.is_ascii "}")) with false.
  rewrite bool_decide_eq_true_2 by reflexivity. cbn [negb andb].
  change ("{/" +:+ name +:+ "}") with (String "{" ("/" +:+ name +:+ "}"))
    in Hc |- *.
  now rewrite (tag_found _ _ _ (tag_one_brace _ Hw) Hc Hn).
Qed.

Lemma sub_single_plain r (pre : string) : forall s,
  Str.mem "{"%char pre = false ->
  Re.sub Re.match_single r (pre +:+ s)
  = (rest ← Re.sub Re.match_single r s; Ok (pre +:+ rest)).
Proof.
  induction pre as [|c pre IH]; intros s H.
  - rewrite str_app_nil_l. symmetry. apply bind_ret.
  - cbn [Str.mem] in H. apply orb_false_iff in H as [Hc Hp].
    apply bool_decide_eq_false in Hc.
    rewrite str_app_cons. unfold Re.sub in *. cbn [Re.sub_from].
    rewrite match_single_other by congruence. cbn [mbind outcome_bind].
    rewrite (IH s Hp), bind_bind.
    destruct (Re.sub_from Re.match_single r 0 s); reflexivity.
Qed.

(** X3. A block [{?name}content{/name}] -- the name made of ASCII
    letters, digits and underscores, [content] on one line and free of
    the closing tag -- that follows text without an opening brace is
    replaced, in the second pass of [format_output], by [content]
    expanded against the mapping when the name has a value that is true
    and is not "Not started", and by nothing otherwise.  The name is
    looked up as written: no white space is stripped here. *)
Theorem single_block (data : gmap string pyval)
  (pre name content post : string) :
  let pass := Re.sub Re.match_single (replace_conditional data) in
  let template :=
    pre +:+ "{?" +:+ name +:+ "}" +:+ content
        +:+ ("{/" +:+ name +:+ "}") +:+ post in
  Str.mem "{"%char pre = false ->
  name <> EmptyString ->
  all_chars Re.is_word name = true ->
  Str.contains ("{/" +:+ name +:+ "}") content = false ->
  Str.mem Re.newline content = false ->
  (counts data name ->
   pass template
   = (out ← py_format content data;
      rest ← pass post;
      Ok (pre +:+ out +:+ rest)))
  /\ (~ counts data name ->
      pass template = (rest ← pass post; Ok (pre +:+ rest))).
Proof.
  intros pass template Hpre Hne Hw Hc Hn.
  pose proof (match_single_block name content post Hne Hw Hc Hn) as Hm.
  assert (Hpass :
    pass template
    = (out ← replace_conditional data name content;
       rest ← pass post;
       Ok (pre +:+ out +:+ rest))).
  { unfold pass, template. rewrite (sub_single_plain _ _ _ Hpre).
    replace ("{?" +:+ name +:+ "}" +:+ content
               +:+ ("{/" +:+ name +:+ "}") +:+ post)
      with (String "{" ("?" +:+ name +:+ "}" +:+ content
                          +:+ ("{/" +:+ name +:+ "}")) +:+ post)
      in Hm |- *
      by (rewrite str_app_cons, !str_app_assoc; reflexivity).
    rewrite (sub_at_match _ _ _ _ _ _ _ Hm), bind_bind.
    destruct (replace_conditional data name content) as [out| |];
      [|reflexivity..].
    cbn [mbind outcome_bind]. rewrite bind_bind.
    destruct (Re.sub Re.match_single _ post); reflexivity. }
  pose proof (shown_counts data name) as Hs.
  split.
  - intros Hv. apply Hs in Hv. rewrite Hpass.
    unfold replace_conditional. now rewrite Hv.
  - intros Hv. rewrite Hpass. unfold replace_conditional.
    destruct (shown data name) eqn:E.
    + exfalso. apply Hv, Hs. reflexivity.
    + cbn [mbind outcome_bind]. destruct (pass post); reflexivity.
Qed.

Lemma single_block_witness :
  Re.sub Re.match_single (replace_conditional data_example)
    "a {?pct}<{pct}>{/pct}!"
  = Ok "a <42>!"
  /\ Re.sub Re.match_single (replace_conditional data_example)
       "a {?status}<{pct}>{/status}!"
     = Ok "a !".
Proof.
  split.
  - destruct (single_block data_example "a " "pct" "<{pct}>" "!"
                eq_refl ltac:(discriminate) eq_refl eq_refl eq_refl)
      as (H & _).
    etransitivity; [apply H | reflexivity].
    eexists; (split; [reflexivity|]); (split; [reflexivity | discriminate]).
  - destruct (single_block data_example "a " "status" "<{pct}>" "!"
                eq_refl ltac:(discriminate) eq_refl eq_refl eq_refl)
      as (_ & H).
    etransitivity; [apply H | reflexivity].
    intros (v & Hv & Ht & _).
    vm_compute in Hv. injection Hv as <-. discriminate Ht.
Defined.

(** ** Blocks and the final [str.format] *)

(** The first pass at a multi-variable block, whatever its variables. *)
Lemma multi_pass_block data (hdr content post : string) :
  Str.mem "}"%char hdr = false ->
  Re.amp_inside hdr = true ->
  Str.contains "{/}" content = false ->
  Str.mem Re.newline content = false ->
  Re.sub Re.match_multi (replace_multi_conditional data)
    ("{?" +:+ hdr +:+ "}" +:+ content +:+ "{/}" +:+ post)
  = (out ← replace_multi_conditional data hdr content;
     rest ← Re.sub Re.match_multi (replace_multi_conditional data) post;
     Ok (out +:+ rest)).
Proof.
  intros Hh Ha Hc Hn.
  pose proof (match_multi_block hdr content post Hh Ha Hc Hn) as Hm.
  replace ("{?" +:+ hdr +:+ "}" +:+ content +:+ "{/}" +:+ post)
    with (String "{" ("?" +:+ hdr +:+ "}" +:+ content +:+ "{/}") +:+ post)
    in Hm |- *
    by (rewrite str_app_cons, !str_app_assoc; reflexivity).
  apply (sub_at_match _ _ _ _ _ _ _ Hm).
Qed.

(** X4. The content of a shown multi-variable block goes through
    [str.format] twice: once when the block is replaced, and once more,
    with the rest of the text, at the end of [format_output].  So what
    the first expansion leaves is itself read as a template. *)
Theorem shown_block_rendered_twice (data : gmap string pyval)
  (a b content out : string) :
  let hdr := a +:+ "&" +:+ b in
  let names := map Str.strip (Str.split "&"%char hdr) in
  a <> EmptyString -> b <> EmptyString ->
  Str.mem "}"%char hdr = false ->
  Str.contains "{/}" content = false ->
  Str.mem Re.newline content = false ->
  Forall (counts data) names ->
  py_format content data = Ok out ->
  Str.contains "{?" out = false ->
  format_output ("{?" +:+ hdr +:+ "}" +:+ content +:+ "{/}") data
  = py_format out data.
Proof.
  intros hdr names Ha Hb Hh Hc Hn Hall Hout Hmark.
  pose proof (multi_pass_block data hdr content EmptyString Hh
                (amp_inside_intro a b Ha Hb) Hc Hn) as Hp.
  rewrite str_app_nil_r in Hp.
  apply all_valid_counts in Hall.
  assert (Hr : replace_multi_conditional data hdr content = Ok out).
  { unfold replace_multi_conditional. cbn zeta. now rewrite Hall. }
  rewrite Hr in Hp.
  cbn [mbind outcome_bind Re.sub Re.sub_from] in Hp.
  rewrite str_app_nil_r in Hp.
  unfold format_output. rewrite Hp. cbn [mbind outcome_bind].
  rewrite (sub_no_mark _ _ _ match_single_needs_mark Hmark).
  reflexivity.
Qed.

Lemma shown_block_rendered_twice_witness :
  format_output "{?pct&5h_reset}{{pct}}{/}" data_example = Ok "42"
  /\ format_output "{{pct}}" data_example = Ok "{pct}".
Proof.
  split; [|reflexivity].
  etransitivity;
    [apply (shown_block_rendered_twice data_example "pct" "5h_reset"
              "{{pct}}" "{pct}" ltac:(discriminate) ltac:(discriminate)
              eq_refl eq_refl eq_refl)
    | reflexivity]; try reflexivity.
  repeat constructor; eexists; (split; [reflexivity|]);
    (split; [reflexivity | discriminate]).
Defined.

(** ** A marker that is not closed *)

Lemma lazy_until_no_brace (r s : string) :
  Str.mem "{"%char s = false -> Re.lazy_until (String "{" r) s = None.
Proof.
  induction s as [|c s IH]; intros H.
  - reflexivity.
  - cbn [Str.mem] in H. apply orb_false_iff in H as [Hc Hs].
    apply bool_decide_eq_false in Hc.
    cbn [Re.lazy_until String.prefix].
    destruct (ascii_dec "{" c); [congruence|].
    rewrite (IH Hs). now destruct (bool_decide (c = Re.newline)).
Qed.

Lemma mem_drop_last c (s : string) :
  Str.mem c s = false -> Str.mem c (Str.drop_last s) = false.
Proof.
  induction s as [|d s IH]; intros H; [reflexivity|].
  cbn [Str.mem] in H. apply orb_false_iff in H as [Hd Hs].
  cbn [Str.drop_last]. destruct s; [reflexivity|].
  cbn [Str.mem]. now rewrite Hd, (IH Hs).
Qed.

Lemma word_no_amp (name : string) :
  all_chars Re.is_word name = true -> Re.amp_inside name = false.
Proof.
  intros Hw. pose proof (word_mem "&" name eq_refl Hw) as H.
  destruct name as [|c name]; [reflexivity|].
  cbn [Re.amp_inside]. apply mem_drop_last.
  cbn [Str.mem] in H. now apply orb_false_iff in H as [_ H].
Qed.

Lemma span_to_brace_word (name rest : string) :
  all_chars Re.is_word name = true ->
  Re.span (fun c => negb (bool_decide (c = "}"%char)))
    (name +:+ String "}" rest)
  = (name, String "}" rest).
Proof.
  intros Hw. apply span_header. now apply (word_mem "}" name eq_refl).
Qed.

Lemma word_plain (name : string) :
  all_chars Re.is_word name = true -> plain_name name.
Proof.
  unfold plain_name. induction name as [|c name IH]; intros H.
  - reflexivity.
  - cbn [all_chars] in H |- *. apply andb_true_iff in H as [Hc Hn].
    rewrite (IH Hn), andb_true_r.
    destruct c as [[] [] [] [] [] [] [] []]; try reflexivity;
      discriminate Hc.
Qed.

(** An opening marker alone is text for both passes. *)
Lemma unclosed_passes data (name tail : string) :
  all_chars Re.is_word name = true ->
  Str.mem "{"%char tail = false ->
  conditional_passes ("{?" +:+ name +:+ "}" +:+ tail) data
  = Ok ("{?" +:+ name +:+ "}" +:+ tail).
Proof.
  intros Hw Ht.
  assert (Hrest : Str.contains "{?" ("?" +:+ name +:+ "}" +:+ tail) = false).
  { apply no_brace_no_mark.
    change ("?" +:+ name +:+ "}" +:+ tail)
      with (String "?" (name +:+ String "}" tail)).
    cbn [Str.mem]. rewrite str_mem_app, (word_mem "{" name eq_refl Hw).
    cbn [Str.mem]. now rewrite Ht. }
  change ("{?" +:+ name +:+ "}" +:+ tail)
    with (String "{" ("?" +:+ name +:+ "}" +:+ tail)).
  assert (H1 : Re.match_multi (String "{" ("?" +:+ name +:+ "}" +:+ tail))
               = Ok None).
  { change (String "{" ("?" +:+ name +:+ "}" +:+ tail))
      with (String "{" (String "?" (name +:+ String "}" tail))).
    unfold Re.match_multi. cbn beta iota.
    now rewrite (span_to_brace_word _ _ Hw), (word_no_amp _ Hw). }
  assert (H2 : Re.match_single (String "{" ("?" +:+ name +:+ "}" +:+ tail))
               = Ok None).
  { change (String "{" ("?" +:+ name +:+ "}" +:+ tail))
      with (String "{" (String "?" (name +:+ String "}" tail))).
    unfold Re.match_single. cbn beta iota.
    rewrite (span_word _ _ Hw).
    change (negb (Format.is_ascii "}")) with false. cbn iota.
    destruct (_ && _); [|reflexivity].
    change ("{/" +:+ name +:+ "}") with (String "{" ("/" +:+ name +:+ "}")).
    now rewrite (lazy_until_no_brace _ _ Ht). }
  unfold conditional_passes, Re.sub. cbn [Re.sub_from].
  rewrite H1. cbn [mbind outcome_bind].
  pose proof (sub_no_mark Re.match_multi (replace_multi_conditional data)
                _ match_multi_needs_mark Hrest) as E1.
  unfold Re.sub in E1. rewrite E1. cbn [mbind outcome_bind Re.sub_from].
  rewrite H2. cbn [mbind outcome_bind].
  pose proof (sub_no_mark Re.match_single (replace_conditional data)
                _ match_single_needs_mark Hrest) as E2.
  unfold Re.sub in E2. now rewrite E2.
Qed.

(** X5. An opening marker [{?name}] with no closing tag after it is not
    a block: both passes leave it in the text, and the final
    [str.format] reads it as the field [?name], which the mapping does
    not have.  The call raises [KeyError] for that name. *)
Theorem unclosed_marker_fails (data : gmap string pyval)
  (name tail : string) :
  name <> EmptyString ->
  all_chars Re.is_word name = true ->
  Str.mem "{"%char tail = false ->
  data !! ("?" +:+ name) = None ->
  format_output ("{?" +:+ name +:+ "}" +:+ tail) data
  = Raise (KeyError ("?" +:+ name)).
Proof.
  intros Hne Hw Ht Hd.
  rewrite format_output_passes, (unclosed_passes data _ _ Hw Ht).
  cbn [mbind outcome_bind]. unfold py_format.
  change ("{?" +:+ name +:+ "}" +:+ tail)
    with ("{" +:+ ("?" +:+ name) +:+ "}" +:+ tail).
  assert (Hp : plain_name ("?" +:+ name)).
  { pose proof (word_plain _ Hw) as H. unfold plain_name in *.
    change ("?" +:+ name) with (String "?" name).
    cbn [all_chars]. now rewrite H. }
  rewrite (scan_placeholder data _ tail Hp).
  destruct (get_field_cases data ("?" +:+ name)) as [Hg _].
  rewrite Hg, Hd; reflexivity.
Qed.

Lemma unclosed_marker_fails_witness :
  format_output "{?pct}42%" data_example = Raise (KeyError "?pct").
Proof.
  apply (unclosed_marker_fails data_example "pct" "42%");
    [discriminate | reflexivity..].
Defined.

(** * Multi-variable blocks in every template *)

(** ** What the first pattern matches *)

Lemma span_sound (p : ascii -> bool) (s : string) :
  s = (Re.span p s).1 +:+ (Re.span p s).2
  /\ all_chars p (Re.span p s).1 = true
  /\ match (Re.span p s).2 with
     | EmptyString => True
     | String c _ => p c = false
     end.
Proof.
  induction s as [|c s (IH1 & IH2 & IH3)]; [now cbn|].
  cbn [Re.span]. destruct (p c) eqn:Ep.
  - destruct (Re.span p s) as [a b]. cbn [fst snd] in *.
    rewrite str_app_cons, <- IH1. cbn [all_chars]. now rewrite Ep, IH2.
  - cbn [fst snd all_chars]. now rewrite str_app_nil_l.
Qed.

Lemma no_closing_brace (hdr : string) :
  all_chars (fun c => negb (bool_decide (c = "}"%char))) hdr = true ->
  Str.mem "}"%char hdr = false.
Proof.
  induction hdr as [|c hdr IH]; intros H; [reflexivity|].
  cbn [all_chars] in H. apply andb_true_iff in H as [Hc Hh].
  cbn [Str.mem]. rewrite (IH Hh), orb_false_r.
  apply negb_true_iff, bool_decide_eq_false in Hc.
  apply bool_decide_eq_false. congruence.
Qed.

Lemma mem_drop_last_split (c : ascii) (t : string) :
  Str.mem c (Str.drop_last t) = true ->
  exists x y, y <> EmptyString /\ t = x +:+ String c y.
Proof.
  induction t as [|d t IH]; [discriminate|].
  cbn [Str.drop_last]. destruct t as [|e t]; [discriminate|].
  cbn [Str.mem]. intros H. apply orb_true_iff in H as [H | H].
  - apply bool_decide_eq_true in H. subst d.
    exists EmptyString, (String e t). split; [discriminate | reflexivity].
  - destruct (IH H) as (x & y & Hy & ->).
    exists (String d x), y. split; [exact Hy | reflexivity].
Qed.

Lemma amp_inside_elim (hdr : string) :
  Re.amp_inside hdr = true ->
  exists a b, a <> EmptyString /\ b <> EmptyString /\ hdr = a +:+ "&" +:+ b.
Proof.
  destruct hdr as [|c t]; [discriminate|]. cbn [Re.amp_inside]. intros H.
  destruct (mem_drop_last_split _ _ H) as (x & y & Hy & ->).
  exists (String c x), y. split; [discriminate|]. split; [exact Hy|].
  reflexivity.
Qed.

Lemma str_prefix_drop (a s : string) :
  String.prefix a s = true -> s = a +:+ Str.drop (String.length a) s.
Proof.
  revert s. induction a as [|x a IH]; intros s H.
  - now rewrite str_app_nil_l.
  - destruct s as [|y s]; [discriminate|]. cbn [String.prefix] in H.
    destruct (ascii_dec x y) as [-> |]; [|discriminate].
    rewrite str_app_cons. cbn [String.length Str.drop]. now rewrite <- (IH s H).
Qed.

Lemma str_prefix_nil (s : string) : String.prefix EmptyString s = true.
Proof. now destruct s. Qed.

Lemma str_prefix_weaken (a b x : string) :
  String.prefix a b = true -> String.prefix a (b +:+ x) = true.
Proof.
  revert b. induction a as [|c a IH]; intros b H.
  - apply str_prefix_nil.
  - destruct b as [|d b]; [discriminate|]. rewrite str_app_cons.
    cbn [String.prefix] in H |- *.
    destruct (ascii_dec c d); [now apply IH | discriminate].
Qed.

Lemma lazy_until_sound (s content after : string) :
  Re.lazy_until "{/}" s = Some (content, after) ->
  s = content +:+ "{/}" +:+ after
  /\ Str.contains "{/}" content = false
  /\ Str.mem Re.newline content = false.
Proof.
  revert content after. induction s as [|c s IH]; intros content after.
  - discriminate.
  - cbn [Re.lazy_until].
    destruct (String.prefix "{/}" (String c s)) eqn:Ep.
    + intros [= <- <-]. rewrite str_app_nil_l.
      split; [exact (str_prefix_drop _ _ Ep) | split; reflexivity].
    + destruct (bool_decide (c = Re.newline)) eqn:En; [discriminate|].
      destruct (Re.lazy_until "{/}" s) as [[body rest]|] eqn:El;
        [|discriminate].
      intros [= <- <-]. destruct (IH _ _ eq_refl) as (-> & Hc & Hn).
      split; [reflexivity|]. split.
      * cbn [Str.contains]. rewrite Hc, orb_false_r.
        destruct (String.prefix "{/}" (String c body)) eqn:E; [|reflexivity].
        apply (str_prefix_weaken _ _ ("{/}" +:+ rest)) in E.
        rewrite str_app_cons in E. congruence.
      * cbn [Str.mem]. apply bool_decide_eq_false in En.
        rewrite bool_decide_eq_false_2 by congruence. exact Hn.
Qed.

(** The first pattern matches exactly the multi-variable blocks. *)
Lemma match_multi_sound (s hdr content post : string) :
  Re.match_multi s = Ok (Some (hdr, content, post)) ->
  is_multi_block hdr content /\ s = multi_block_text hdr content +:+ post.
Proof.
  destruct s as [|c [|d t]]; [discriminate | |].
  { destruct (ascii_dec c "{") as [-> |]; [discriminate|].
    now rewrite match_multi_other. }
  destruct (ascii_dec c "{") as [-> | Hc];
    [|now rewrite match_multi_other].
  destruct (ascii_dec d "?") as [-> | Hd];
    [|now rewrite match_multi_no_mark].
  unfold Re.match_multi. cbn beta iota.
  pose proof (span_sound (fun c => negb (bool_decide (c = "}"%char))) t)
    as (Ht & Hall & Hrest).
  destruct (Re.span _ t) as [h rest]. cbn [fst snd] in *.
  destruct rest as [|e body]; [discriminate|].
  apply negb_false_iff, bool_decide_eq_true in Hrest. subst e.
  destruct (Re.amp_inside h) eqn:Ea; [|discriminate].
  destruct (Re.lazy_until "{/}" body) as [[ct af]|] eqn:El; [|discriminate].
  intros [= <- <- <-].
  destruct (lazy_until_sound _ _ _ El) as (-> & Hc & Hn).
  split.
  - split; [now apply no_closing_brace|].
    split; [now apply amp_inside_elim|]. split; assumption.
  - unfold multi_block_text. rewrite Ht, !str_app_assoc. reflexivity.
Qed.

Lemma match_multi_complete (hdr content post : string) :
  is_multi_block hdr content ->
  Re.match_multi (multi_block_text hdr content +:+ post)
  = Ok (Some (hdr, content, post)).
Proof.
  intros (Hh & (a & b & Ha & Hb & Hab) & Hc & Hn).
  unfold multi_block_text. rewrite !str_app_assoc.
  apply match_multi_block; try assumption.
  rewrite Hab. now apply amp_inside_intro.
Qed.

Lemma match_multi_total (s : string) :
  Re.match_multi s = Ok None
  \/ exists g, Re.match_multi s = Ok (Some g).
Proof.
  destruct s as [|c [|d t]]; [left; reflexivity | |].
  { destruct (ascii_dec c "{") as [-> |]; [left; reflexivity|].
    left. now apply match_multi_other. }
  destruct (ascii_dec c "{") as [-> | Hc];
    [|left; now apply match_multi_other].
  destruct (ascii_dec d "?") as [-> | Hd];
    [|left; now apply match_multi_no_mark].
  unfold Re.match_multi. cbn beta iota.
  destruct (Re.span _ t) as [h [|e body]]; [left; reflexivity|].
  destruct (Re.amp_inside h); [|left; reflexivity].
  destruct (Re.lazy_until "{/}" body) as [[ct af]|];
    [right; eauto | left; reflexivity].
Qed.

Lemma no_block_no_match (s : string) :
  ~ starts_multi_block s <-> Re.match_multi s = Ok None.
Proof.
  split.
  - intros H. destruct (match_multi_total s) as [E | [[[h c] p] E]];
      [exact E|].
    exfalso. apply H. exists h, c, p. now apply match_multi_sound.
  - intros E (h & c & p & Hb & ->).
    rewrite (match_multi_complete _ _ _ Hb) in E. discriminate.
Qed.

(** ** [re.sub] up to the leftmost block *)

Lemma sub_unmatched m r (pre : string) : forall s,
  (forall i, (i < String.length pre)%nat ->
     m (Str.drop i (pre +:+ s)) = Ok None) ->
  Re.sub m r (pre +:+ s)
  = (rest ← Re.sub m r s; Ok (pre +:+ rest)).
Proof.
  induction pre as [|c pre IH]; intros s H.
  - rewrite str_app_nil_l. symmetry. apply bind_ret.
  - rewrite str_app_cons. unfold Re.sub in *. cbn [Re.sub_from].
    pose proof (H 0%nat ltac:(cbn; lia)) as H0.
    rewrite str_app_cons in H0. cbn [Str.drop] in H0. rewrite H0.
    cbn [mbind outcome_bind]. rewrite IH, bind_bind.
    + destruct (Re.sub_from m r 0 s); reflexivity.
    + intros i Hi. specialize (H (S i) ltac:(cbn; lia)).
      now rewrite str_app_cons in H.
Qed.

Lemma sub_nowhere m r (s : string) :
  (forall i, m (Str.drop i s) = Ok None) -> Re.sub m r s = Ok s.
Proof.
  intros H. rewrite <- (str_app_nil_r s) at 1.
  rewrite sub_unmatched.
  - cbn. now rewrite str_app_nil_r.
  - intros i _. rewrite str_app_nil_r. apply H.
Qed.

(** The first pass at the leftmost block of a template. *)
Lemma multi_pass_leftmost data (pre hdr content post : string) :
  is_multi_block hdr content ->
  (forall i, (i < String.length pre)%nat ->
     ~ starts_multi_block
         (Str.drop i (pre +:+ multi_block_text hdr content +:+ post))) ->
  Re.sub Re.match_multi (replace_multi_conditional data)
    (pre +:+ multi_block_text hdr content +:+ post)
  = (out ← replace_multi_conditional data hdr content;
     rest ← Re.sub Re.match_multi (replace_multi_conditional data) post;
     Ok (pre +:+ out +:+ rest)).
Proof.
  intros Hb Hleft.
  rewrite sub_unmatched
    by (intros i Hi; apply no_block_no_match, Hleft, Hi).
  destruct Hb as (Hh & (a & b & Ha & Hb & Hab) & Hc & Hn).
  assert (Hamp : Re.amp_inside hdr = true)
    by (rewrite Hab; now apply amp_inside_intro).
  unfold multi_block_text. rewrite !str_app_assoc.
  rewrite (multi_pass_block data _ _ _ Hh Hamp Hc Hn).
  rewrite !bind_bind.
  destruct (replace_multi_conditional data _ content) as [out| |];
    [|reflexivity..].
  cbn [mbind outcome_bind]. rewrite bind_bind.
  destruct (Re.sub Re.match_multi _ post); reflexivity.
Qed.

Lemma replace_multi_cases data (hdr content : string) :
  let names := map Str.strip (Str.split "&"%char hdr) in
  (Forall (counts data) names ->
   replace_multi_conditional data hdr content = py_format content data)
  /\ (~ Forall (counts data) names ->
      replace_multi_conditional data hdr content = Ok EmptyString).
Proof.
  intros names.
  pose proof (all_valid_counts data (Str.split "&"%char hdr)) as Hall.
  fold names in Hall. unfold replace_multi_conditional. cbn zeta.
  split; intros H.
  - apply Hall in H. now rewrite H.
  - destruct (forallb _ _); [|reflexivity].
    exfalso. now apply H, Hall.
Qed.

Lemma no_brace_no_tag (r s : string) :
  Str.mem "{"%char s = false -> Str.contains (String "{" r) s = false.
Proof.
  induction s as [|c s IH]; intros H; [reflexivity|].
  cbn [Str.mem] in H. apply orb_false_iff in H as [Hc Hs].
  apply bool_decide_eq_false in Hc.
  cbn [Str.contains String.prefix]. rewrite (IH Hs), orb_false_r.
  destruct (ascii_dec "{" c); [congruence | reflexivity].
Qed.

(** C1, amended.  In every template the first pass of [format_output]
    goes through the multi-variable blocks from the left, a block being
    [{?header}content{/}] with a header that holds no closing brace and
    an [&] with text on both sides, and a content on one line that runs
    up to the first [{/}].  The leftmost block is replaced by its
    content, expanded against the mapping, exactly when every name
    between the [&]s, stripped of white space, has a value in the mapping
    that is true (a string that is not empty, an integer that is not 0)
    and is not "Not started", and by nothing otherwise; the text before
    it stays and the pass goes on after it.  A template in which no block
    starts is left as it is.  A block standing alone renders as nothing
    when some variable fails the test, and as its expanded content, read
    once more by the final [str.format], when none does.  The pass runs
    before the one for single-variable blocks: a multi-variable block
    inside a single-variable one is resolved first, and the outer block
    then finds its closing tag. *)
Theorem multi_block (data : gmap string pyval) :
  let pass := Re.sub Re.match_multi (replace_multi_conditional data) in
  let names hdr := map Str.strip (Str.split "&"%char hdr) in
  (forall pre hdr content post,
     is_multi_block hdr content ->
     (forall i, (i < String.length pre)%nat ->
        ~ starts_multi_block
            (Str.drop i (pre +:+ multi_block_text hdr content +:+ post))) ->
     (Forall (counts data) (names hdr) ->
      pass (pre +:+ multi_block_text hdr content +:+ post)
      = (out ← py_format content data;
         rest ← pass post;
         Ok (pre +:+ out +:+ rest)))
     /\ (~ Forall (counts data) (names hdr) ->
         pass (pre +:+ multi_block_text hdr content +:+ post)
         = (rest ← pass post; Ok (pre +:+ rest))))
  /\ (forall fmt,
        (forall i, ~ starts_multi_block (Str.drop i fmt)) ->
        pass fmt = Ok fmt)
  /\ (forall hdr content,
        is_multi_block hdr content ->
        (Forall (counts data) (names hdr) ->
         forall out,
           py_format content data = Ok out ->
           Str.contains "{?" out = false ->
           format_output (multi_block_text hdr content) data
           = py_format out data)
        /\ (~ Forall (counts data) (names hdr) ->
            format_output (multi_block_text hdr content) data
            = Ok EmptyString))
  /\ (forall name hdr content out,
        is_multi_block hdr content ->
        name <> EmptyString ->
        all_chars Re.is_word name = true ->
        counts data name ->
        Forall (counts data) (names hdr) ->
        py_format content data = Ok out ->
        Str.mem "{"%char out = false ->
        Str.mem "}"%char out = false ->
        Str.mem Re.newline out = false ->
        format_output
          ("{?" +:+ name +:+ "}" +:+ multi_block_text hdr content
             +:+ ("{/" +:+ name +:+ "}")) data
        = Ok out).
Proof.
  intros pass names. split; [|split; [|split]].
  - intros pre hdr content post Hb Hleft.
    pose proof (multi_pass_leftmost data pre hdr content post Hb Hleft)
      as Hp.
    destruct (replace_multi_cases data hdr content) as [Hs Hh].
    split; intros Hv; unfold pass; rewrite Hp.
    + now rewrite (Hs Hv).
    + rewrite (Hh Hv). cbn [mbind outcome_bind].
      destruct (Re.sub Re.match_multi _ post); reflexivity.
  - intros fmt H. apply sub_nowhere.
    intros i. apply no_block_no_match, H.
  - intros hdr content Hb.
    pose proof (multi_pass_leftmost data EmptyString hdr content EmptyString
                  Hb ltac:(intros i Hi; cbn in Hi; lia)) as Hp.
    rewrite str_app_nil_l, str_app_nil_r in Hp.
    destruct (replace_multi_cases data hdr content) as [Hs Hh].
    split.
    + intros Hv out Hout Hmark. unfold format_output.
      rewrite Hp, (Hs Hv), Hout.
      cbn [mbind outcome_bind Re.sub Re.sub_from].
      rewrite !str_app_nil_l, str_app_nil_r.
      now rewrite (sub_no_mark _ _ _ match_single_needs_mark Hmark).
    + intros Hv. unfold format_output. rewrite Hp, (Hh Hv). reflexivity.
  - intros name hdr content out Hb Hne Hw Hname Hv Hout Ho Hc Hn.
    assert (Hpre : forall s,
              Re.sub Re.match_multi (replace_multi_conditional data)
                (("{?" +:+ name +:+ "}") +:+ s)
              = (rest ← Re.sub Re.match_multi
                          (replace_multi_conditional data) s;
                 Ok (("{?" +:+ name +:+ "}") +:+ rest))).
    { intros s.
      change (("{?" +:+ name +:+ "}") +:+ s)
        with (String "{" (("?" +:+ name +:+ "}") +:+ s)).
      unfold Re.sub. cbn [Re.sub_from].
      assert (H0 : Re.match_multi
                     (String "{" (("?" +:+ name +:+ "}") +:+ s))
                   = Ok None).
      { replace (String "{" (("?" +:+ name +:+ "}") +:+ s))
          with (String "{" (String "?" (name +:+ String "}" s)))
          by (rewrite !str_app_assoc; reflexivity).
        unfold Re.match_multi. cbn beta iota.
        now rewrite (span_to_brace_word _ _ Hw), (word_no_amp _ Hw). }
      rewrite H0. cbn [mbind outcome_bind].
      pose proof (sub_multi_plain (replace_multi_conditional data)
                    ("?" +:+ name +:+ "}") s) as Hplain.
      unfold Re.sub in Hplain. rewrite Hplain.
      - rewrite bind_bind.
        destruct (Re.sub_from Re.match_multi _ 0 s); reflexivity.
      - change ("?" +:+ name +:+ "}") with (String "?" (name +:+ "}")).
        cbn [Str.mem]. rewrite str_mem_app, (word_mem "{" name eq_refl Hw).
        reflexivity. }
    pose proof (multi_pass_leftmost data EmptyString hdr content
                  ("{/" +:+ name +:+ "}") Hb
                  ltac:(intros i Hi; cbn in Hi; lia)) as Hp.
    destruct (replace_multi_cases data hdr content) as [Hs _].
    rewrite (Hs Hv), Hout in Hp. cbn [mbind outcome_bind] in Hp.
    rewrite ?str_app_nil_l in Hp.
    assert (Htag : Re.sub Re.match_multi (replace_multi_conditional data)
                     ("{/" +:+ name +:+ "}")
                   = Ok ("{/" +:+ name +:+ "}")).
    { apply sub_no_mark; [exact match_multi_needs_mark|].
      change ("{/" +:+ name +:+ "}") with (String "{" ("/" +:+ name +:+ "}")).
      cbn [Str.contains String.prefix].
      destruct (ascii_dec "{" "{"); [|congruence].
      destruct (ascii_dec "?" "/"); [discriminate|]. cbn [orb].
      apply no_brace_no_mark, tag_one_brace, Hw. }
    rewrite Htag in Hp. cbn [mbind outcome_bind] in Hp.
    rewrite ?str_app_nil_l in Hp.
    unfold format_output.
    replace ("{?" +:+ name +:+ "}" +:+ multi_block_text hdr content
               +:+ ("{/" +:+ name +:+ "}"))
      with (("{?" +:+ name +:+ "}")
              +:+ (multi_block_text hdr content +:+ ("{/" +:+ name +:+ "}")))
      by (rewrite !str_app_assoc; reflexivity).
    rewrite Hpre, Hp. cbn [mbind outcome_bind].
    assert (Hm : Re.match_single
                   ("{?" +:+ name +:+ "}" +:+ out
                      +:+ ("{/" +:+ name +:+ "}") +:+ EmptyString)
                 = Ok (Some (name, out, EmptyString))).
    { apply match_single_block; try assumption.
      now apply no_brace_no_tag. }
    replace (("{?" +:+ name +:+ "}") +:+ out +:+ ("{/" +:+ name +:+ "}"))
      with (String "{" ("?" +:+ name +:+ "}" +:+ out
                          +:+ ("{/" +:+ name +:+ "}")) +:+ EmptyString)
      by (rewrite str_app_nil_r, str_app_cons, !str_app_assoc; reflexivity).
    replace ("{?" +:+ name +:+ "}" +:+ out
               +:+ ("{/" +:+ name +:+ "}") +:+ EmptyString)
      with (String "{" ("?" +:+ name +:+ "}" +:+ out
                          +:+ ("{/" +:+ name +:+ "}")) +:+ EmptyString)
      in Hm by (rewrite str_app_cons, !str_app_assoc; reflexivity).
    rewrite (sub_at_match _ _ _ _ _ _ _ Hm).
    unfold replace_conditional.
    apply shown_counts in Hname. rewrite Hname.
    pose proof (scan_literal data out Ho Hc) as Hlit.
    unfold py_format. rewrite Hlit.
    cbn [mbind outcome_bind Re.sub Re.sub_from].
    rewrite str_app_nil_r. exact Hlit.
Qed.

Lemma multi_block_witness :
  Re.sub Re.match_multi (replace_multi_conditional data_example)
    ("{?5h_reset}{pct}/{5h_reset}{/5h_reset}"
       +:+ multi_block_text "5h_reset & 7d_reset" " - "
       +:+ "{?7d_reset}{pct}/{7d_reset}{/7d_reset}")
  = Ok ("{?5h_reset}{pct}/{5h_reset}{/5h_reset}" +:+ " - "
          +:+ "{?7d_reset}{pct}/{7d_reset}{/7d_reset}")
  /\ format_output (multi_block_text "status&pct" "<{pct}>") data_example
     = Ok EmptyString
  /\ format_output
       ("{?" +:+ "5h_reset" +:+ "}" +:+ multi_block_text "pct&7d_reset" "[{pct}]"
          +:+ ("{/" +:+ "5h_reset" +:+ "}")) data_example
     = Ok "[42]".
Proof.
  assert (Hcount : forall name v,
            data_example !! name = Some v -> truthy v = true ->
            v <> VStr NOT_STARTED -> counts data_example name).
  { intros name v H1 H2 H3. exists v. auto. }
  destruct (multi_block data_example) as (Hleft & _ & Halone & Hnested).
  split; [|split].
  - destruct (Hleft "{?5h_reset}{pct}/{5h_reset}{/5h_reset}"
                "5h_reset & 7d_reset" " - "
                "{?7d_reset}{pct}/{7d_reset}{/7d_reset}") as [H _].
    + split; [reflexivity|]. split; [|split; reflexivity].
      exists "5h_reset ", " 7d_reset".
      split; [discriminate|]. split; [discriminate | reflexivity].
    + intros i Hi. apply no_block_no_match.
      do 38 (destruct i as [|i]; [vm_compute; reflexivity|]).
      cbn in Hi. lia.
    + etransitivity; [apply H | reflexivity].
      repeat constructor;
        (eapply Hcount; [reflexivity | reflexivity | discriminate]).
  - destruct (Halone "status&pct" "<{pct}>") as [_ H].
    + split; [reflexivity|]. split; [|split; reflexivity].
      exists "status", "pct".
      split; [discriminate|]. split; [discriminate | reflexivity].
    + apply H. intros Hall.
      apply Forall_cons in Hall as [(v & Hv & Ht & _) _].
      vm_compute in Hv. injection Hv as <-. discriminate Ht.
  - apply (Hnested "5h_reset" "pct&7d_reset" "[{pct}]" "[42]");
      try reflexivity; try discriminate.
    + split; [reflexivity|]. split; [|split; reflexivity].
      exists "pct", "7d_reset".
      split; [discriminate|]. split; [discriminate | reflexivity].
    + eapply Hcount; [reflexivity | reflexivity | discriminate].
    + repeat constructor;
        (eapply Hcount; [reflexivity | reflexivity | discriminate]).
Defined.

(** C1 as worded fails: with a line break in the content the block is
    not recognised, although both variables pass the test; the marker
    stays in the text and the final [str.format] takes it for a field. *)
Lemma line_break_in_block :
  ~ multi_block_as_stated data_example ["pct"; "5h_reset"]
      ("a" +:+ String Re.newline "b").
Proof.
  intros [H _].
  assert (Hall : Forall (counts data_example) ["pct"; "5h_reset"]).
  { repeat constructor; eexists;
      (split; [reflexivity|]); (split; [reflexivity | discriminate]). }
  specialize (H Hall). vm_compute in H. discriminate H.
Qed.

Example line_break_in_block_raises :
  format_output ("{?pct&5h_reset}a" +:+ String Re.newline "b{/}")
    data_example
  = Raise (KeyError "?pct&5h_reset").
Proof. reflexivity. Qed.

(** The order of the two passes shows: the inner block is a
    multi-variable one and is resolved first, so that the outer
    single-variable block finds its closing tag.  Were the
    single-variable pass the first, it would expand the inner marker as
    a field. *)
Example multi_pass_first :
  format_output "{?5h_reset}[{?pct&7d_reset}{pct}{/}]{/5h_reset}"
    data_example
  = Ok "[42]"
  /\ Re.sub Re.match_single (replace_conditional data_example)
       "{?5h_reset}[{?pct&7d_reset}{pct}{/}]{/5h_reset}"
     = Raise (KeyError "?pct&7d_reset").
Proof. split; reflexivity. Qed.

(** * Cookies *)

Lemma cookie_dict_snoc (jar : list (string * string)) k v :
  cookie_dict (jar ++ [(k, v)]) = <[k := v]> (cookie_dict jar).
Proof. unfold cookie_dict. now rewrite foldl_app. Qed.

Lemma cookie_dict_empty (jar : list (string * string)) :
  cookie_dict jar = ∅ <-> jar = [].
Proof.
  split; [|intros ->; reflexivity].
  destruct jar as [|c jar] using rev_ind; [reflexivity|].
  destruct c as [k v]. rewrite cookie_dict_snoc. intros H.
  now apply insert_non_empty in H.
Qed.

Lemma browser_failure_step lib domain name rest errors msg :
  browser_failure lib domain name = Some msg ->
  load_cookies_from lib domain (name :: rest) errors
  = load_cookies_from lib domain rest (errors ++ [msg]).
Proof.
  unfold browser_failure. cbn [load_cookies_from].
  destruct (lib name) as [loader|]; [|now intros [= <-]].
  destruct (loader domain) as [exc | [|c jar]]; [now intros [= <-] | |].
  - intros [= <-]. reflexivity.
  - discriminate.
Qed.

Lemma browser_gives_step lib domain name rest errors jar :
  browser_gives lib domain name jar ->
  load_cookies_from lib domain (name :: rest) errors
  = inr (cookie_dict jar, name).
Proof.
  intros (Hne & loader & Hl & Hj). cbn [load_cookies_from].
  rewrite Hl, Hj. cbn zeta.
  rewrite bool_decide_eq_false_2; [reflexivity|].
  now rewrite cookie_dict_empty.
Qed.

Lemma browser_gives_no_failure lib domain name jar :
  browser_gives lib domain name jar -> browser_failure lib domain name = None.
Proof.
  intros (Hne & loader & Hl & Hj). unfold browser_failure.
  rewrite Hl, Hj. now destruct jar.
Qed.

Lemma browser_cases lib domain name :
  (exists msg, browser_failure lib domain name = Some msg)
  \/ exists jar, browser_gives lib domain name jar.
Proof.
  unfold browser_failure, browser_gives.
  destruct (lib name) as [loader|]; [|left; eauto].
  destruct (loader domain) as [exc | [|c jar]] eqn:E; [left; eauto..|].
  right. exists (c :: jar). split; [discriminate|]. eauto.
Qed.

(** The loop, from any point: the browsers before the first that gives
    cookies add their entries to the error list. *)
Lemma load_cookies_from_skips lib domain (before : list string) :
  forall rest errors msgs,
  Forall2 (fun name msg => browser_failure lib domain name = Some msg)
    before msgs ->
  load_cookies_from lib domain (before ++ rest) errors
  = load_cookies_from lib domain rest (errors ++ msgs).
Proof.
  induction before as [|name before IH]; intros rest errors msgs H.
  - apply Forall2_nil_inv_l in H as ->. now rewrite app_nil_r.
  - apply Forall2_cons_inv_l in H as (msg & msgs' & Hm & H & ->).
    cbn [app]. rewrite (browser_failure_step _ _ _ _ _ _ Hm).
    rewrite (IH _ _ _ H). now rewrite <- app_assoc.
Qed.

(** X6. [load_cookies] returns the cookies of the first browser of its
    list that gives any, with that browser's name: the browsers before
    it are unsupported, raise, or give an empty jar, and those after it
    are not consulted.  Of cookies that share a name, the last one in
    the jar is kept. *)
Theorem first_browser_with_cookies (lib : cookie_lib) (domain : string)
  (before : list string) (name : string) (after : list string)
  (jar : list (string * string)) :
  Forall (fun b => browser_failure lib domain b <> None) before ->
  browser_gives lib domain name jar ->
  load_cookies lib domain (Some (before ++ name :: after))
  = inr (cookie_dict jar, name)
  /\ forall k v earlier later,
       jar = earlier ++ (k, v) :: later ->
       k ∉ later.*1 ->
       cookie_dict jar !! k = Some v.
Proof.
  intros Hb Hg. split.
  - assert (Hsome : load_cookies lib domain (Some (before ++ name :: after))
                    = load_cookies_from lib domain
                        (before ++ name :: after) []).
    { unfold load_cookies. now destruct before. }
    rewrite Hsome.
    assert (Hm : exists msgs,
               Forall2 (fun b msg => browser_failure lib domain b = Some msg)
                 before msgs).
    { clear -Hb. induction Hb as [|b before Hx _ [msgs IH]].
      - exists []. constructor.
      - destruct (browser_failure lib domain b) as [msg|] eqn:E;
          [|congruence].
        exists (msg :: msgs). now constructor. }
    destruct Hm as [msgs Hm].
    rewrite (load_cookies_from_skips _ _ _ _ _ _ Hm).
    now apply browser_gives_step.
  - intros k v l1 l2 -> Hk.
    clear Hg. induction l2 as [|[k' v'] l2 IH] using rev_ind.
    + rewrite cookie_dict_snoc. apply lookup_insert_eq.
    + rewrite app_comm_cons, app_assoc, cookie_dict_snoc.
      rewrite fmap_app, not_elem_of_app in Hk. destruct Hk as [Hk Hk'].
      cbn in Hk'. rewrite not_elem_of_cons in Hk'. destruct Hk' as [Hk' _].
      rewrite lookup_insert_ne by congruence. now apply IH.
Qed.

Lemma first_browser_with_cookies_witness :
  load_cookies lib_example "claude.ai" (Some ["opera"; "chrome"; "firefox"])
  = inr (cookie_dict jar_example, "firefox")
  /\ cookie_dict jar_example !! "lastActiveOrg" = Some "org-2".
Proof.
  assert (Hb : Forall (fun b => browser_failure lib_example "claude.ai" b
                                <> None) ["opera"; "chrome"]).
  { repeat constructor; discriminate. }
  assert (Hg : browser_gives lib_example "claude.ai" "firefox" jar_example).
  { split; [discriminate|]. eexists. split; reflexivity. }
  destruct (first_browser_with_cookies lib_example "claude.ai"
              ["opera"; "chrome"] "firefox" [] jar_example Hb Hg)
    as [H1 H2].
  split; [exact H1|].
  apply (H2 "lastActiveOrg" "org-2" [("lastActiveOrg", "org-1")]
           [("sessionKey", "sk")] eq_refl).
  vm_compute. intros H. repeat (inversion H as [|? ? ? H']; subst; clear H; rename H' into H).
Defined.

Lemma load_cookies_from_fails lib domain (browsers : list string) :
  forall errors msg,
  load_cookies_from lib domain browsers errors = inl msg ->
  exists msgs,
    Forall2 (fun b m => browser_failure lib domain b = Some m) browsers msgs
    /\ msg = "Failed to read cookies for " +:+ domain +:+ ": "
               +:+ match (errors ++ msgs)%list with
                   | [] => "no browsers provided"
                   | _ => String.concat "; " (errors ++ msgs)%list
                   end.
Proof.
  induction browsers as [|b browsers IH]; intros errors msg H.
  - exists []. split; [constructor|]. rewrite app_nil_r.
    cbn [load_cookies_from] in H. now injection H as <-.
  - destruct (browser_cases lib domain b) as [[m Hm] | [jar Hg]].
    + rewrite (browser_failure_step _ _ _ _ _ _ Hm) in H.
      destruct (IH _ _ H) as (msgs & Hall & ->).
      exists (m :: msgs). split; [now constructor|].
      now rewrite <- app_assoc.
    + now rewrite (browser_gives_step _ _ _ _ _ _ Hg) in H.
Qed.

(** X7. [load_cookies] raises exactly when every browser it goes
    through -- those of the list, or the five default ones when there is
    no list or an empty one -- is unsupported, raises, or gives an empty
    jar; the message then names the domain and joins, in the order tried,
    one entry for each browser.  The text "no browsers provided" is never
    part of it. *)
Theorem no_browser_with_cookies (lib : cookie_lib) (domain : string)
  (browsers : option (list string)) (msg : string) :
  load_cookies lib domain browsers = inl msg
  <-> exists msgs,
        Forall2 (fun b m => browser_failure lib domain b = Some m)
          (browsers_tried browsers) msgs
        /\ msgs <> []
        /\ msg = "Failed to read cookies for " +:+ domain +:+ ": "
                   +:+ String.concat "; " msgs.
Proof.
  assert (Hne : browsers_tried browsers <> []).
  { destruct browsers as [[|b bs]|]; discriminate. }
  change (load_cookies lib domain browsers)
    with (load_cookies_from lib domain (browsers_tried browsers) []).
  split.
  - intros H. apply load_cookies_from_fails in H as (msgs & Hall & ->).
    exists msgs. cbn [app]. split; [exact Hall|].
    destruct msgs as [|m msgs]; [|split; [discriminate | reflexivity]].
    apply Forall2_nil_inv_r in Hall. congruence.
  - intros (msgs & Hall & Hm & ->).
    pose proof (load_cookies_from_skips lib domain _ [] [] msgs Hall) as E.
    rewrite app_nil_r in E. rewrite E. cbn [load_cookies_from app].
    now destruct msgs.
Qed.

(** * Fetching the usage *)

Lemma str_eqb_false (a b : string) : Str.eqb a b = false -> a <> b.
Proof. unfold Str.eqb. apply bool_decide_eq_false. Qed.

(** A text that does not hold the first character of [sub] can be
    skipped when looking for [sub]. *)
Lemma contains_skip (c : ascii) (sub pre s : string) :
  Str.mem c pre = false ->
  Str.contains (String c sub) (pre +:+ s) = Str.contains (String c sub) s.
Proof.
  induction pre as [|x pre IH]; intros H.
  - now rewrite str_app_nil_l.
  - cbn [Str.mem] in H. apply orb_false_iff in H as [Hx Hp].
    apply bool_decide_eq_false in Hx.
    rewrite str_app_cons. cbn [Str.contains String.prefix].
    destruct (ascii_dec c x); [congruence|]. now rewrite (IH Hp).
Qed.

(** ** claude.py *)

Lemma claude_request_usage_ok net made req usage :
  Claude.request_usage net made req = inr usage ->
  exists code, net made req = Reply code None (inr usage) /\ code <> 403.
Proof.
  unfold Claude.request_usage.
  destruct (net made req) as [exc | code [exc|] body]; [discriminate|..];
    destruct (Z.eqb_spec code 403); try discriminate.
  intros ->. eauto.
Qed.

(** What [get_claude_usage] does once the cookies hold an
    organization. *)
Lemma get_claude_usage_with_org lib net browsers cookies name org_id :
  load_cookies lib "claude.ai" browsers = inr (cookies, name) ->
  cookies !! "lastActiveOrg" = Some org_id ->
  org_id <> EmptyString ->
  let req := claude_request cookies org_id in
  Claude.get_claude_usage lib net browsers
  = match Claude.request_usage net 0 req with
    | inr usage => (inr usage, [req])
    | inl _ =>
        match Claude.request_usage net 1 req with
        | inr usage => (inr usage, [req; req])
        | inl exc => (inl ("Request failed: " +:+ exc), [req; req])
        end
    end.
Proof.
  intros Hl Ho Hne req. unfold Claude.get_claude_usage.
  change Claude.CLAUDE_DOMAIN with "claude.ai". rewrite Hl, Ho.
  cbn [default]. unfold Str.eqb.
  rewrite bool_decide_eq_false_2 by exact Hne.
  change (Claude.usage_attempts net req [0%nat; 1%nat] 0 None [] = 
          match Claude.request_usage net 0 req with
          | inr usage => (inr usage, [req])
          | inl _ =>
              match Claude.request_usage net 1 req with
              | inr usage => (inr usage, [req; req])
              | inl exc => (inl ("Request failed: " +:+ exc), [req; req])
              end
          end).
  cbn [Claude.usage_attempts app].
  destruct (Claude.request_usage net 0 req); [|reflexivity].
  destruct (Claude.request_usage net 1 req); reflexivity.
Qed.

Lemma get_claude_usage_cases lib net browsers :
  (Claude.get_claude_usage lib net browsers).2 = []
  \/ exists cookies name org_id,
       load_cookies lib "claude.ai" browsers = inr (cookies, name)
       /\ cookies !! "lastActiveOrg" = Some org_id
       /\ org_id <> EmptyString.
Proof.
  destruct (load_cookies lib "claude.ai" browsers) as [e | [cookies name]]
    eqn:Hl.
  - left. unfold Claude.get_claude_usage.
    change Claude.CLAUDE_DOMAIN with "claude.ai". now rewrite Hl.
  - destruct (cookies !! "lastActiveOrg") as [org_id|] eqn:Ho.
    + destruct (Str.eqb org_id EmptyString) eqn:E.
      * left. unfold Claude.get_claude_usage.
        change Claude.CLAUDE_DOMAIN with "claude.ai".
        rewrite Hl, Ho.
        change (default EmptyString (Some org_id)) with org_id.
        now rewrite E.
      * right. exists cookies, name, org_id.
        split; [reflexivity|]. split; [exact Ho|].
        now apply str_eqb_false.
    + left. unfold Claude.get_claude_usage.
      change Claude.CLAUDE_DOMAIN with "claude.ai".
      now rewrite Hl, Ho.
Qed.

(** X8. [get_claude_usage] makes at most two requests, and none when
    the cookies cannot be loaded or hold no organization.  Every request
    is the same one: the usage URL of the organization named by the
    cookie "lastActiveOrg", with the cookies loaded and the fixed
    headers.  The second is made only when the first attempt has failed,
    and a usage that is returned is the JSON body of a reply whose status
    is not 403 and for which [raise_for_status] does not raise. *)
Theorem claude_requests (lib : cookie_lib) (net : network)
  (browsers : option (list string)) :
  let result := (Claude.get_claude_usage lib net browsers).1 in
  let log := (Claude.get_claude_usage lib net browsers).2 in
  (length log <= 2)%nat
  /\ (forall req, req ∈ log ->
        exists cookies name org_id,
          load_cookies lib "claude.ai" browsers = inr (cookies, name)
          /\ cookies !! "lastActiveOrg" = Some org_id
          /\ org_id <> EmptyString
          /\ req = claude_request cookies org_id)
  /\ (forall req, log !! 1%nat = Some req ->
        exists exc, Claude.request_usage net 0 req = inl exc)
  /\ (forall usage, result = inr usage ->
        exists n req code,
          log !! n = Some req /\ length log = S n
          /\ net n req = Reply code None (inr usage) /\ code <> 403).
Proof.
  intros result log. subst result log.
  destruct (get_claude_usage_cases lib net browsers)
    as [Hnil | (cookies & name & org_id & Hl & Ho & Hne)].
  - destruct (Claude.get_claude_usage lib net browsers) as [r log] eqn:E.
    cbn [fst snd] in *. subst log. repeat split.
    + cbn. lia.
    + intros req H. now apply elem_of_nil in H.
    + discriminate.
    + intros usage ->. exfalso.
      unfold Claude.get_claude_usage in E.
      destruct (load_cookies lib Claude.CLAUDE_DOMAIN browsers)
        as [e | [cookies name]]; [discriminate|].
      destruct (Str.eqb _ _); [discriminate|].
      cbn [Claude.usage_attempts app] in E.
      destruct (Claude.request_usage net 0 _); [|discriminate].
      destruct (Claude.request_usage net 1 _); discriminate.
  - rewrite (get_claude_usage_with_org _ net _ _ _ _ Hl Ho Hne).
    cbn zeta. set (req := claude_request cookies org_id).
    assert (Hreq : forall r (l : list request),
              r ∈ l -> (forall x, x ∈ l -> x = req) ->
              exists cookies0 name0 org_id0,
                load_cookies lib "claude.ai" browsers = inr (cookies0, name0)
                /\ cookies0 !! "lastActiveOrg" = Some org_id0
                /\ org_id0 <> EmptyString
                /\ r = claude_request cookies0 org_id0).
    { intros r l Hr Hall. exists cookies, name, org_id.
      split; [exact Hl|]. split; [exact Ho|]. split; [exact Hne|].
      now apply Hall. }
    destruct (Claude.request_usage net 0 req) as [e1|u1] eqn:E1;
      [destruct (Claude.request_usage net 1 req) as [e2|u2] eqn:E2|];
      cbn [fst snd length]; (split; [lia|]);
      (split; [intros r Hr; apply (Hreq r _ Hr); intros x Hx;
               repeat (apply elem_of_cons in Hx as [-> | Hx];
                       [reflexivity|]);
               now apply elem_of_nil in Hx|]).
    + split; [intros r [= <-]; eauto | discriminate].
    + split; [intros r [= <-]; eauto|].
      intros usage [= <-].
      apply claude_request_usage_ok in E2 as (code & Hn & Hc).
      exists 1%nat, req, code. repeat split; assumption.
    + split; [discriminate|].
      intros usage [= <-].
      apply claude_request_usage_ok in E1 as (code & Hn & Hc).
      exists 0%nat, req, code. repeat split; assumption.
Qed.

(** X9. When both attempts of [get_claude_usage] fail, a run in waybar
    mode shows the error of the second attempt, after "Request failed: ",
    in the tooltip, and labels the card "Auth Err" exactly when that
    error holds the text "403" -- as it does when the second reply has
    status 403 -- and "Net Err" otherwise.  The error of the first attempt
    plays no part, whatever it was. *)
Theorem claude_error_card (lib : cookie_lib) (net : network) (rt : runtime)
  (clk : clock) (args : cli_args) (cookies : gmap string string)
  (name org_id e1 e2 : string) :
  let req := claude_request cookies org_id in
  waybar args = true ->
  load_cookies lib "claude.ai" (browser args) = inr (cookies, name) ->
  cookies !! "lastActiveOrg" = Some org_id ->
  org_id <> EmptyString ->
  Claude.request_usage net 0 req = inl e1 ->
  Claude.request_usage net 1 req = inl e2 ->
  Claude.program lib net rt clk args
  = {| stdout :=
         [error_card "󰜡"
            (if Str.contains "403" e2 then "Auth Err" else "Net Err")
            ("Error fetching Claude usage:"
               +:+ String Re.newline ("Request failed: " +:+ e2))];
       stderr := [];
       ended := Exit 0 |}
  /\ ((exists http_error body, net 1%nat req = Reply 403 http_error body) ->
      Str.contains "403" e2 = true).
Proof.
  intros req Hw Hl Ho Hne H1 H2. split.
  - unfold Claude.program.
    rewrite (get_claude_usage_with_org _ net _ _ _ _ Hl Ho Hne).
    fold req. rewrite H1, H2. cbn [fst]. unfold Claude.main. rewrite Hw.
    rewrite (contains_skip "4" "03" "Request failed: " e2 eq_refl).
    destruct (Str.contains "403" e2); reflexivity.
  - intros (h & b & Hn). unfold Claude.request_usage in H2.
    rewrite Hn in H2. cbn in H2. now injection H2 as <-.
Qed.

Lemma claude_error_card_witness :
  stdout (Claude.program lib_example net_example rt_none (clock_at 0)
            {| waybar := true; browser := Some ["firefox"]; format := None;
               tooltip_format := None; show_5h := false |})
  = [error_card "󰜡" "Net Err"
       ("Error fetching Claude usage:"
          +:+ String Re.newline "Request failed: Connection timed out")].
Proof.
  destruct (claude_error_card lib_example net_example rt_none (clock_at 0)
              {| waybar := true; browser := Some ["firefox"];
                 format := None; tooltip_format := None; show_5h := false |}
              (cookie_dict jar_example) "firefox" "org-2"
              ("403 Forbidden: Try updating browser_cookie3 "
                 +:+ "or refresh the page in browser.")
              "Connection timed out"
              eq_refl eq_refl eq_refl ltac:(discriminate) eq_refl eq_refl)
    as [H _].
  now rewrite H.
Defined.

(** ** codex.py *)

(** One attempt of [get_codex_usage] asks for the session, and for the
    usage only with the token the session reply holds. *)
Lemma codex_attempt net made cookies :
  let s := codex_session_request cookies in
  (exists exc, Codex.request_usage net made cookies = (inl exc, [s]))
  \/ exists code items token r,
       net made s = Reply code None (inr (JObj items)) /\ code <> 403
       /\ Json.assoc items "accessToken" = Some token
       /\ Json.truthy token = true
       /\ Codex.request_usage net made cookies
          = (r, [s; codex_usage_request cookies token])
       /\ forall usage, r = inr usage ->
            exists code', net (S made) (codex_usage_request cookies token)
                          = Reply code' None (inr usage).
Proof.
  intros s. unfold Codex.request_usage. fold (codex_session_request cookies).
  fold s.
  destruct (net made s) as [exc | code [herr|] [exc | data]];
    [left; eauto | destruct (Z.eqb_spec code 403); left; eauto..|].
  destruct (Z.eqb_spec code 403) as [|Hc]; [left; eauto|].
  destruct data as [| | | | |l|items]; try (left; cbn; eauto; fail).
  cbn [Json.get].
  destruct (Json.assoc items "accessToken") as [token|] eqn:Ea;
    [|left; cbn; eauto].
  change (default JNull (Some token)) with token.
  destruct (Json.truthy token) eqn:Et; [|left; eauto].
  right. exists code, items, token. eexists.
  fold (codex_usage_request cookies token).
  do 5 (split; [first [reflexivity | assumption]|]).
  intros usage Hu.
  destruct (net (S made) (codex_usage_request cookies token))
    as [exc | code' [exc|] body]; try discriminate.
  subst body. eauto.
Qed.

(** [get_codex_usage] once the cookies are loaded: the first attempt,
    then, when it fails, the second. *)
Lemma get_codex_usage_attempts lib net browsers cookies name :
  load_cookies lib "chatgpt.com" browsers = inr (cookies, name) ->
  Codex.get_codex_usage lib net browsers
  = match Codex.request_usage net 0 cookies with
    | (inr usage, reqs) => (inr usage, reqs)
    | (inl _, reqs) =>
        match Codex.request_usage net (length reqs) cookies with
        | (inr usage, reqs') => (inr usage, reqs ++ reqs')
        | (inl exc, reqs') =>
            (inl ("Request failed: " +:+ exc), reqs ++ reqs')
        end
    end.
Proof.
  intros Hl. unfold Codex.get_codex_usage. rewrite Hl.
  cbn [Codex.usage_attempts length app].
  destruct (Codex.request_usage net 0 cookies) as [[e1|u1] reqs];
    [|reflexivity].
  cbn [Codex.usage_attempts].
  destruct (Codex.request_usage net (length reqs) cookies)
    as [[e2|u2] reqs']; reflexivity.
Qed.

(** Closes the statement about the request at one position of a log of
    known shape. *)
Ltac codex_position Hl :=
  let n := fresh "n" in
  let req := fresh "req" in
  let Hn := fresh "Hn" in
  intros n req Hn; do 2 eexists; (split; [first [exact Hl | reflexivity]|]);
  destruct n as [|[|[|[|n]]]]; cbn in Hn; try discriminate;
  injection Hn as <-;
  first
    [ left; reflexivity
    | right; do 4 eexists;
      do 6 (split; [first [reflexivity | eassumption]|]); reflexivity ].

(** X10. [get_codex_usage] makes at most four requests, and none when
    the cookies cannot be loaded.  Each is either the session request or
    a usage request, and a usage request comes right after a session
    request of the same attempt whose reply -- of a status other than 403
    and accepted by [raise_for_status] -- was a JSON object holding under
    "accessToken" the value, one that counts as true, which the usage
    request carries as its bearer token.  A usage that is returned is the
    JSON body of the reply to the last request, a usage request. *)
Theorem codex_requests (lib : cookie_lib) (net : network)
  (browsers : option (list string)) :
  let result := (Codex.get_codex_usage lib net browsers).1 in
  let log := (Codex.get_codex_usage lib net browsers).2 in
  (length log <= 4)%nat
  /\ (forall n req, log !! n = Some req ->
        exists cookies name,
          load_cookies lib "chatgpt.com" browsers = inr (cookies, name)
          /\ (req = codex_session_request cookies
              \/ exists m code items token,
                   n = S m
                   /\ log !! m = Some (codex_session_request cookies)
                   /\ net m (codex_session_request cookies)
                      = Reply code None (inr (JObj items))
                   /\ code <> 403
                   /\ Json.assoc items "accessToken" = Some token
                   /\ Json.truthy token = true
                   /\ req = codex_usage_request cookies token))
  /\ (forall usage, result = inr usage ->
        exists n cookies token code,
          log !! n = Some (codex_usage_request cookies token)
          /\ length log = S n
          /\ net n (codex_usage_request cookies token)
             = Reply code None (inr usage)).
Proof.
  intros result log. subst result log.
  destruct (load_cookies lib "chatgpt.com" browsers) as [e | [cookies name]]
    eqn:Hl.
  - unfold Codex.get_codex_usage. rewrite Hl. cbn [fst snd length].
    split; [lia|]. split; [intros n req Hn | intros usage Hu];
      discriminate.
  - rewrite (get_codex_usage_attempts _ net _ _ _ Hl).
    destruct (codex_attempt net 0 cookies)
      as [[e1 H1] | (c1 & i1 & t1 & r1 & Hn1 & Hc1 & Ha1 & Ht1 & H1 & Hu1)];
      rewrite H1; cbn [length].
    + destruct (codex_attempt net 1 cookies)
        as [[e2 H2] | (c2 & i2 & t2 & r2 & Hn2 & Hc2 & Ha2 & Ht2 & H2 & Hu2)];
        rewrite H2.
      * cbn [fst snd length app]. split; [lia|].
        split; [codex_position Hl | discriminate].
      * destruct r2 as [e2|u2]; cbn [fst snd length app];
          (split; [lia|]); (split; [codex_position Hl|]);
          [discriminate|].
        intros usage [= <-]. destruct (Hu2 u2 eq_refl) as [code' Hr].
        exists 2%nat, cookies, t2, code'. repeat split. exact Hr.
    + destruct r1 as [e1|u1].
      * destruct (codex_attempt net 2 cookies)
          as [[e2 H2] | (c2 & i2 & t2 & r2 & Hn2 & Hc2 & Ha2 & Ht2 & H2 & Hu2)];
          rewrite H2.
        -- cbn [fst snd length app]. split; [lia|].
           split; [codex_position Hl | discriminate].
        -- destruct r2 as [e2|u2]; cbn [fst snd length app];
             (split; [lia|]); (split; [codex_position Hl|]);
             [discriminate|].
           intros usage [= <-]. destruct (Hu2 u2 eq_refl) as [code' Hr].
           exists 3%nat, cookies, t2, code'. repeat split. exact Hr.
      * cbn [fst snd length]. split; [lia|].
        split; [codex_position Hl|].
        intros usage [= <-]. destruct (Hu1 u1 eq_refl) as [code' Hr].
        exists 1%nat, cookies, t1, code'. repeat split. exact Hr.
Qed.

(** X11. When both attempts of [get_codex_usage] fail, a run in waybar
    mode shows the error of the second attempt, after "Request failed: ",
    in the tooltip, and labels the card "Auth Err" exactly when that
    error holds the text "403" or the text "401", and "Net Err"
    otherwise.  A session reply of status 403 on the second attempt
    gives "Auth Err"; one without a token gives "Net Err". *)
Theorem codex_error_card (lib : cookie_lib) (net : network) (rt : runtime)
  (clk : clock) (args : cli_args) (cookies : gmap string string)
  (name e1 e2 : string) (reqs1 reqs2 : list request) :
  waybar args = true ->
  load_cookies lib "chatgpt.com" (browser args) = inr (cookies, name) ->
  Codex.request_usage net 0 cookies = (inl e1, reqs1) ->
  Codex.request_usage net (length reqs1) cookies = (inl e2, reqs2) ->
  Codex.program lib net rt clk args
  = {| stdout :=
         [error_card "󰬫"
            (if Str.contains "403" e2 || Str.contains "401" e2
             then "Auth Err" else "Net Err")
            ("Error:" +:+ String Re.newline ("Request failed: " +:+ e2))];
       stderr := [];
       ended := Exit 0 |}
  /\ ((exists http_error body,
         net (length reqs1) (codex_session_request cookies)
         = Reply 403 http_error body) ->
      Str.contains "403" e2 = true)
  /\ ((exists code items,
         net (length reqs1) (codex_session_request cookies)
         = Reply code None (inr (JObj items))
         /\ code <> 403
         /\ Json.truthy (default JNull (Json.assoc items "accessToken"))
            = false) ->
      e2 = "accessToken not found in session response."
      /\ reqs2 = [codex_session_request cookies]).
Proof.
  intros Hw Hl H1 H2. split; [|split].
  - unfold Codex.program.
    rewrite (get_codex_usage_attempts _ net _ _ _ Hl), H1, H2.
    cbn [fst]. unfold Codex.main. rewrite Hw.
    rewrite (contains_skip "4" "03" "Request failed: " e2 eq_refl).
    rewrite (contains_skip "4" "01" "Request failed: " e2 eq_refl).
    destruct (_ || _); reflexivity.
  - intros (h & b & Hn). unfold Codex.request_usage in H2.
    fold (codex_session_request cookies) in H2.
    rewrite Hn in H2. cbn in H2. now injection H2 as <- _.
  - intros (code & items & Hn & Hc & Ht). unfold Codex.request_usage in H2.
    fold (codex_session_request cookies) in H2.
    rewrite Hn in H2. apply Z.eqb_neq in Hc. rewrite Hc in H2.
    cbn [Json.get] in H2. rewrite Ht in H2.
    now injection H2 as <- <-.
Qed.

Lemma codex_error_card_witness :
  stdout (Codex.program lib_example net_token_example rt_none (clock_at 0)
            {| waybar := true; browser := Some ["firefox"]; format := None;
               tooltip_format := None; show_5h := false |})
  = [error_card "󰬫" "Net Err"
       ("Error:" +:+ String Re.newline "Request failed: HTTP Error 500: ")].
Proof.
  destruct (codex_error_card lib_example net_token_example rt_none
              (clock_at 0)
              {| waybar := true; browser := Some ["firefox"];
                 format := None; tooltip_format := None; show_5h := false |}
              (cookie_dict jar_example) "firefox"
              "HTTP Error 500: " "HTTP Error 500: "
              [codex_session_request (cookie_dict jar_example);
               codex_usage_request (cookie_dict jar_example) (JStr "tok")]
              [codex_session_request (cookie_dict jar_example);
               codex_usage_request (cookie_dict jar_example) (JStr "tok")]
              eq_refl eq_refl eq_refl eq_refl)
    as [H _].
  now rewrite H.
Defined.

(** * Whole runs in waybar mode *)

Lemma window_like_dec (v : json) :
  (window_like v /\ Json.or v (JObj []) = JObj
     match v with JObj items => items | _ => [] end)
  \/ (~ window_like v /\ Json.truthy v = true
      /\ forall key dflt, Json.get v key dflt = Raise AttributeError).
Proof.
  unfold window_like, Json.or.
  destruct (Json.truthy v) eqn:Et.
  - destruct v as [| b | n | x | s | l | items];
      try (right; split; [intros [H | [items H]]; discriminate|];
           split; reflexivity).
    left. split; [right; eauto | reflexivity].
  - left. split; [now left|]. destruct v as [| | | | | |[|]]; try reflexivity.
    discriminate.
Qed.

Lemma parse_window_percent_like rt v key :
  window_like v -> exists w, parse_window_percent rt v key = Ok w.
Proof.
  intros H. destruct (window_like_dec v) as [[_ E] | [Hn _]]; [|tauto].
  unfold parse_window_percent. rewrite E. cbn [Json.get mbind outcome_bind].
  eexists. reflexivity.
Qed.

Lemma parse_window_percent_unlike rt v key :
  ~ window_like v -> parse_window_percent rt v key = Raise AttributeError.
Proof.
  intros H. destruct (window_like_dec v) as [[Hl _] | (_ & Ht & Hg)]; [tauto|].
  unfold parse_window_percent, Json.or. rewrite Ht, !Hg. reflexivity.
Qed.

Lemma parse_window_direct_like rt v :
  window_like v -> exists w, parse_window_direct rt v = Ok w.
Proof.
  intros H. destruct (window_like_dec v) as [[_ E] | [Hn _]]; [|tauto].
  unfold parse_window_direct. rewrite E. cbn [Json.get mbind outcome_bind].
  eexists. reflexivity.
Qed.

Lemma parse_window_direct_unlike rt v :
  ~ window_like v -> parse_window_direct rt v = Raise AttributeError.
Proof.
  intros H. destruct (window_like_dec v) as [[Hl _] | (_ & Ht & Hg)]; [tauto|].
  unfold parse_window_direct, Json.or. rewrite Ht, !Hg. reflexivity.
Qed.

Lemma claude_vars_cases rt clk usage show :
  (claude_usage_like usage
   /\ exists v, Claude.print_waybar_vars rt clk usage show = Ok v)
  \/ (~ claude_usage_like usage
      /\ Claude.print_waybar_vars rt clk usage show = Raise AttributeError).
Proof.
  unfold Claude.print_waybar_vars, claude_usage_like.
  destruct usage as [| b | n | x | s | l | items];
    try (right; split; [intros (items & H & _); discriminate | reflexivity]).
  cbn [Json.get mbind outcome_bind].
  set (w5 := default JNull (Json.assoc items "five_hour")).
  set (w7 := default JNull (Json.assoc items "seven_day")).
  destruct (window_like_dec w5) as [[H5 _] | [H5 _]].
  - destruct (parse_window_percent_like rt w5 "utilization" H5) as [fh ->].
    cbn [mbind outcome_bind].
    destruct (window_like_dec w7) as [[H7 _] | [H7 _]].
    + destruct (parse_window_percent_like rt w7 "utilization" H7) as [sd ->].
      left. split; [exists items; auto|]. eexists. reflexivity.
    + rewrite (parse_window_percent_unlike rt w7 _ H7).
      right. split; [|reflexivity].
      intros (items' & [= <-] & _ & H). now apply H7.
  - rewrite (parse_window_percent_unlike rt w5 _ H5).
    right. split; [|reflexivity].
    intros (items' & [= <-] & H & _). now apply H5.
Qed.

(** X12. A run of claude.py in waybar mode on a fetched usage, with no
    custom format: when the usage is a dict whose windows "five_hour" and
    "seven_day" are dicts or count as false (missing, null, empty), the
    run prints one JSON object, writes nothing to the error stream and
    ends with code 0; otherwise -- the usage is no dict, or a window is a
    number, a string or a list that counts as true -- it prints nothing
    and ends on an [AttributeError] that nothing catches, the
    interpreter writing the traceback to the error stream.
    (Utilizations are finite numbers, as everywhere in the embedding.) *)
Theorem claude_waybar_run (rt : runtime) (clk : clock) (args : cli_args)
  (usage : json) :
  let p := Claude.main rt clk args (inr usage) in
  waybar args = true ->
  given (format args) = None ->
  given (tooltip_format args) = None ->
  (claude_usage_like usage ->
   ended p = Exit 0 /\ stderr p = []
   /\ exists o, stdout p = [dump_output o])
  /\ (~ claude_usage_like usage ->
      ended p = Uncaught AttributeError /\ stdout p = []
      /\ stderr p = [traceback rt AttributeError]).
Proof.
  intros p Hw Hf Ht. subst p. unfold Claude.main. rewrite Hw.
  unfold Claude.print_waybar. rewrite Hf, Ht.
  destruct (claude_vars_cases rt clk usage (show_5h args))
    as [[Hl [v ->]] | [Hn ->]]; cbn [mbind outcome_bind stderr ended stdout].
  - split; [|tauto].
    intros _. split; [reflexivity|]. split; [reflexivity|].
    eexists. reflexivity.
  - split; [tauto|]. intros _. repeat split; reflexivity.
Qed.

Lemma claude_waybar_run_witness :
  ended (Claude.main rt_none (clock_at 0) (args_of true)
           (inr (usage_claude 42 10))) = Exit 0
  /\ ended (Claude.main rt_none (clock_at 0) (args_of true)
              (inr (JObj [("five_hour", JStr "n/a")])))
     = Uncaught AttributeError.
Proof.
  split.
  - destruct (claude_waybar_run rt_none (clock_at 0) (args_of true)
                (usage_claude 42 10) eq_refl eq_refl eq_refl)
      as (H & _).
    apply H. eexists. split; [reflexivity|].
    split; right; eexists; reflexivity.
  - destruct (claude_waybar_run rt_none (clock_at 0) (args_of true)
                (JObj [("five_hour", JStr "n/a")]) eq_refl eq_refl eq_refl)
      as (_ & H).
    apply H. intros (items & [= <-] & [H5 | [i H5]] & _); discriminate.
Defined.






(** ** Windows that are missing *)

Lemma parse_window_percent_absent rt v key :
  Json.truthy v = false ->
  parse_window_percent rt v key = Ok (window 0 JNull).
Proof.
  intros H. unfold parse_window_percent, Json.or. rewrite H. reflexivity.
Qed.

Lemma parse_window_direct_absent rt v :
  Json.truthy v = false ->
  parse_window_direct rt v = Ok (window 0 JNull).
Proof.
  intros H. unfold parse_window_direct, Json.or. rewrite H. reflexivity.
Qed.

(** X14. A usage that holds neither window -- each is missing, null or
    another value that counts as false -- is shown as a window that is
    ready: with no custom format, a run in waybar mode prints the icon
    and "Ready", 0 as the percentage, the lowest class, the short window
    as the one shown, and "Not started" for both resets in the tooltip;
    it ends with code 0.  Both programs, whatever the clock and the
    [--show-5h] flag. *)
Theorem missing_windows_ready (rt : runtime) (clk : clock) (args : cli_args)
  (items rate : list (string * json)) :
  waybar args = true ->
  given (format args) = None ->
  given (tooltip_format args) = None ->
  (Json.truthy (default JNull (Json.assoc items "five_hour")) = false ->
   Json.truthy (default JNull (Json.assoc items "seven_day")) = false ->
   Claude.main rt clk args (inr (JObj items))
   = {| stdout := [dump_output
                     {| out_text := Claude.icon_styled +:+ " Ready";
                        out_tooltip := tooltip_not_started;
                        out_class := "claude-low";
                        out_alt := "5h";
                        out_percentage := 0 |}];
        stderr := [];
        ended := Exit 0 |})
  /\ (Json.or (default JNull (Json.assoc items "rate_limit")) (JObj [])
      = JObj rate ->
      Json.truthy (default JNull (Json.assoc rate "primary_window")) = false ->
      Json.truthy (default JNull (Json.assoc rate "secondary_window"))
      = false ->
      Codex.main rt clk args (inr (JObj items))
      = {| stdout := [dump_output
                        {| out_text := Codex.icon_styled +:+ " Ready";
                           out_tooltip := tooltip_not_started;
                           out_class := "codex-low";
                           out_alt := "Primary";
                           out_percentage := 0 |}];
           stderr := [];
           ended := Exit 0 |}).
Proof.
  intros Hw Hf Ht. split.
  - intros H5 H7. unfold Claude.main. rewrite Hw.
    unfold Claude.print_waybar, Claude.print_waybar_vars.
    rewrite Hf, Ht. cbn [Json.get mbind outcome_bind].
    rewrite (parse_window_percent_absent rt _ _ H5).
    rewrite (parse_window_percent_absent rt _ _ H7).
    cbn [mbind outcome_bind].
    destruct (show_5h args); reflexivity.
  - intros Hr Hp Hs. unfold Codex.main. rewrite Hw.
    unfold Codex.print_waybar, Codex.print_waybar_vars.
    rewrite Hf, Ht. cbn [Json.get mbind outcome_bind].
    rewrite Hr. cbn [Json.get mbind outcome_bind].
    rewrite (parse_window_direct_absent rt _ Hp).
    rewrite (parse_window_direct_absent rt _ Hs).
    cbn [mbind outcome_bind]. unfold Json.or. rewrite Hp, Hs.
    destruct (show_5h args); reflexivity.
Qed.

Lemma missing_windows_ready_witness :
  ended (Claude.main rt_none (clock_at 0) (args_of true)
           (inr (JObj [("five_hour", JNull)]))) = Exit 0
  /\ ended (Codex.main rt_none (clock_at 0) (args_of true)
              (inr (JObj [("rate_limit", JNull)]))) = Exit 0.
Proof.
  destruct (missing_windows_ready rt_none (clock_at 0) (args_of true)
              [("five_hour", JNull)] [] eq_refl eq_refl eq_refl)
    as [H _].
  destruct (missing_windows_ready rt_none (clock_at 0) (args_of true)
              [("rate_limit", JNull)] [] eq_refl eq_refl eq_refl)
    as [_ H'].
  rewrite (H eq_refl eq_refl), (H' eq_refl eq_refl eq_refl).
  split; reflexivity.
Defined.

(** * The variables of a template *)

Lemma last_char_app (a : string) (c : ascii) :
  last_char (a +:+ String c EmptyString) = Some c.
Proof.
  induction a as [|x a IH]; [reflexivity|].
  rewrite str_app_cons. cbn [last_char]. rewrite IH.
  destruct a; reflexivity.
Qed.

(** What [format_eta] gives for a reset time that can be read ends in
    the letter of a unit. *)
Lemma format_secs_last (secs : Z) :
  last_char (format_secs secs) = Some "s"%char
  \/ last_char (format_secs secs) = Some "h"%char
  \/ last_char (format_secs secs) = Some "m"%char.
Proof.
  unfold format_secs.
  destruct (secs <=? 0); [left; reflexivity|].
  destruct (86400 <=? secs); [|destruct (3600 <=? secs)]; cbn zeta.
  - right; left. rewrite <- !str_app_assoc. apply last_char_app.
  - right; right. rewrite <- !str_app_assoc. apply last_char_app.
  - left. rewrite <- !str_app_assoc. apply last_char_app.
Qed.

Lemma format_eta_shown rt now r :
  Json.truthy r = true ->
  format_eta rt now r <> EmptyString /\ format_eta rt now r <> NOT_STARTED.
Proof.
  intros Ht. unfold format_eta. rewrite Ht. cbn [negb].
  destruct (time_until rt now r) as [delta|]; [|split; discriminate].
  destruct (format_secs_last (whole_seconds delta)) as [H | [H | H]];
    split; intros E; rewrite E in H; discriminate.
Qed.

(** The reset text of a window is "Not started" when the window has no
    reset time, and otherwise a text that opens a block. *)
Lemma reset_str_shown rt now w :
  (reset_str rt now w <> EmptyString /\ reset_str rt now w <> NOT_STARTED)
  <-> Json.truthy (resets_at w) = true.
Proof.
  unfold reset_str. destruct (Json.truthy (resets_at w)) eqn:Ht.
  - split; [reflexivity|]. intros _. now apply format_eta_shown.
  - split; [|discriminate]. intros [_ H]. congruence.
Qed.

Lemma counts_str data name s :
  data !! name = Some (VStr s) ->
  counts data name <-> s <> EmptyString /\ s <> NOT_STARTED.
Proof.
  intros Hd. unfold counts. rewrite Hd. split.
  - intros (v & [= <-] & Ht & Hn). cbn [truthy] in Ht.
    apply negb_true_iff, str_eqb_false in Ht. split; congruence.
  - intros [He Hn]. exists (VStr s). split; [reflexivity|].
    split; [|congruence]. cbn [truthy]. apply negb_true_iff.
    unfold Str.eqb. now apply bool_decide_eq_false.
Qed.

Lemma counts_int data name n :
  data !! name = Some (VInt n) -> counts data name <-> n <> 0.
Proof.
  intros Hd. unfold counts. rewrite Hd. split.
  - intros (v & [= <-] & Ht & _). cbn [truthy] in Ht.
    now apply negb_true_iff, Z.eqb_neq in Ht.
  - intros Hn. exists (VInt n). split; [reflexivity|].
    split; [|discriminate]. cbn [truthy]. now apply negb_true_iff, Z.eqb_neq.
Qed.

Lemma counts_str_intro data name s :
  data !! name = Some (VStr s) ->
  s <> EmptyString -> s <> NOT_STARTED -> counts data name.
Proof. intros Hd He Hn. now apply (counts_str data name s Hd). Qed.

(** Settles one variable of [block_variables] once [data] is a literal
    mapping. *)
Ltac block_variable :=
  first
    [ etransitivity; [apply counts_str; reflexivity | apply reset_str_shown]
    | apply counts_int; reflexivity
    | etransitivity; [apply counts_str; reflexivity|];
      split; [intros [H _]; exact H
             | intros H; split; [exact H | try discriminate; congruence]]
    | eapply counts_str_intro;
      [ reflexivity
      | let H := fresh in intros H; vm_compute in H; discriminate H
      | let H := fresh in intros H; vm_compute in H; discriminate H ] ].

Lemma block_variables_status (full unused : bool) :
  let st := if full then "Pause" else if unused then "Ready" else EmptyString in
  (st <> EmptyString /\ st <> NOT_STARTED) <-> st <> EmptyString.
Proof.
  destruct full, unused; cbn; split; try tauto;
    intros H; split; first [exact H | discriminate].
Qed.

(** X15. Which variables open a conditional block, in both programs.
    A reset variable ("5h_reset", "7d_reset", "reset") opens one exactly
    when its window has a reset time that counts as true: without one the
    variable is "Not started", and what [format_eta] gives is never that
    text nor empty.  A percentage ("5h_pct", "7d_pct", "pct") opens one
    exactly when it is not 0, "status" exactly when it is not empty, and
    the window name and the four icons always do. *)
Theorem conditional_variables (rt : runtime) (clk : clock)
  (fh sd : WindowUsage) (show : bool) :
  block_variables (Claude.classify rt clk fh sd show)
  /\ forall p_raw s_raw v,
       Codex.classify rt clk fh sd p_raw s_raw show = Ok v ->
       block_variables v.
Proof.
  split.
  - unfold Claude.classify. rewrite claude_active_cases.
    destruct (show || _); cbn zeta beta iota;
      unfold block_variables; cbn [data short_win long_win target pct status];
      (repeat split_and; try block_variable).
    all: try (etransitivity; [apply counts_str; reflexivity|];
              apply block_variables_status).
  - intros p_raw s_raw v. unfold Codex.classify.
    rewrite codex_active_cases.
    destruct (show || _); cbn zeta beta iota;
      destruct (Json.get _ "used_percent" _) as [u| |]; try discriminate;
      cbn [mbind outcome_bind];
      destruct (Json.get _ "reset_after_seconds" _) as [r| |];
      try discriminate; cbn [mbind outcome_bind];
      destruct (Json.get _ "limit_window_seconds" _) as [l| |];
      try discriminate; cbn [mbind outcome_bind];
      destruct (Codex.unused_test u r l) as [b| |]; try discriminate;
      cbn [mbind outcome_bind]; intros [= <-];
      unfold block_variables; cbn [data short_win long_win target pct status];
      (repeat split_and; try block_variable).
    all: try (etransitivity; [apply counts_str; reflexivity|];
              apply block_variables_status).
Qed.

Lemma conditional_variables_witness :
  ~ counts (data (Claude.classify rt_none (clock_at 0) (window 0 JNull)
                    (window 0 JNull) false)) "pct"
  /\ match Codex.classify rt_none (clock_at 0) (window 0 JNull)
             (window 0 JNull) (JObj []) (JObj []) false with
     | Ok v => block_variables v
     | _ => False
     end.
Proof.
  destruct (conditional_variables rt_none (clock_at 0) (window 0 JNull)
              (window 0 JNull) false) as [Hc Hx].
  split.
  - destruct Hc as (_ & _ & _ & _ & _ & Hp & _). intros H.
    apply Hp in H. now apply H.
  - pose proof (Hx (JObj []) (JObj [])) as H.
    destruct (Codex.classify _ _ _ _ _ _ _) as [v| |] eqn:E;
      [exact (H v eq_refl) | vm_compute in E; discriminate E..].
Defined.

(** X16. What a run in waybar mode prints under "percentage" and "alt"
    is what a template gets as [{pct}] and [{win}]: the rounded
    utilization and the name of the window shown.  In claude.py the
    choice made for "percentage" under [--show-5h] changes nothing, the
    short window being the one shown then. *)
Theorem percentage_and_alt (rt : runtime) (clk : clock) (usage : json)
  (f t : option string) (show : bool) (o : waybar_output) :
  Claude.print_waybar rt clk usage f t show = Ok o
  \/ Codex.print_waybar rt clk usage f t show = Ok o ->
  exists v,
    (Claude.print_waybar_vars rt clk usage show = Ok v
     \/ Codex.print_waybar_vars rt clk usage show = Ok v)
    /\ out_percentage o = Float.round_half_even (utilization (target v))
    /\ data v !! "pct" = Some (VInt (out_percentage o))
    /\ data v !! "win" = Some (VStr (out_alt o)).
Proof.
  intros [H | H].
  - destruct (claude_output_inv _ _ _ _ _ _ _ H) as (v & Hv & _ & Ha).
    exists v. split; [now left|]. rewrite Ha.
    unfold Claude.print_waybar in H. rewrite Hv in H.
    cbn [mbind outcome_bind] in H.
    destruct (match given f with Some _ => _ | None => _ end) as [tx| |];
      try discriminate.
    destruct (match given t with Some _ => _ | None => _ end) as [tt| |];
      try discriminate.
    cbn [mbind outcome_bind] in H. injection H as <-. cbn [out_percentage].
    unfold Claude.print_waybar_vars in Hv.
    destruct (Json.get usage "five_hour" JNull) as [w5| |]; try discriminate.
    cbn [mbind outcome_bind] in Hv.
    destruct (parse_window_percent rt w5 "utilization") as [fh| |];
      try discriminate.
    cbn [mbind outcome_bind] in Hv.
    destruct (Json.get usage "seven_day" JNull) as [w7| |]; try discriminate.
    cbn [mbind outcome_bind] in Hv.
    destruct (parse_window_percent rt w7 "utilization") as [sd| |];
      try discriminate.
    injection Hv as <-.
    destruct (claude_classify_fields rt clk fh sd show)
      as (Hs & _ & Ht & _ & Hp & _ & _ & _ & _ & Hdp & _ & Hdw).
    cbn zeta in *. rewrite Hdp, Hdw, Hp, Ht, Hs.
    assert (Hshow : show = true ->
              (Claude.active_window fh sd show).1.1 = fh).
    { intros ->. reflexivity. }
    destruct show; [rewrite (Hshow eq_refl)|]; repeat split; reflexivity.
  - destruct (codex_output_inv _ _ _ _ _ _ _ H) as (v & Hv & _ & Ha & Hp).
    exists v. split; [now right|]. rewrite Ha, Hp.
    unfold Codex.print_waybar_vars in Hv.
    destruct (Json.get usage "rate_limit" JNull) as [rl| |]; try discriminate.
    cbn [mbind outcome_bind] in Hv.
    destruct (Json.get _ "primary_window" JNull) as [wp| |];
      try discriminate.
    cbn [mbind outcome_bind] in Hv.
    destruct (parse_window_direct rt wp) as [p| |]; try discriminate.
    cbn [mbind outcome_bind] in Hv.
    destruct (Json.get _ "secondary_window" JNull) as [ws| |];
      try discriminate.
    cbn [mbind outcome_bind] in Hv.
    destruct (parse_window_direct rt ws) as [s| |]; try discriminate.
    cbn [mbind outcome_bind] in Hv.
    destruct (codex_classify_fields _ _ _ _ _ _ _ _ Hv)
      as (_ & _ & Ht & _ & Hpc & _ & _ & _ & _ & Hdp & _ & Hdw).
    cbn zeta in *. rewrite Hdp, Hdw, Hpc, Ht. repeat split; reflexivity.
Qed.

Lemma percentage_and_alt_witness :
  exists v,
    (Claude.print_waybar_vars rt_none (clock_at 0) (usage_claude 42 10) true
     = Ok v
     \/ Codex.print_waybar_vars rt_none (clock_at 0) (usage_claude 42 10) true
        = Ok v)
    /\ 42 = Float.round_half_even (utilization (target v))
    /\ data v !! "pct" = Some (VInt 42)
    /\ data v !! "win" = Some (VStr "5h").
Proof.
  apply (percentage_and_alt rt_none (clock_at 0) (usage_claude 42 10)
           None None true
           {| out_text := Claude.icon_styled +:+ " 42% "
                            +:+ Claude.time_icon_styled +:+ " Not started";
              out_tooltip :=
                "Window     Used    Reset" +:+ String Re.newline
                ("━━━━━━━━━━━━━━━━━━━━━━━━" +:+ String Re.newline
                ("5-Hour      42%    Not started" +:+ String Re.newline
                ("7-Day       10%    Not started" +:+ String Re.newline
                (String Re.newline "Click to Refresh"))));
              out_class := "claude-low"; out_alt := "5h";
              out_percentage := 42 |}).
  left. vm_compute. reflexivity.
Defined.

(** * Reset times *)

Lemma rev_onto_app (a b acc : string) :
  Str.rev_onto (a +:+ b) acc = Str.rev_onto b (Str.rev_onto a acc).
Proof.
  revert acc. induction a as [|c a IH]; intros acc; [reflexivity|].
  rewrite str_app_cons. cbn [Str.rev_onto]. apply IH.
Qed.

Lemma endswith_app (s suffix : string) :
  Str.endswith (s +:+ suffix) suffix = true.
Proof.
  unfold Str.endswith, Str.rev. rewrite rev_onto_app.
  generalize (Str.rev_onto s EmptyString) as acc.
  assert (H : forall a x acc,
            String.prefix (Str.rev_onto a x) (Str.rev_onto a (x +:+ acc))
            = true).
  { induction a as [|c a IH]; intros x acc; cbn [Str.rev_onto].
    - apply str_prefix_app.
    - apply (IH (String c x) acc). }
  intros acc. apply (H suffix EmptyString acc).
Qed.

Lemma endswith_other (s : string) (c d : ascii) (t : string) :
  c <> d ->
  Str.endswith (s +:+ t +:+ String d EmptyString) (String c EmptyString)
  = false.
Proof.
  intros H. unfold Str.endswith, Str.rev.
  rewrite <- str_app_assoc, rev_onto_app. cbn [Str.rev_onto String.prefix].
  destruct (ascii_dec c d); [congruence | reflexivity].
Qed.

Lemma drop_last_snoc (s : string) (c : ascii) :
  Str.drop_last (s +:+ String c EmptyString) = s.
Proof.
  rewrite drop_last_app by discriminate. cbn [Str.drop_last].
  apply str_app_nil_r.
Qed.

(** X17. A reset time written with a final "Z" is read as the same text
    with "+00:00" in its place: [format_eta], and the reading of the
    reset time that the unused-window test of claude.py shares with it,
    give for one what they give for the other. *)
Theorem utc_suffix (rt : runtime) (now : Z) (s : string) :
  time_until rt now (JStr (s +:+ "Z")) = time_until rt now (JStr (s +:+ "+00:00"))
  /\ format_eta rt now (JStr (s +:+ "Z"))
     = format_eta rt now (JStr (s +:+ "+00:00")).
Proof.
  assert (H : time_until rt now (JStr (s +:+ "Z"))
              = time_until rt now (JStr (s +:+ "+00:00"))).
  { unfold time_until.
    rewrite (endswith_app s "Z"), drop_last_snoc.
    change (s +:+ "+00:00") with (s +:+ "+00:0" +:+ String "0" EmptyString)
      at 2.
    rewrite (endswith_other s "Z" "0" "+00:0") by discriminate.
    reflexivity. }
  split; [exact H|].
  unfold format_eta. rewrite H.
  assert (Ht : forall t, t <> EmptyString ->
                 Json.truthy (JStr (s +:+ t)) = true).
  { intros t Hne. cbn [Json.truthy]. apply negb_true_iff.
    unfold Str.eqb. apply bool_decide_eq_false.
    destruct s; [now rewrite str_app_nil_l | discriminate]. }
  now rewrite !Ht by discriminate.
Qed.

(** X18. An integer reset time outside the years 1 to 9999 counted in
    seconds -- a timestamp in milliseconds, say -- cannot be read:
    [format_eta] gives the error text for it, whatever the clock, and
    the unused-window test of claude.py fails on it, leaving the window
    counted as used. *)
Theorem timestamp_out_of_range (rt : runtime) (now : Z) (n : Z)
  (w : WindowUsage) (len : Z) :
  n < MIN_TIMESTAMP \/ MAX_TIMESTAMP < n ->
  format_eta rt now (JInt n) = ETA_ERROR
  /\ (resets_at w = JInt n -> Claude.unused_test rt now w len = false).
Proof.
  intros Hn.
  assert (Ht : time_until rt now (JInt n) = None).
  { unfold time_until, fromtimestamp.
    destruct (Z.leb_spec MIN_TIMESTAMP n), (Z.leb_spec n MAX_TIMESTAMP);
      cbn [andb]; first [reflexivity | lia]. }
  split.
  - unfold format_eta. rewrite Ht.
    assert (n <> 0) by (unfold MIN_TIMESTAMP, MAX_TIMESTAMP in Hn; lia).
    cbn [Json.truthy]. apply Z.eqb_neq in H. now rewrite H.
  - intros Hr. unfold Claude.unused_test. rewrite Hr, Ht.
    now destruct (_ && _).
Qed.

Lemma timestamp_out_of_range_witness :
  format_eta rt_none 1700000000000000 (JInt 1700000300000) = "??′??″".
Proof.
  apply (timestamp_out_of_range rt_none 1700000000000000 1700000300000
           (window 0 JNull) 18000).
  right. reflexivity.
Defined.

(** * Runs in the other mode *)

Lemma claude_cli_cases rt clk usage :
  (claude_usage_like usage
   /\ exists l5 l7,
        Claude.print_cli rt clk usage
        = Ok [JsonDump (Some 2%nat) usage; Line dashes; Line l5; Line l7])
  \/ (~ claude_usage_like usage
      /\ Claude.print_cli rt clk usage = Raise AttributeError).
Proof.
  unfold Claude.print_cli, claude_usage_like.
  destruct usage as [| b | n | x | s | l | items];
    try (right; split; [intros (items & H & _); discriminate | reflexivity]).
  cbn [Json.get mbind outcome_bind].
  set (w5 := default JNull (Json.assoc items "five_hour")).
  set (w7 := default JNull (Json.assoc items "seven_day")).
  destruct (window_like_dec w5) as [[H5 _] | [H5 _]].
  - destruct (parse_window_percent_like rt w5 "utilization" H5) as [fh ->].
    cbn [mbind outcome_bind].
    destruct (window_like_dec w7) as [[H7 _] | [H7 _]].
    + destruct (parse_window_percent_like rt w7 "utilization" H7) as [sd ->].
      left. split; [exists items; auto|]. do 2 eexists. reflexivity.
    + rewrite (parse_window_percent_unlike rt w7 _ H7).
      right. split; [|reflexivity].
      intros (items' & [= <-] & _ & H). now apply H7.
  - rewrite (parse_window_percent_unlike rt w5 _ H5).
    right. split; [|reflexivity].
    intros (items' & [= <-] & H & _). now apply H5.
Qed.

Lemma codex_cli_cases rt clk usage :
  (codex_usage_like usage
   /\ exists lp ls,
        Codex.print_cli rt clk usage
        = Ok [JsonDump (Some 2%nat) usage; Line dashes; Line lp; Line ls])
  \/ (~ codex_usage_like usage
      /\ Codex.print_cli rt clk usage = Raise AttributeError).
Proof.
  unfold Codex.print_cli, codex_usage_like.
  destruct usage as [| b | n | x | s | l | items];
    try (right; split; [intros (items & r & H & _); discriminate
                       | reflexivity]).
  cbn [Json.get mbind outcome_bind].
  set (rl := default JNull (Json.assoc items "rate_limit")).
  destruct (Json.or rl (JObj [])) as [| b | n | x | s | l | rate] eqn:Er;
    try (right; split; [intros (i & r & [= <-] & H & _); fold rl in H;
                        congruence | reflexivity]).
  cbn [Json.get mbind outcome_bind].
  set (wp := default JNull (Json.assoc rate "primary_window")).
  set (ws := default JNull (Json.assoc rate "secondary_window")).
  destruct (window_like_dec wp) as [[Hp _] | [Hp _]].
  - destruct (parse_window_direct_like rt wp Hp) as [p ->].
    cbn [mbind outcome_bind].
    destruct (window_like_dec ws) as [[Hs _] | [Hs _]].
    + destruct (parse_window_direct_like rt ws Hs) as [s ->].
      cbn [mbind outcome_bind].
      left. split; [exists items, rate; auto|]. do 2 eexists. reflexivity.
    + rewrite (parse_window_direct_unlike rt ws Hs).
      right. split; [|reflexivity].
      intros (i & r & [= <-] & H & _ & H'). fold rl in H.
      rewrite Er in H. injection H as <-. now apply Hs.
  - rewrite (parse_window_direct_unlike rt wp Hp).
    right. split; [|reflexivity].
    intros (i & r & [= <-] & H & H' & _). fold rl in H.
    rewrite Er in H. injection H as <-. now apply Hp.
Qed.

(** X19. A run outside waybar mode on a fetched usage prints the usage
    as indented JSON before it reads it.  When the usage and its windows
    are dicts, or count as false where they may, the run goes on with a
    rule and one line for each window, writes nothing to the error
    stream and ends with code 0; otherwise it ends on an
    [AttributeError] that nothing catches: the dump is all that was
    printed, and the interpreter writes the traceback to the error
    stream.  The formats of the command line play no part.  Both
    programs. *)
Theorem cli_run (rt : runtime) (clk : clock) (args : cli_args)
  (usage : json) :
  waybar args = false ->
  let done p :=
    ended p = Exit 0 /\ stderr p = []
    /\ exists l1 l2,
         stdout p = [JsonDump (Some 2%nat) usage; Line dashes;
                     Line l1; Line l2] in
  let failed p :=
    ended p = Uncaught AttributeError
    /\ stderr p = [traceback rt AttributeError]
    /\ stdout p = [JsonDump (Some 2%nat) usage] in
  (claude_usage_like usage -> done (Claude.main rt clk args (inr usage)))
  /\ (~ claude_usage_like usage ->
      failed (Claude.main rt clk args (inr usage)))
  /\ (codex_usage_like usage -> done (Codex.main rt clk args (inr usage)))
  /\ (~ codex_usage_like usage ->
      failed (Codex.main rt clk args (inr usage))).
Proof.
  intros Hw done failed. subst done failed.
  unfold Claude.main, Codex.main. rewrite Hw.
  destruct (claude_cli_cases rt clk usage) as [[Hc (l5 & l7 & ->)] | [Hc ->]];
    destruct (codex_cli_cases rt clk usage) as [[Hx (lp & ls & ->)] | [Hx ->]];
    cbn [ended stderr stdout];
    (split; [|split; [|split]]); intros H; try tauto;
    (split; [reflexivity|]; split; [reflexivity|]);
    first [reflexivity | do 2 eexists; reflexivity].
Qed.

Lemma cli_run_witness :
  ended (Claude.main rt_none (clock_at 0) (args_of false)
           (inr (usage_claude 42 10))) = Exit 0
  /\ stdout (Codex.main rt_none (clock_at 0) (args_of false)
               (inr (JStr "busy")))
     = [JsonDump (Some 2%nat) (JStr "busy")].
Proof.
  destruct (cli_run rt_none (clock_at 0) (args_of false)
              (usage_claude 42 10) eq_refl) as (H & _ & _ & _).
  destruct (cli_run rt_none (clock_at 0) (args_of false)
              (JStr "busy") eq_refl) as (_ & _ & _ & H').
  split.
  - apply H. eexists. split; [reflexivity|].
    split; right; eexists; reflexivity.
  - apply H'. intros (i & r & [=] & _).
Defined.

(** * Utilizations that are integers *)

Lemma percent_kept_exactly (n : Z) : 0 <= n <= 100 -> kept_exactly n = true.
Proof.
  intros H.
  assert (Hall : forallb kept_exactly (seqZ 0 101) = true)
    by (vm_compute; reflexivity).
  rewrite forallb_forall in Hall. apply Hall.
  apply list_elem_of_In, elem_of_seqZ. lia.
Qed.

(** X20. A utilization that the service gives as an integer from 0 to
    100 is kept as it is: both parsers return a window whose utilization
    is that number, which [round] gives back and the tooltip shows
    without a fraction. *)
Theorem integer_utilization (rt : runtime) (items : list (string * json))
  (key : string) (n : Z) :
  0 <= n <= 100 ->
  (Json.assoc items key = Some (JInt n) ->
   exists w, parse_window_percent rt (JObj items) key = Ok w
     /\ (utilization w == inject_Z n)%Q
     /\ Float.round_half_even (utilization w) = n
     /\ Float.fixed0 (utilization w) = pretty n)
  /\ (Json.assoc items "used_percent" = Some (JInt n) ->
      exists w, parse_window_direct rt (JObj items) = Ok w
        /\ (utilization w == inject_Z n)%Q
        /\ Float.round_half_even (utilization w) = n
        /\ Float.fixed0 (utilization w) = pretty n).
Proof.
  intros Hn. pose proof (percent_kept_exactly n Hn) as Hk.
  unfold kept_exactly in Hk.
  destruct (Float.nearest (inject_Z n)) as [x|] eqn:Ex; [|discriminate].
  apply andb_true_iff in Hk as [Hk Hf]. apply andb_true_iff in Hk as [Hq Hr].
  apply Qeq_bool_iff in Hq. apply Z.eqb_eq in Hr.
  unfold Str.eqb in Hf. apply bool_decide_eq_true in Hf.
  assert (Hu : match py_float rt (Json.or (JInt n) (JInt 0)) with
               | Some y => y
               | None => 0%Q
               end = x).
  { unfold Json.or. cbn [Json.truthy].
    destruct (Z.eqb_spec n 0) as [-> | _]; cbn [negb py_float];
      now rewrite Ex. }
  assert (Hobj : forall k v, Json.assoc items k = Some v ->
                   Json.or (JObj items) (JObj []) = JObj items).
  { intros k v H. unfold Json.or. cbn [Json.truthy].
    destruct items; [discriminate | reflexivity]. }
  split; intros Ha.
  - unfold parse_window_percent. rewrite (Hobj _ _ Ha).
    cbn [Json.get mbind outcome_bind]. rewrite Ha. cbn [default].
    eexists. split; [reflexivity|]. cbn [utilization].
    change (id (JInt n)) with (JInt n). rewrite Hu. auto.
  - unfold parse_window_direct. rewrite (Hobj _ _ Ha).
    cbn [Json.get mbind outcome_bind]. rewrite Ha. cbn [default].
    eexists. split; [reflexivity|]. cbn [utilization].
    change (id (JInt n)) with (JInt n). rewrite Hu. auto.
Qed.

Lemma integer_utilization_witness :
  exists w,
    parse_window_percent rt_none
      (JObj [("utilization", JInt 80); ("resets_at", JNull)]) "utilization"
    = Ok w
    /\ (utilization w == inject_Z 80)%Q
    /\ Float.round_half_even (utilization w) = 80
    /\ Float.fixed0 (utilization w) = pretty 80.
Proof.
  destruct (integer_utilization rt_none
              [("utilization", JInt 80); ("resets_at", JNull)]
              "utilization" 80 ltac:(lia)) as [H _].
  apply H. reflexivity.
Defined.
